(** * futurefailure: the performance tracker and the dynamic stock selector

    A shallow embedding of [performance_tracker.py], [stock_selector.py] and
    the two symbol tables of [config.py], with the properties of the trade
    ledger, the performance scorer, the quality heuristic and the selector.

    Conventions of the embedding.
    - In the model of the ledger, Python floats and the results of true
      division are exact rationals ([Q]). Statements about them are either
      about counts and signs, or say which operations, in which order, give
      a number; they do not rest on the laws of exact arithmetic. Where
      rounding decides, the formulas of the code are evaluated over
      binary64 with the primitive floats.
    - A Python [dict] with string keys is an association list in insertion
      order: lookup takes the first binding, assignment replaces the binding
      in place or appends a new one.
    - A datetime object is a [moment]: its wall clock, a number of
      microseconds, and its offset from UTC when it has one; subtracting an
      aware and a naive object raises [TypeError]. [fromisoformat] and
      [isoformat] are taken from the datetime library as section variables.
    - Exceptions are values of [exn]; a call either returns or raises, and
      in both cases leaves a state behind.
    - The ledger of a tracker has the layout [save_data] writes, with its
      ["trades"] and ["strategy_stats"] members; what [load_data] makes of
      other documents is stated on the documents themselves.
    - The file behind the tracker, the condition of the disk and the console
      are an explicit [world]; [json.dump] and [json.load] are taken at the
      level of the document they write and read.
    - [random.random()] is the section variable [random], a sequence of draws
      indexed by the number of draws made so far. *)

From Stdlib Require Import Floats.
From Stdlib Require Import List String Ascii Bool Arith ZArith QArith Qminmax.
From Stdlib Require Import Lia Lqa Permutation Sorted.
Import ListNotations.

Local Open Scope string_scope.
Local Open Scope list_scope.
Local Set Warnings "-register-all,-inexact-float".

(** ** Python values and control *)

Inductive exn : Type :=
| ZeroDivisionError
| ValueError
| KeyError
| TypeError
| OSError.

(** The result of an expression that may raise. *)
Inductive result (A : Type) : Type :=
| Ok (a : A)
| Raise (e : exn).
Arguments Ok {A} a.
Arguments Raise {A} e.

Definition bind {A B : Type} (r : result A) (k : A -> result B) : result B :=
  match r with
  | Ok a => k a
  | Raise e => Raise e
  end.

Notation "x <- r ;; k" := (bind r (fun x => k))
  (at level 61, r at next level, right associativity).

(** The outcome of a method call on a state [S]: the state it leaves, and
    the exception if one escaped. *)
Inductive outcome (S : Type) : Type :=
| Returned (s : S)
| Raised (e : exn) (s : S).
Arguments Returned {S} s.
Arguments Raised {S} e s.

Definition Qltb (x y : Q) : bool := negb (Qle_bool y x).

(** [a / b]: true division, [ZeroDivisionError] on a zero divisor. *)
Definition py_div (a b : Q) : result Q :=
  if Qeq_bool b 0 then Raise ZeroDivisionError else Ok (a / b)%Q.

(** [max(a, b)]: the first argument unless the second is strictly larger. *)
Definition py_max (a b : Q) : Q := if Qltb a b then b else a.

Definition of_int (n : nat) : Q := inject_Z (Z.of_nat n).

(** *** Dictionaries *)

Abbreviation dict V := (list (string * V)) (only parsing).

Fixpoint dict_get {V : Type} (k : string) (d : dict V) : option V :=
  match d with
  | [] => None
  | (k', v) :: d' => if String.eqb k k' then Some v else dict_get k d'
  end.

Definition dict_contains {V : Type} (k : string) (d : dict V) : bool :=
  match dict_get k d with Some _ => true | None => false end.

(** [d[k] = v] *)
Fixpoint dict_set {V : Type} (k : string) (v : V) (d : dict V) : dict V :=
  match d with
  | [] => [(k, v)]
  | (k', v') :: d' =>
      if String.eqb k k' then (k, v) :: d' else (k', v') :: dict_set k v d'
  end.

Definition dict_keys {V : Type} (d : dict V) : list string := map fst d.
Definition dict_values {V : Type} (d : dict V) : list V := map snd d.

(** [d.get(k, default)] *)
Definition dict_get_default {V : Type} (k : string) (default : V) (d : dict V) : V :=
  match dict_get k d with Some v => v | None => default end.

(** [x in xs] on a list of strings. *)
Definition str_in (x : string) (xs : list string) : bool :=
  existsb (String.eqb x) xs.

(** [sum(...)] over rationals and over integers. *)
Definition Qsum (l : list Q) : Q := fold_right Qplus 0%Q l.
Definition nat_sum (l : list nat) : nat := fold_right Nat.add 0%nat l.

(** *** Stable sort, largest key first

    [list.sort(key=..., reverse=True)] and [sorted(..., reverse=True)]: a
    stable sort, so elements with equal keys keep their order. *)
Section Sort.
Context {A : Type} (key : A -> Q).

Fixpoint insert_desc (x : A) (l : list A) : list A :=
  match l with
  | [] => [x]
  | y :: l' =>
      if Qltb (key x) (key y) then y :: insert_desc x l' else x :: y :: l'
  end.

Fixpoint sort_desc (l : list A) : list A :=
  match l with
  | [] => []
  | x :: l' => insert_desc x (sort_desc l')
  end.
End Sort.

(** ** JSON documents *)

Inductive json : Type :=
| JNull
| JBool (b : bool)
| JInt (z : Z)
| JFloat (q : Q)
| JStr (s : string)
| JArr (l : list json)
| JObj (m : list (string * json)).

(** [s1 in s2] on strings: substring test. *)
Definition substring_in (s1 s2 : string) : bool :=
  match String.index 0 s1 s2 with Some _ => true | None => false end.

Definition is_JStr (s : string) (j : json) : bool :=
  match j with JStr s' => String.eqb s s' | _ => false end.

(** [key in data] on a loaded document: key membership on an object,
    element membership on an array, substring on a string, [TypeError] on
    the values that are not containers. *)
Definition py_in (key : string) (data : json) : result bool :=
  match data with
  | JObj m => Ok (dict_contains key m)
  | JArr l => Ok (existsb (is_JStr key) l)
  | JStr s => Ok (substring_in key s)
  | JNull | JBool _ | JInt _ | JFloat _ => Raise TypeError
  end.

(** [data[key]] on a loaded document, for a string [key]: the member of an
    object, [KeyError] when it has none, and [TypeError] on every other
    value. *)
Definition py_getitem (data : json) (key : string) : result json :=
  match data with
  | JObj m =>
      match dict_get key m with
      | Some v => Ok v
      | None => Raise KeyError
      end
  | JNull | JBool _ | JInt _ | JFloat _ | JStr _ | JArr _ => Raise TypeError
  end.

(** ** The data model of the ledger *)

Definition datetime : Type := Z.

(** [timedelta.total_seconds()] of a difference in microseconds. *)
Definition total_seconds (td : Z) : Q := (td # 1000000)%Q.

(** A datetime object as [record_trade] may be given one or
    [fromisoformat] may build one: its wall-clock fields, and its offset
    from UTC in microseconds when it is aware ([None]: it is naive). *)
Record moment : Type := {
  wall_clock : datetime;
  utcoffset : option Z
}.

(** The naive object with the wall-clock fields [d], as [datetime.now()]
    gives. *)
Definition naive (d : datetime) : moment := {| wall_clock := d; utcoffset := None |}.

(** [a - b] on datetime objects, in microseconds: the difference of the
    wall clocks of two naive objects, the difference of the instants of two
    aware ones, [TypeError] for one of each. *)
Definition py_datetime_sub (a b : moment) : result Z :=
  match utcoffset a, utcoffset b with
  | None, None => Ok (wall_clock a - wall_clock b)%Z
  | Some oa, Some ob => Ok ((wall_clock a - oa) - (wall_clock b - ob))%Z
  | _, _ => Raise TypeError
  end.

(** A time argument of [record_trade]: an ISO string or a datetime object. *)
Inductive time_arg : Type :=
| TimeStr (s : string)
| TimeObj (d : moment).

Record TradeRecord : Type := {
  tr_timestamp : string;
  tr_strategy : string;
  tr_symbol : string;
  tr_direction : string;
  tr_entry_price : Q;
  tr_exit_price : Q;
  tr_entry_time : string;
  tr_exit_time : string;
  tr_pnl_percent : Q;
  tr_hold_time_hours : Q;
  tr_signal_strength : Q;
  tr_win : bool
}.

Record AggregateStats : Type := {
  total_trades : nat;
  winning_trades : nat;
  total_pnl : Q;
  avg_hold_time : Q
}.

(** [self.performance_data] *)
Record PerformanceData : Type := {
  trades : list TradeRecord;
  strategy_stats : dict (dict AggregateStats)
}.

(** The structure [load_data] initialises when there is nothing to load. *)
Definition empty_data : PerformanceData :=
  {| trades := []; strategy_stats := [] |}.

(** ** The world around the tracker *)

Inductive file_state : Type :=
| FileAbsent
| FileUnreadable
| FileGarbage
| FileDocument (j : json).

(** What happens to a write: it succeeds, [open] fails and the file is
    untouched, or the write breaks off and leaves a truncated file. *)
Inductive disk_state : Type :=
| DiskOk
| OpenFails
| WriteFails.

Inductive event : Type :=
| PrintSaveError
| PrintRecorded (strategy direction symbol : string) (pnl : Q).

Record world : Type := {
  file : file_state;
  disk : disk_state;
  stdout : list event
}.

Record tracker : Type := {
  performance_data : PerformanceData;
  env : world
}.

(** *** The document [json.dump] writes for the ledger *)

Definition dump_trade (t : TradeRecord) : json :=
  JObj [ ("timestamp", JStr (tr_timestamp t));
         ("strategy", JStr (tr_strategy t));
         ("symbol", JStr (tr_symbol t));
         ("direction", JStr (tr_direction t));
         ("entry_price", JFloat (tr_entry_price t));
         ("exit_price", JFloat (tr_exit_price t));
         ("entry_time", JStr (tr_entry_time t));
         ("exit_time", JStr (tr_exit_time t));
         ("pnl_percent", JFloat (tr_pnl_percent t));
         ("hold_time_hours", JFloat (tr_hold_time_hours t));
         ("signal_strength", JFloat (tr_signal_strength t));
         ("win", JBool (tr_win t)) ].

Definition dump_stats (s : AggregateStats) : json :=
  JObj [ ("total_trades", JInt (Z.of_nat (total_trades s)));
         ("winning_trades", JInt (Z.of_nat (winning_trades s)));
         ("total_pnl", JFloat (total_pnl s));
         ("avg_hold_time", JFloat (avg_hold_time s)) ].

Definition dump_dict {V : Type} (f : V -> json) (d : dict V) : json :=
  JObj (map (fun kv => (fst kv, f (snd kv))) d).

Definition dump (pd : PerformanceData) : json :=
  JObj [ ("trades", JArr (map dump_trade (trades pd)));
         ("strategy_stats", dump_dict (dump_dict dump_stats) (strategy_stats pd)) ].

(** ** performance_tracker.py *)

(** [PerformanceTracker.load_data]. The body of the [try] either returns the
    loaded document or falls through (or raises); the bare [except] and the
    fall-through both end in the empty structure. *)
Definition load_data_try (w : world) : result (option json) :=
  match file w with
  | FileAbsent => Ok None
  | FileUnreadable => Raise OSError
  | FileGarbage => Raise ValueError
  | FileDocument data =>
      found <- py_in "strategy_stats" data ;;
      if found then Ok (Some data) else Ok None
  end.

Definition load_data (w : world) : json :=
  match load_data_try w with
  | Ok (Some data) => data
  | Ok None | Raise _ => dump empty_data
  end.

(** [PerformanceTracker.save_data]: every exception of the write is caught
    and reported on the console. *)
Definition save_data (t : tracker) : tracker :=
  let w := env t in
  match disk w with
  | DiskOk =>
      {| performance_data := performance_data t;
         env := {| file := FileDocument (dump (performance_data t));
                   disk := disk w; stdout := stdout w |} |}
  | OpenFails =>
      {| performance_data := performance_data t;
         env := {| file := file w; disk := disk w;
                   stdout := stdout w ++ [PrintSaveError] |} |}
  | WriteFails =>
      {| performance_data := performance_data t;
         env := {| file := FileGarbage; disk := disk w;
                   stdout := stdout w ++ [PrintSaveError] |} |}
  end.

Definition print (e : event) (t : tracker) : tracker :=
  {| performance_data := performance_data t;
     env := {| file := file (env t); disk := disk (env t);
               stdout := stdout (env t) ++ [e] |} |}.

(** The statistics a pair starts from. *)
Definition fresh_stats : AggregateStats :=
  {| total_trades := 0; winning_trades := 0; total_pnl := 0; avg_hold_time := 0 |}.

(** The update of the statistics of one pair, lines 86 to 90. *)
Definition update_stats (pnl_percent hold_time_hours : Q) (stats : AggregateStats)
  : AggregateStats :=
  let total := S (total_trades stats) in
  {| total_trades := total;
     winning_trades :=
       if Qltb 0 pnl_percent then S (winning_trades stats) else winning_trades stats;
     total_pnl := (total_pnl stats + pnl_percent)%Q;
     avg_hold_time :=
       ((avg_hold_time stats * of_int (total - 1) + hold_time_hours) / of_int total)%Q |}.

(** [strategy_stats[strategy_name][symbol]], created on first use, then
    updated in place. *)
Definition update_strategy_stats (strategy_name symbol : string)
    (pnl_percent hold_time_hours : Q) (ss : dict (dict AggregateStats))
  : dict (dict AggregateStats) :=
  let ss1 := if dict_contains strategy_name ss then ss else dict_set strategy_name [] ss in
  let by_symbol := dict_get_default strategy_name [] ss1 in
  let by_symbol1 :=
    if dict_contains symbol by_symbol then by_symbol
    else dict_set symbol fresh_stats by_symbol in
  let stats := dict_get_default symbol fresh_stats by_symbol1 in
  dict_set strategy_name
    (dict_set symbol (update_stats pnl_percent hold_time_hours stats) by_symbol1) ss1.

(** [get_aggregate(strategy, symbol)] of the specification: the lookup
    [strategy_stats[strategy][symbol]]. *)
Definition get_aggregate (pd : PerformanceData) (strategy_name symbol : string)
  : option AggregateStats :=
  match dict_get strategy_name (strategy_stats pd) with
  | Some by_symbol => dict_get symbol by_symbol
  | None => None
  end.

Section Tracker.
(** [datetime.fromisoformat] ([None]: it raises [ValueError]) and
    [datetime.isoformat]. *)
Variable fromisoformat : string -> option moment.
Variable isoformat : moment -> string.

Definition to_datetime (t : time_arg) : result moment :=
  match t with
  | TimeObj d => Ok d
  | TimeStr s =>
      match fromisoformat s with
      | Some d => Ok d
      | None => Raise ValueError
      end
  end.

(** The profit of the trade, lines 42 to 45. *)
Definition trade_pnl (direction : string) (entry_price exit_price : Q) : result Q :=
  if String.eqb direction "long"
  then py_div (exit_price - entry_price) entry_price
  else py_div (entry_price - exit_price) entry_price.

Definition hold_hours (entry_time exit_time : datetime) : Q :=
  (total_seconds (exit_time - entry_time) / 3600)%Q.

(** Line 53: the subtraction of the two datetime objects may raise. *)
Definition hold_time (entry_time exit_time : moment) : result Q :=
  delta <- py_datetime_sub exit_time entry_time ;;
  Ok (total_seconds delta / 3600)%Q.

(** Lines 42 to 69: everything [record_trade] computes before it touches
    the ledger. [now] is the reading of the clock. *)
Definition make_trade_record (now : datetime) (strategy_name symbol : string)
    (entry_price exit_price : Q) (entry_time exit_time : time_arg)
    (direction : string) (signal_strength : Q) : result TradeRecord :=
  pnl_percent <- trade_pnl direction entry_price exit_price ;;
  entry_dt <- to_datetime entry_time ;;
  exit_dt <- to_datetime exit_time ;;
  hold_time_hours <- hold_time entry_dt exit_dt ;;
  Ok {| tr_timestamp := isoformat (naive now);
        tr_strategy := strategy_name;
        tr_symbol := symbol;
        tr_direction := direction;
        tr_entry_price := entry_price;
        tr_exit_price := exit_price;
        tr_entry_time := isoformat entry_dt;
        tr_exit_time := isoformat exit_dt;
        tr_pnl_percent := pnl_percent;
        tr_hold_time_hours := hold_time_hours;
        tr_signal_strength := signal_strength;
        tr_win := Qltb 0 pnl_percent |}.

(** Lines 71 to 90: the record is appended and the statistics updated. *)
Definition apply_trade (r : TradeRecord) (pd : PerformanceData) : PerformanceData :=
  {| trades := trades pd ++ [r];
     strategy_stats :=
       update_strategy_stats (tr_strategy r) (tr_symbol r)
         (tr_pnl_percent r) (tr_hold_time_hours r) (strategy_stats pd) |}.

(** [PerformanceTracker.record_trade] *)
Definition record_trade (now : datetime) (strategy_name symbol : string)
    (entry_price exit_price : Q) (entry_time exit_time : time_arg)
    (direction : string) (signal_strength : Q) (t : tracker) : outcome tracker :=
  match make_trade_record now strategy_name symbol entry_price exit_price
          entry_time exit_time direction signal_strength with
  | Raise e => Raised e t
  | Ok r =>
      let t1 := {| performance_data := apply_trade r (performance_data t);
                   env := env t |} in
      let t2 := save_data t1 in
      Returned (print (PrintRecorded strategy_name direction symbol (tr_pnl_percent r)) t2)
  end.
End Tracker.

(** *** The performance scorer *)

Record Performance : Type := {
  pf_total_trades : nat;
  win_rate : Q;
  avg_pnl_percent : Q;
  total_pnl_percent : Q;
  pf_avg_hold_time : Q;
  performance_score : Q
}.

(** The body of the loop of [get_strategy_performance], lines 105 to 118. *)
Definition symbol_performance (stats : AggregateStats) : result Performance :=
  win_rate <- py_div (of_int (winning_trades stats)) (of_int (total_trades stats)) ;;
  avg_pnl <- py_div (total_pnl stats) (of_int (total_trades stats)) ;;
  let performance_score := (win_rate * py_max avg_pnl (1 # 1000))%Q in
  Ok {| pf_total_trades := total_trades stats;
        win_rate := win_rate;
        avg_pnl_percent := avg_pnl;
        total_pnl_percent := total_pnl stats;
        pf_avg_hold_time := avg_hold_time stats;
        performance_score := performance_score |}.

(** The loop over [strategy_data.items()], filling [results]. *)
Fixpoint performance_loop (min_trades : nat) (items : dict AggregateStats)
    (results : dict Performance) : result (dict Performance) :=
  match items with
  | [] => Ok results
  | (symbol, stats) :: rest =>
      if (min_trades <=? total_trades stats)%nat
      then p <- symbol_performance stats ;;
           performance_loop min_trades rest (dict_set symbol p results)
      else performance_loop min_trades rest results
  end.

(** [PerformanceTracker.get_strategy_performance] *)
Definition get_strategy_performance (pd : PerformanceData) (strategy_name : string)
    (min_trades : nat) : result (dict Performance) :=
  match dict_get strategy_name (strategy_stats pd) with
  | None => Ok []
  | Some strategy_data => performance_loop min_trades strategy_data []
  end.

Definition score_of (x : string * Performance) : Q := performance_score (snd x).

(** [PerformanceTracker.get_top_performers] *)
Definition get_top_performers (pd : PerformanceData) (strategy_name : string)
    (count min_trades : nat) : result (list string) :=
  performance <- get_strategy_performance pd strategy_name min_trades ;;
  match performance with
  | [] => Ok []
  | _ => Ok (map fst (firstn count (sort_desc score_of performance)))
  end.

(** *** A loaded document read as a ledger

    [load_data] hands back the parsed document as it is. The ledger it
    stands for, when it has the persisted layout, is read off as follows. *)

Definition omap {A B : Type} (o : option A) (k : A -> option B) : option B :=
  match o with Some a => k a | None => None end.

Fixpoint traverse {A B : Type} (f : A -> option B) (l : list A) : option (list B) :=
  match l with
  | [] => Some []
  | a :: l' => omap (f a) (fun b => omap (traverse f l') (fun bs => Some (b :: bs)))
  end.

Definition as_str (j : json) : option string :=
  match j with JStr s => Some s | _ => None end.
Definition as_bool (j : json) : option bool :=
  match j with JBool b => Some b | _ => None end.
Definition as_number (j : json) : option Q :=
  match j with JFloat q => Some q | JInt z => Some (inject_Z z) | _ => None end.
Definition as_count (j : json) : option nat :=
  match j with
  | JInt z => if (0 <=? z)%Z then Some (Z.to_nat z) else None
  | _ => None
  end.

Definition get_field {A : Type} (m : list (string * json)) (k : string)
    (f : json -> option A) : option A :=
  omap (dict_get k m) f.

Definition as_trade (j : json) : option TradeRecord :=
  match j with
  | JObj m =>
      omap (get_field m "timestamp" as_str) (fun ts =>
      omap (get_field m "strategy" as_str) (fun st =>
      omap (get_field m "symbol" as_str) (fun sy =>
      omap (get_field m "direction" as_str) (fun di =>
      omap (get_field m "entry_price" as_number) (fun ep =>
      omap (get_field m "exit_price" as_number) (fun xp =>
      omap (get_field m "entry_time" as_str) (fun et =>
      omap (get_field m "exit_time" as_str) (fun xt =>
      omap (get_field m "pnl_percent" as_number) (fun pn =>
      omap (get_field m "hold_time_hours" as_number) (fun ho =>
      omap (get_field m "signal_strength" as_number) (fun si =>
      omap (get_field m "win" as_bool) (fun wi =>
      Some {| tr_timestamp := ts; tr_strategy := st; tr_symbol := sy;
              tr_direction := di; tr_entry_price := ep; tr_exit_price := xp;
              tr_entry_time := et; tr_exit_time := xt; tr_pnl_percent := pn;
              tr_hold_time_hours := ho; tr_signal_strength := si;
              tr_win := wi |}))))))))))))
  | _ => None
  end.

Definition as_stats (j : json) : option AggregateStats :=
  match j with
  | JObj m =>
      omap (get_field m "total_trades" as_count) (fun tt =>
      omap (get_field m "winning_trades" as_count) (fun wt =>
      omap (get_field m "total_pnl" as_number) (fun tp =>
      omap (get_field m "avg_hold_time" as_number) (fun ah =>
      Some {| total_trades := tt; winning_trades := wt;
              total_pnl := tp; avg_hold_time := ah |}))))
  | _ => None
  end.

Definition as_dict {V : Type} (f : json -> option V) (j : json) : option (dict V) :=
  match j with
  | JObj m => traverse (fun kv => omap (f (snd kv)) (fun v => Some (fst kv, v))) m
  | _ => None
  end.

Definition as_list {V : Type} (f : json -> option V) (j : json) : option (list V) :=
  match j with
  | JArr l => traverse f l
  | _ => None
  end.

Definition as_performance_data (j : json) : option PerformanceData :=
  match j with
  | JObj m =>
      omap (get_field m "trades" (as_list as_trade)) (fun ts =>
      omap (get_field m "strategy_stats" (as_dict (as_dict as_stats))) (fun ss =>
      Some {| trades := ts; strategy_stats := ss |}))
  | _ => None
  end.

(** ** config.py *)

Definition TOP_LIQUID_STOCKS : list string :=
  [ "AAPL"; "MSFT"; "GOOGL"; "AMZN"; "NVDA";
    "TSLA"; "META"; "AVGO"; "PEP"; "COST" ].

Definition NASDAQ_100 : list string :=
  [ "AAPL"; "MSFT"; "GOOGL"; "AMZN"; "NVDA"; "TSLA"; "META"; "AVGO";
    "PEP"; "COST"; "ADBE"; "CMCSA"; "NFLX"; "INTC"; "QCOM"; "TXN";
    "INTU"; "AMAT"; "AMD"; "ISRG"; "BKNG"; "HON"; "AMGN"; "VRTX";
    "GILD"; "MU"; "ADP"; "LRCX"; "SBUX"; "MDLZ" ].

(** ** stock_selector.py *)

(** [self.strategy_base_lists] *)
Definition strategy_base_lists : dict (list string) :=
  [ ("VWAP Mean Reversion", firstn 8 TOP_LIQUID_STOCKS);
    ("Gap Fade", firstn 25 NASDAQ_100);
    ("Technical Breakout", firstn 20 NASDAQ_100);
    ("Earnings Momentum", firstn 15 NASDAQ_100);
    ("Sector Rotation", firstn 30 NASDAQ_100);
    ("Statistical Pairs", firstn 12 TOP_LIQUID_STOCKS);
    ("RSI Mean Reversion", firstn 20 NASDAQ_100);
    ("Volume Spike Reversal", firstn 15 NASDAQ_100);
    ("End-of-Day Momentum", firstn 8 TOP_LIQUID_STOCKS);
    ("Time-Based Patterns", firstn 6 TOP_LIQUID_STOCKS);
    ("News-Driven Momentum", firstn 25 NASDAQ_100) ].

(** The list of the second branch of the liquidity test, line 103. *)
Definition MEGA_CAPS : list string := [ "AAPL"; "MSFT"; "GOOGL"; "AMZN"; "NVDA" ].

(** The score before the random term, lines 98 to 125. *)
Definition static_quality_score (symbol strategy_name : string) : Q :=
  let score := 0%Q in
  let score :=
    if str_in symbol TOP_LIQUID_STOCKS then (score + 10)%Q
    else if str_in symbol MEGA_CAPS then (score + 15)%Q
    else score in
  if String.eqb strategy_name "VWAP Mean Reversion" then
    if str_in symbol [ "AAPL"; "MSFT"; "GOOGL" ] then (score + 5)%Q else score
  else if String.eqb strategy_name "Gap Fade" then
    if str_in symbol [ "TSLA"; "NVDA"; "AMD" ] then (score + 5)%Q else score
  else if String.eqb strategy_name "Technical Breakout" then
    if str_in symbol [ "NVDA"; "TSLA"; "AMD"; "CRM" ] then (score + 5)%Q else score
  else if String.eqb strategy_name "Sector Rotation" then
    if str_in symbol [ "AAPL"; "MSFT"; "NVDA"; "GOOGL"; "META" ] then (score + 5)%Q
    else score
  else score.

(** The object handed to [update_strategy_targets]; only its name is read. *)
Record strategy_shell : Type := { name : string }.

Section Selector.
(** The draws of [random.random()], each in the unit interval. *)
Variable random : nat -> Q.

(** [random.uniform(a, b)] at the [i]-th draw. *)
Definition uniform (a b : Q) (i : nat) : Q * nat :=
  ((a + (b - a) * random i)%Q, S i).

(** [DynamicStockSelector._calculate_quality_score] *)
Definition _calculate_quality_score (symbol strategy_name : string) (i : nat)
  : Q * nat :=
  let score := static_quality_score symbol strategy_name in
  let (jitter, i1) := uniform 0 3 i in
  ((score + jitter)%Q, i1).

(** The loop that fills [quality_scores]. *)
Fixpoint score_stocks (strategy_name : string) (stocks : list string) (i : nat)
  : list (string * Q) * nat :=
  match stocks with
  | [] => ([], i)
  | stock :: rest =>
      let (score, i1) := _calculate_quality_score stock strategy_name i in
      let (quality_scores, i2) := score_stocks strategy_name rest i1 in
      ((stock, score) :: quality_scores, i2)
  end.

(** [DynamicStockSelector._performance_based_selection] *)
Definition _performance_based_selection (strategy_name : string)
    (base_list top_performers : list string) (target_count i : nat)
  : list string * nat :=
  let proven_count := Nat.min (List.length top_performers) (target_count / 2) in
  let selected := firstn proven_count top_performers in
  let remaining_count := (target_count - List.length selected)%nat in
  let candidates := filter (fun stock => negb (str_in stock selected)) base_list in
  let (quality_scores, i1) := score_stocks strategy_name candidates i in
  let quality_scores := sort_desc snd quality_scores in
  let selected := selected ++ map fst (firstn remaining_count quality_scores) in
  (firstn target_count selected, i1).

(** [DynamicStockSelector._quality_based_selection] *)
Definition _quality_based_selection (strategy_name : string)
    (base_list : list string) (target_count i : nat) : list string * nat :=
  let (quality_scores, i1) := score_stocks strategy_name base_list i in
  let quality_scores := sort_desc snd quality_scores in
  (map fst (firstn target_count quality_scores), i1).

Definition base_list_of (strategy_name : string) : list string :=
  dict_get_default strategy_name (firstn 15 NASDAQ_100) strategy_base_lists.

(** [DynamicStockSelector.get_optimized_stock_list] *)
Definition get_optimized_stock_list (pd : PerformanceData) (strategy_name : string)
    (target_count : option nat) (i : nat) : result (list string * nat) :=
  let base_list := base_list_of strategy_name in
  let target_count :=
    match target_count with
    | None => Nat.min (List.length base_list) 10
    | Some n => n
    end in
  top_performers <- get_top_performers pd strategy_name (target_count * 2) 3 ;;
  if (target_count / 2 <=? List.length top_performers)%nat
  then Ok (_performance_based_selection strategy_name base_list top_performers
             target_count i)
  else Ok (_quality_based_selection strategy_name base_list target_count i).

(** The sum of line 145. *)
Definition performance_total_trades (performance : dict Performance) : nat :=
  nat_sum (map pf_total_trades (dict_values performance)).

(** [DynamicStockSelector.update_strategy_targets]; the two messages it
    prints before returning the new list are left out. *)
Definition update_strategy_targets (pd : PerformanceData) (strategy : strategy_shell)
    (current_list : list string) (i : nat) : result (list string * nat) :=
  performance <- get_strategy_performance pd (name strategy) 5 ;;
  match performance with
  | [] => Ok (current_list, i)
  | _ =>
      optimized <- get_optimized_stock_list pd (name strategy)
                     (Some (List.length current_list)) i ;;
      let total_trades := performance_total_trades performance in
      if (20 <=? total_trades)%nat
      then Ok optimized
      else Ok (current_list, snd optimized)
  end.
End Selector.

(** ** Sequences of calls *)

(** The arguments of one call of [record_trade], with the clock reading. *)
Record trade_call : Type := {
  c_now : datetime;
  c_strategy : string;
  c_symbol : string;
  c_entry_price : Q;
  c_exit_price : Q;
  c_entry_time : time_arg;
  c_exit_time : time_arg;
  c_direction : string;
  c_signal_strength : Q
}.

Section Replay.
Variable fromisoformat : string -> option moment.
Variable isoformat : moment -> string.

Definition record_call (c : trade_call) (t : tracker) : outcome tracker :=
  record_trade fromisoformat isoformat (c_now c) (c_strategy c) (c_symbol c)
    (c_entry_price c) (c_exit_price c) (c_entry_time c) (c_exit_time c)
    (c_direction c) (c_signal_strength c) t.

(** The calls one after the other; the first exception stops the run. *)
Fixpoint replay (calls : list trade_call) (t : tracker) : outcome tracker :=
  match calls with
  | [] => Returned t
  | c :: rest =>
      match record_call c t with
      | Returned t1 => replay rest t1
      | Raised e t1 => Raised e t1
      end
  end.

Definition parses (a : time_arg) : bool :=
  match to_datetime fromisoformat a with Ok _ => true | Raise _ => false end.

(** Two time arguments that can be read and subtracted: both naive or
    both aware. *)
Definition comparable (a b : time_arg) : bool :=
  match to_datetime fromisoformat a, to_datetime fromisoformat b with
  | Ok da, Ok db =>
      match py_datetime_sub db da with Ok _ => true | Raise _ => false end
  | _, _ => false
  end.

(** The calls [record_trade] goes through with: a divisor that is not
    zero and time arguments that can be read and subtracted. *)
Definition accepted_call (c : trade_call) : bool :=
  negb (Qeq_bool (c_entry_price c) 0)
  && parses (c_entry_time c) && parses (c_exit_time c)
  && comparable (c_entry_time c) (c_exit_time c).

Definition call_for (strategy_name symbol : string) (c : trade_call) : bool :=
  String.eqb (c_strategy c) strategy_name && String.eqb (c_symbol c) symbol.

(** The hold time of a call, in hours. *)
Definition call_hold_time (c : trade_call) : Q :=
  match to_datetime fromisoformat (c_entry_time c),
        to_datetime fromisoformat (c_exit_time c) with
  | Ok entry_dt, Ok exit_dt =>
      match hold_time entry_dt exit_dt with Ok h => h | Raise _ => 0 end
  | _, _ => 0
  end.
End Replay.

(** The profit of a call and whether it wins, lines 42 to 45 and 68. *)
Definition call_pnl (c : trade_call) : Q :=
  match trade_pnl (c_direction c) (c_entry_price c) (c_exit_price c) with
  | Ok pnl_percent => pnl_percent
  | Raise _ => 0
  end.

Definition call_wins (c : trade_call) : bool := Qltb 0 (call_pnl c).

(** ** The arithmetic of the float fields

    The ledger above computes with exact rationals. The formulas of
    [record_trade] and [get_strategy_performance] that work on floats are
    written here once more over a number type with the operations the code
    uses, to be read at the rationals, where they are the formulas of the
    model above, and at binary64, where every operation rounds as the
    interpreter's does. *)

Record arith (F : Type) : Type := {
  num_zero : F;
  num_add : F -> F -> F;
  num_mul : F -> F -> F;
  num_div : F -> F -> F;
  num_ltb : F -> F -> bool;
  num_of_int : Z -> F
}.
Arguments num_zero {F} _.
Arguments num_add {F} _ _ _.
Arguments num_mul {F} _ _ _.
Arguments num_div {F} _ _ _.
Arguments num_ltb {F} _ _ _.
Arguments num_of_int {F} _ _.

Section Formulas.
Context {F : Type} (A : arith F).

Definition num_of_nat (n : nat) : F := num_of_int A (Z.of_nat n).

(** Line 53, [(exit_time - entry_time).total_seconds() / 3600], for a
    difference of [delta] microseconds. *)
Definition hold_time_hours_of (delta : Z) : F :=
  num_div A (num_div A (num_of_int A delta) (num_of_int A 1000000))
    (num_of_int A 3600).

(** Line 90: the new average, from the old one, the new count and the hold
    time of the trade. *)
Definition next_avg_hold_time (avg : F) (total_trades : nat) (hold_time_hours : F) : F :=
  num_div A
    (num_add A (num_mul A avg (num_of_nat (total_trades - 1))) hold_time_hours)
    (num_of_nat total_trades).

(** Lines 86 and 90 over the trades of one pair: the count and the average,
    both starting at 0. *)
Definition mean_step (acc : nat * F) (hold_time_hours : F) : nat * F :=
  let total_trades := S (fst acc) in
  (total_trades, next_avg_hold_time (snd acc) total_trades hold_time_hours).

Definition running_mean (holds : list F) : F :=
  snd (fold_left mean_step holds (0%nat, num_zero A)).

(** Line 87 over the trades of one pair, and [sum(...)]: the numbers added
    from the left, starting at 0. *)
Definition running_sum (l : list F) : F := fold_left (num_add A) l (num_zero A).

(** The arithmetic mean: the sum over the count. *)
Definition arithmetic_mean (l : list F) : F :=
  num_div A (running_sum l) (num_of_nat (List.length l)).

(** [max(a, b)] *)
Definition max_of (a b : F) : F := if num_ltb A a b then b else a.

(** Lines 105 to 109: the win rate, the average return and the score of
    statistics with the given counts and total return. *)
Definition rates_and_score (winning_trades total_trades : nat) (total_pnl floor : F)
  : F * F * F :=
  let win_rate := num_div A (num_of_nat winning_trades) (num_of_nat total_trades) in
  let avg_pnl := num_div A total_pnl (num_of_nat total_trades) in
  (win_rate, avg_pnl, num_mul A win_rate (max_of avg_pnl floor)).
End Formulas.

(** The rationals. *)
Definition exact : arith Q :=
  {| num_zero := 0%Q; num_add := Qplus; num_mul := Qmult; num_div := Qdiv;
     num_ltb := Qltb; num_of_int := inject_Z |}.

(** [float(z)] for an integer below [2^63] in absolute value. *)
Definition float_of_Z (z : Z) : float :=
  match z with
  | Z0 => 0%float
  | Zpos _ => PrimFloat.of_uint63 (Uint63.of_Z z)
  | Zneg p => PrimFloat.opp (PrimFloat.of_uint63 (Uint63.of_Z (Zpos p)))
  end.

(** Binary64, the floats of the interpreter. *)
Definition binary64 : arith float :=
  {| num_zero := 0%float; num_add := PrimFloat.add; num_mul := PrimFloat.mul;
     num_div := PrimFloat.div; num_ltb := PrimFloat.ltb; num_of_int := float_of_Z |}.

(** The literals [0.001], [0.0009] and [-0.1] of the scenario on the floor
    of the score, as the floats nearest to them. *)
Definition float_0_001 : float := PrimFloat.div (float_of_Z 1) (float_of_Z 1000).
Definition float_0_0009 : float := PrimFloat.div (float_of_Z 9) (float_of_Z 10000).
Definition float_minus_0_1 : float := PrimFloat.div (float_of_Z (-1)) (float_of_Z 10).

(** Hold times of 720, 1080 and 360 seconds, in microseconds. *)
Definition three_holds : list Z := [ 720000000; 1080000000; 360000000 ]%Z.
Definition three_holds_sorted : list Z := [ 360000000; 720000000; 1080000000 ]%Z.

(** ** Auxiliary definitions of the statements *)

(** The statistics of a pair, or those it would start from. *)
Definition aggregate_or_fresh (pd : PerformanceData) (s y : string) : AggregateStats :=
  match get_aggregate pd s y with Some stats => stats | None => fresh_stats end.

(** The statistics after the records [recs], one update per record. *)
Definition stats_after (recs : list TradeRecord) (stats : AggregateStats)
  : AggregateStats :=
  fold_left (fun st r => update_stats (tr_pnl_percent r) (tr_hold_time_hours r) st)
    recs stats.

(** A list of symbols without repetition, as a test. *)
Fixpoint nodupb (l : list string) : bool :=
  match l with
  | [] => true
  | x :: l' => negb (str_in x l') && nodupb l'
  end.

(** The count [get_optimized_stock_list] works with. *)
Definition effective_count (strategy_name : string) (target_count : option nat) : nat :=
  match target_count with
  | None => Nat.min (List.length (base_list_of strategy_name)) 10
  | Some n => n
  end.

(** The trades the strategy has in the ledger, over all its symbols. *)
Definition recorded_trades (pd : PerformanceData) (strategy_name : string) : nat :=
  nat_sum (map total_trades (dict_values (dict_get_default strategy_name []
                                            (strategy_stats pd)))).

(** The affinity list of a strategy, lines 107 to 125. *)
Definition affinity_list (strategy_name : string) : list string :=
  if String.eqb strategy_name "VWAP Mean Reversion" then [ "AAPL"; "MSFT"; "GOOGL" ]
  else if String.eqb strategy_name "Gap Fade" then [ "TSLA"; "NVDA"; "AMD" ]
  else if String.eqb strategy_name "Technical Breakout" then
    [ "NVDA"; "TSLA"; "AMD"; "CRM" ]
  else if String.eqb strategy_name "Sector Rotation" then
    [ "AAPL"; "MSFT"; "NVDA"; "GOOGL"; "META" ]
  else [].

(** ** Sample inputs *)

(** A tracker that has recorded nothing, on a disk in condition [d]. *)
Definition new_tracker (d : disk_state) : tracker :=
  {| performance_data := empty_data;
     env := {| file := FileAbsent; disk := d; stdout := [] |} |}.

(** A datetime library that reads no string; the calls of the examples pass
    datetime objects. *)
Definition no_parse (s : string) : option moment := None.

Definition no_format (d : moment) : string := EmptyString.

(** The record of a winning long trade held for one hour. *)
Definition sample_long_record : TradeRecord :=
  {| tr_timestamp := no_format (naive 0%Z);
     tr_strategy := "S1";
     tr_symbol := "AAPL";
     tr_direction := "long";
     tr_entry_price := 100;
     tr_exit_price := 101;
     tr_entry_time := no_format (naive 0%Z);
     tr_exit_time := no_format (naive 3600000000%Z);
     tr_pnl_percent := (101 - 100) / 100;
     tr_hold_time_hours := hold_hours 0%Z 3600000000%Z;
     tr_signal_strength := 1;
     tr_win := true |}.

(** A document that has statistics but no ["trades"] member. *)
Definition stats_only_document : json :=
  JObj [ ("strategy_stats",
          JObj [ ("Gap Fade",
                  JObj [ ("TSLA",
                          dump_stats {| total_trades := 7; winning_trades := 4;
                                        total_pnl := 7 # 100;
                                        avg_hold_time := 3 # 2 |}) ]) ]) ].

(** Two trades of one pair: a winning long held for one hour and a losing
    short held for three. *)
Definition sample_calls : list trade_call :=
  [ {| c_now := 0%Z; c_strategy := "S1"; c_symbol := "AAPL";
       c_entry_price := 100; c_exit_price := 101;
       c_entry_time := TimeObj (naive 0%Z); c_exit_time := TimeObj (naive 3600000000%Z);
       c_direction := "long"; c_signal_strength := 1 |};
    {| c_now := 0%Z; c_strategy := "S1"; c_symbol := "AAPL";
       c_entry_price := 50; c_exit_price := 52;
       c_entry_time := TimeObj (naive 0%Z); c_exit_time := TimeObj (naive 10800000000%Z);
       c_direction := "short"; c_signal_strength := 1 |} ].

(** A tracker with one trade in its ledger, on a disk that takes writes. *)
Definition sample_tracker : tracker :=
  {| performance_data := apply_trade sample_long_record empty_data;
     env := {| file := FileAbsent; disk := DiskOk; stdout := [] |} |}.

(** A ledger with one pair: ten trades, nine of them won, and a total
    return of -0.1. *)
Definition floor_ledger : PerformanceData :=
  {| trades := [];
     strategy_stats :=
       [ ("S1", [ ("AAPL", {| total_trades := 10; winning_trades := 9;
                              total_pnl := - (1 # 10); avg_hold_time := 2 |}) ]) ] |}.

(** The entry [get_strategy_performance] computes for that pair. *)
Definition floor_entry : Performance :=
  {| pf_total_trades := 10;
     win_rate := of_int 9 / of_int 10;
     avg_pnl_percent := - (1 # 10) / of_int 10;
     total_pnl_percent := - (1 # 10);
     pf_avg_hold_time := 2;
     performance_score := of_int 9 / of_int 10 * (1 # 1000) |}.

(** ** The rest of performance_tracker.py *)

(** [sum(...)] of numbers: Python adds from the left, starting at 0. *)
Definition py_sum (l : list Q) : Q := fold_left Qplus l 0.

Record Summary : Type := {
  sm_total_trades : nat;
  sm_win_rate : Q;
  sm_avg_pnl_percent : Q;
  sm_total_pnl_percent : Q;
  best_stock : list string;
  active_stocks : nat
}.

(** The records of a strategy, line 140. *)
Definition strategy_trades (pd : PerformanceData) (strategy_name : string)
  : list TradeRecord :=
  filter (fun t => String.eqb (tr_strategy t) strategy_name) (trades pd).

(** [PerformanceTracker.get_strategy_summary]; [Ok None] is the [None] it
    returns for a strategy without trades. *)
Definition get_strategy_summary (pd : PerformanceData) (strategy_name : string)
  : result (option Summary) :=
  let trades := strategy_trades pd strategy_name in
  match trades with
  | [] => Ok None
  | _ =>
      let total_trades := List.length trades in
      let winning_trades := List.length (filter tr_win trades) in
      let total_pnl := py_sum (map tr_pnl_percent trades) in
      win_rate <- py_div (of_int winning_trades) (of_int total_trades) ;;
      avg_pnl <- py_div total_pnl (of_int total_trades) ;;
      best <- get_top_performers pd strategy_name 1 3 ;;
      Ok (Some {| sm_total_trades := total_trades;
                  sm_win_rate := win_rate;
                  sm_avg_pnl_percent := avg_pnl;
                  sm_total_pnl_percent := total_pnl;
                  best_stock := best;
                  active_stocks :=
                    List.length (nodup string_dec (map tr_symbol trades)) |})
  end.

(** ** The rest of stock_selector.py *)

Record Recommendations : Type := {
  rc_strategy : string;
  recommended_stocks : list string;
  rc_performance_data : list (string * Performance);
  rc_summary : option Summary;
  data_quality : string
}.

Section Recommendations.
(** The draws of [random.random()]. *)
Variable random : nat -> Q.

(** [DynamicStockSelector.get_strategy_recommendations] *)
Definition get_strategy_recommendations (pd : PerformanceData) (strategy_name : string)
    (i : nat) : result (Recommendations * nat) :=
  performance <- get_strategy_performance pd strategy_name 5 ;;
  summary <- get_strategy_summary pd strategy_name ;;
  optimized <- get_optimized_stock_list random pd strategy_name None i ;;
  Ok ({| rc_strategy := strategy_name;
         recommended_stocks := fst optimized;
         rc_performance_data := performance;
         rc_summary := summary;
         data_quality :=
           match summary with
           | Some sm => if (50 <? sm_total_trades sm)%nat then "high" else "low"
           | None => "low"
           end |},
      snd optimized).
End Recommendations.

(** ** The strategy shells: vwap_strategy.py and its ten siblings *)

(** What [optimize_stock_list] reads and writes of a strategy. *)
Record shell_state : Type := {
  target_stocks : list string;
  last_optimization : datetime
}.

(** [timedelta.days]: whole days, rounded down. *)
Definition timedelta_days (td : Z) : Z := (td / 86400000000)%Z.

Section Shell.
Variable random : nat -> Q.

(** [optimize_stock_list] of every strategy class. [now] and [now'] are the
    two readings of the clock, at the test and at the assignment; the
    boolean tells whether the line on the updated list is printed. *)
Definition optimize_stock_list (pd : PerformanceData) (strategy : strategy_shell)
    (now now' : datetime) (sh : shell_state) (i : nat)
  : result (shell_state * bool * nat) :=
  if (timedelta_days (now - last_optimization sh) <? 1)%Z
  then Ok (sh, false, i)
  else
    let old_list := target_stocks sh in
    updated <- update_strategy_targets random pd strategy (target_stocks sh) i ;;
    let sh' := {| target_stocks := fst updated; last_optimization := now' |} in
    Ok (sh', if list_eq_dec string_dec old_list (target_stocks sh') then false else true,
        snd updated).
End Shell.

(** ** pairs_strategy.py *)

Definition traditional_pairs : list (string * string) :=
  [ ("AAPL", "MSFT"); ("GOOGL", "META"); ("NVDA", "AMD"); ("PEP", "COST") ].

Definition pair_eqb (p q : string * string) : bool :=
  String.eqb (fst p) (fst q) && String.eqb (snd p) (snd q).

(** [pair in pairs] *)
Definition pair_in (p : string * string) (pairs : list (string * string)) : bool :=
  existsb (pair_eqb p) pairs.

(** [range(0, stop, 2)] *)
Definition range_by_2 (stop : Z) : list nat :=
  filter Nat.even (seq 0 (Z.to_nat stop)).

(** The second loop of [_update_pairs_from_optimized_stocks], lines 64 to
    68. [None] stands for the [IndexError] of a subscript out of range. *)
Fixpoint add_top_pairs (top_stocks : list string) (indices : list nat)
    (optimized_pairs : list (string * string)) : option (list (string * string)) :=
  match indices with
  | [] => Some optimized_pairs
  | i :: rest =>
      if (i + 1 <? List.length top_stocks)%nat then
        match nth_error top_stocks i, nth_error top_stocks (i + 1) with
        | Some a, Some b =>
            let new_pair := (a, b) in
            add_top_pairs top_stocks rest
              (if pair_in new_pair optimized_pairs then optimized_pairs
               else optimized_pairs ++ [new_pair])
        | _, _ => None
        end
      else add_top_pairs top_stocks rest optimized_pairs
  end.

(** [StatisticalPairsStrategy._update_pairs_from_optimized_stocks]: the
    value it assigns to [self.pairs]. *)
Definition _update_pairs_from_optimized_stocks (target_stocks : list string)
  : option (list (string * string)) :=
  let optimized_pairs :=
    filter (fun pair => str_in (fst pair) target_stocks && str_in (snd pair) target_stocks)
      traditional_pairs in
  let top_stocks := firstn 8 target_stocks in
  match add_top_pairs top_stocks
          (range_by_2 (Z.of_nat (List.length top_stocks) - 1)) optimized_pairs with
  | Some optimized_pairs => Some (firstn 4 optimized_pairs)
  | None => None
  end.

(** ** Auxiliary definitions of the further statements *)

(** The records of one pair, in the order of the ledger. *)
Definition pair_trades (pd : PerformanceData) (strategy_name symbol : string)
  : list TradeRecord :=
  filter (fun t => String.eqb (tr_strategy t) strategy_name
                   && String.eqb (tr_symbol t) symbol) (trades pd).

(** The tracker a run of calls ends in, whether it returned or raised. *)
Definition final_state (o : outcome tracker) : tracker :=
  match o with Returned t => t | Raised _ t => t end.

(** The ledger and its statistics agree: a pair has statistics exactly when
    it has records, and the statistics are what the updates of lines 86 to
    90 make of those records, taken in the order of the ledger: the two
    counts, the returns added from the left, and the running average of the
    hold times. *)
Definition ledger_consistent (pd : PerformanceData) : Prop :=
  forall strategy_name symbol,
    match get_aggregate pd strategy_name symbol with
    | None => pair_trades pd strategy_name symbol = []
    | Some stats =>
        let recs := pair_trades pd strategy_name symbol in
        recs <> [] /\
        total_trades stats = List.length recs /\
        winning_trades stats = List.length (filter tr_win recs) /\
        total_pnl stats = py_sum (map tr_pnl_percent recs) /\
        avg_hold_time stats = running_mean exact (map tr_hold_time_hours recs)
    end.

(** The score of a symbol in a performance map, 0 when it has no entry. *)
Definition score_in (performance : list (string * Performance)) (symbol : string) : Q :=
  match dict_get symbol performance with
  | Some p => performance_score p
  | None => 0
  end.

(** The statistics [stats] summarise the records [recs]. *)
Definition stats_match (stats : AggregateStats) (recs : list TradeRecord) : Prop :=
  total_trades stats = List.length recs /\
  winning_trades stats = List.length (filter tr_win recs) /\
  total_pnl stats = py_sum (map tr_pnl_percent recs) /\
  avg_hold_time stats = running_mean exact (map tr_hold_time_hours recs).

(** The statistics of every strategy name each symbol once. *)
Definition stats_keys_wf (pd : PerformanceData) : Prop :=
  forall strategy_name by_symbol,
    dict_get strategy_name (strategy_stats pd) = Some by_symbol ->
    NoDup (dict_keys by_symbol).

(** A ledger of one strategy with four symbols: one ahead, two with equal
    scores, and one below the threshold of three trades. *)
Definition ranked_ledger : PerformanceData :=
  {| trades := [];
     strategy_stats :=
       [ ("Gap Fade",
          [ ("TSLA", {| total_trades := 9; winning_trades := 9;
                        total_pnl := 1 # 100; avg_hold_time := 2 |});
            ("ZZZ", {| total_trades := 10; winning_trades := 5;
                       total_pnl := 5 # 100; avg_hold_time := 2 |});
            ("AMD", {| total_trades := 2; winning_trades := 2;
                       total_pnl := 1; avg_hold_time := 2 |});
            ("NVDA", {| total_trades := 9; winning_trades := 9;
                        total_pnl := 1 # 100; avg_hold_time := 2 |}) ]) ] |}.

(** The entry of ["ZZZ"] in the performance map of that ledger: an average
    return of 0.005, above the floor of the score. *)
Definition ranked_entry : Performance :=
  {| pf_total_trades := 10;
     win_rate := of_int 5 / of_int 10;
     avg_pnl_percent := (5 # 100) / of_int 10;
     total_pnl_percent := 5 # 100;
     pf_avg_hold_time := 2;
     performance_score := of_int 5 / of_int 10 * ((5 # 100) / of_int 10) |}.

(** A ledger of one strategy with 19 trades, all of them counted in its
    performance map. *)
Definition sparse_ledger : PerformanceData :=
  {| trades := [];
     strategy_stats :=
       [ ("Gap Fade",
          [ ("ZZZ", {| total_trades := 10; winning_trades := 5;
                       total_pnl := 5 # 100; avg_hold_time := 2 |});
            ("TSLA", {| total_trades := 9; winning_trades := 9;
                        total_pnl := 1 # 100; avg_hold_time := 2 |}) ]) ] |}.

(** The entry of the performance map after the two sample trades. *)
Definition sample_entry : Performance :=
  {| pf_total_trades := 2;
     win_rate := of_int 1 / of_int 2;
     avg_pnl_percent := (0 + (101 - 100) / 100 + (50 - 52) / 50) / of_int 2;
     total_pnl_percent := 0 + (101 - 100) / 100 + (50 - 52) / 50;
     pf_avg_hold_time :=
       ((0 * of_int (1 - 1) + hold_hours 0%Z 3600000000%Z) / of_int 1
        * of_int (2 - 1) + hold_hours 0%Z 10800000000%Z) / of_int 2;
     performance_score := of_int 1 / of_int 2 * (1 # 1000) |}.

(** * Properties *)

(** ** Dictionaries *)

Lemma dict_get_set_same {V : Type} (k : string) (v : V) (d : dict V) :
  dict_get k (dict_set k v d) = Some v.
Proof.
  induction d as [|[k' v'] d IH]; simpl.
  - now rewrite String.eqb_refl.
  - destruct (String.eqb k k') eqn:E; simpl.
    + now rewrite String.eqb_refl.
    + now rewrite E.
Qed.

Lemma dict_get_set_other {V : Type} (k k' : string) (v : V) (d : dict V) :
  k <> k' -> dict_get k' (dict_set k v d) = dict_get k' d.
Proof.
  intros Hne. induction d as [|[k0 v0] d IH]; simpl.
  - destruct (String.eqb k' k) eqn:E; [|reflexivity].
    apply String.eqb_eq in E. congruence.
  - destruct (String.eqb k k0) eqn:E; simpl.
    + apply String.eqb_eq in E. subst k0.
      destruct (String.eqb k' k) eqn:E'; [|reflexivity].
      apply String.eqb_eq in E'. congruence.
    + destruct (String.eqb k' k0); [reflexivity | exact IH].
Qed.

Lemma dict_keys_set {V : Type} (k : string) (v : V) (d : dict V) :
  dict_keys (dict_set k v d) =
  if dict_contains k d then dict_keys d else dict_keys d ++ [k].
Proof.
  unfold dict_contains, dict_keys.
  induction d as [|[k' v'] d IH]; simpl; [reflexivity|].
  destruct (String.eqb k k') eqn:E; simpl.
  - apply String.eqb_eq in E. now subst.
  - rewrite IH. now destruct (dict_get k d).
Qed.

Lemma dict_contains_In {V : Type} (k : string) (d : dict V) :
  dict_contains k d = true <-> In k (dict_keys d).
Proof.
  unfold dict_contains, dict_keys.
  induction d as [|[k' v'] d IH]; simpl.
  - split; [discriminate | tauto].
  - destruct (String.eqb k k') eqn:E.
    + apply String.eqb_eq in E. subst. tauto.
    + apply String.eqb_neq in E. rewrite IH. split; [tauto|].
      intros [H|H]; [congruence | exact H].
Qed.

Lemma dict_set_NoDup {V : Type} (k : string) (v : V) (d : dict V) :
  NoDup (dict_keys d) -> NoDup (dict_keys (dict_set k v d)).
Proof.
  intros Hd. rewrite dict_keys_set.
  destruct (dict_contains k d) eqn:E; [exact Hd|].
  apply NoDup_app; [exact Hd | repeat constructor; simpl; tauto |].
  intros x Hx [Hk|[]]. subst x.
  apply dict_contains_In in Hx. congruence.
Qed.

(** ** The aggregate of a pair after one more trade *)

Lemma get_aggregate_update_same (s y : string) (pnl hold : Q)
    (ss : dict (dict AggregateStats)) :
  get_aggregate {| trades := []; strategy_stats := update_strategy_stats s y pnl hold ss |} s y
  = Some (update_stats pnl hold
            (match get_aggregate {| trades := []; strategy_stats := ss |} s y with
             | Some stats => stats
             | None => fresh_stats
             end)).
Proof.
  unfold get_aggregate, update_strategy_stats, dict_get_default, dict_contains; simpl.
  destruct (dict_get s ss) as [by_symbol|] eqn:Es.
  - rewrite Es, dict_get_set_same.
    destruct (dict_get y by_symbol) eqn:Ey.
    + now rewrite Ey, dict_get_set_same.
    + now rewrite !dict_get_set_same.
  - rewrite !dict_get_set_same. simpl. now rewrite String.eqb_refl.
Qed.

Lemma get_aggregate_apply_trade (r : TradeRecord) (pd : PerformanceData) :
  get_aggregate (apply_trade r pd) (tr_strategy r) (tr_symbol r)
  = Some (update_stats (tr_pnl_percent r) (tr_hold_time_hours r)
            (match get_aggregate pd (tr_strategy r) (tr_symbol r) with
             | Some stats => stats
             | None => fresh_stats
             end)).
Proof.
  unfold apply_trade.
  exact (get_aggregate_update_same (tr_strategy r) (tr_symbol r)
           (tr_pnl_percent r) (tr_hold_time_hours r) (strategy_stats pd)).
Qed.

(** ** record_trade *)

Lemma Qeq_bool_false (x y : Q) : Qeq_bool x y = false <-> ~ x == y.
Proof.
  split.
  - intros E H. apply Qeq_bool_iff in H. congruence.
  - intros H. destruct (Qeq_bool x y) eqn:E; [|reflexivity].
    apply Qeq_bool_iff in E. contradiction.
Qed.

Lemma Qltb_lt (x y : Q) : Qltb x y = true <-> x < y.
Proof.
  unfold Qltb. rewrite negb_true_iff. split.
  - intros E. apply Qnot_le_lt. intros H. apply Qle_bool_iff in H. congruence.
  - intros H. destruct (Qle_bool y x) eqn:E; [|reflexivity].
    apply Qle_bool_iff in E. apply Qle_not_lt in E. contradiction.
Qed.

Lemma Qltb_ge (x y : Q) : Qltb x y = false <-> y <= x.
Proof.
  unfold Qltb. rewrite negb_false_iff. apply Qle_bool_iff.
Qed.

Lemma performance_data_save (t : tracker) :
  performance_data (save_data t) = performance_data t.
Proof. unfold save_data. now destruct (disk (env t)). Qed.

Lemma performance_data_print (e : event) (t : tracker) :
  performance_data (print e t) = performance_data t.
Proof. reflexivity. Qed.

Section TrackerFacts.
Variable fromisoformat : string -> option moment.
Variable isoformat : moment -> string.

Lemma parses_true (a : time_arg) :
  parses fromisoformat a = true <-> exists d, to_datetime fromisoformat a = Ok d.
Proof.
  unfold parses.
  destruct (to_datetime fromisoformat a) eqn:E.
  - split; [eauto | reflexivity].
  - split; [discriminate | intros [d' H]; discriminate].
Qed.

Lemma to_datetime_raises (a : time_arg) (e : exn) :
  to_datetime fromisoformat a = Raise e -> e = ValueError /\ parses fromisoformat a = false.
Proof.
  unfold parses. intros H. rewrite H.
  split; [|reflexivity].
  destruct a as [s|d]; simpl in H; [|discriminate].
  destruct (fromisoformat s); [discriminate|]. now inversion H.
Qed.

(** The subtraction of line 53 raises [TypeError] and nothing else. *)
Lemma hold_time_raises (entry_dt exit_dt : moment) (e : exn) :
  hold_time entry_dt exit_dt = Raise e -> e = TypeError.
Proof.
  unfold hold_time, py_datetime_sub.
  destruct (utcoffset exit_dt), (utcoffset entry_dt); simpl; intros H;
    now inversion H.
Qed.

(** Two naive objects can be subtracted. *)
Lemma hold_time_naive (entry_time exit_time : datetime) :
  hold_time (naive entry_time) (naive exit_time) = Ok (hold_hours entry_time exit_time).
Proof. reflexivity. Qed.

Lemma comparable_true (a b : time_arg) :
  comparable fromisoformat a b = true <->
  exists da db h,
    to_datetime fromisoformat a = Ok da /\ to_datetime fromisoformat b = Ok db /\
    hold_time da db = Ok h.
Proof.
  unfold comparable, hold_time.
  destruct (to_datetime fromisoformat a) as [da|]; [|split; [discriminate|]].
  - destruct (to_datetime fromisoformat b) as [db|]; [|split; [discriminate|]].
    + destruct (py_datetime_sub db da) as [delta|] eqn:E; simpl.
      * split; [|reflexivity]. intros _. exists da, db. eexists.
        rewrite E. now repeat split.
      * split; [discriminate|]. intros (da' & db' & h & Ha & Hb & Hh).
        inversion Ha; inversion Hb; subst. rewrite E in Hh. discriminate.
    + intros (da' & db' & h & _ & Hb & _). discriminate.
  - intros (da' & db' & h & Ha & _). discriminate.
Qed.

(** [make_trade_record], step by step. *)
Lemma make_trade_record_steps now s y ep xp et xt d sig :
  make_trade_record fromisoformat isoformat now s y ep xp et xt d sig =
  if Qeq_bool ep 0 then Raise ZeroDivisionError
  else
    match to_datetime fromisoformat et with
    | Raise e => Raise e
    | Ok entry_dt =>
        match to_datetime fromisoformat xt with
        | Raise e => Raise e
        | Ok exit_dt =>
            match hold_time entry_dt exit_dt with
            | Raise e => Raise e
            | Ok hold_time_hours =>
                Ok {| tr_timestamp := isoformat (naive now);
                      tr_strategy := s;
                      tr_symbol := y;
                      tr_direction := d;
                      tr_entry_price := ep;
                      tr_exit_price := xp;
                      tr_entry_time := isoformat entry_dt;
                      tr_exit_time := isoformat exit_dt;
                      tr_pnl_percent :=
                        if String.eqb d "long" then (xp - ep) / ep else (ep - xp) / ep;
                      tr_hold_time_hours := hold_time_hours;
                      tr_signal_strength := sig;
                      tr_win :=
                        Qltb 0 (if String.eqb d "long" then (xp - ep) / ep
                                else (ep - xp) / ep) |}
            end
        end
    end.
Proof.
  unfold make_trade_record, trade_pnl, py_div.
  destruct (String.eqb d "long"); destruct (Qeq_bool ep 0); try reflexivity;
    simpl;
    destruct (to_datetime fromisoformat et) as [de|]; try reflexivity; simpl;
    destruct (to_datetime fromisoformat xt) as [dx|]; try reflexivity; simpl;
    destruct (hold_time de dx); reflexivity.
Qed.

(** What [make_trade_record] yields when it goes through. *)
Lemma make_trade_record_ok now s y ep xp et xt d sig entry_dt exit_dt hold :
  ~ ep == 0 -> to_datetime fromisoformat et = Ok entry_dt ->
  to_datetime fromisoformat xt = Ok exit_dt ->
  hold_time entry_dt exit_dt = Ok hold ->
  make_trade_record fromisoformat isoformat now s y ep xp et xt d sig =
  Ok {| tr_timestamp := isoformat (naive now);
        tr_strategy := s;
        tr_symbol := y;
        tr_direction := d;
        tr_entry_price := ep;
        tr_exit_price := xp;
        tr_entry_time := isoformat entry_dt;
        tr_exit_time := isoformat exit_dt;
        tr_pnl_percent :=
          if String.eqb d "long" then (xp - ep) / ep else (ep - xp) / ep;
        tr_hold_time_hours := hold;
        tr_signal_strength := sig;
        tr_win :=
          Qltb 0 (if String.eqb d "long" then (xp - ep) / ep else (ep - xp) / ep) |}.
Proof.
  intros Hep He Hx Hh. apply Qeq_bool_false in Hep.
  now rewrite make_trade_record_steps, Hep, He, Hx, Hh.
Qed.

(** The three ways [make_trade_record] raises. *)
Lemma make_trade_record_raises now s y ep xp et xt d sig e :
  make_trade_record fromisoformat isoformat now s y ep xp et xt d sig = Raise e ->
  (e = ZeroDivisionError /\ ep == 0) \/
  (e = ValueError /\ ~ ep == 0 /\
   (parses fromisoformat et = false \/ parses fromisoformat xt = false)) \/
  (e = TypeError /\ ~ ep == 0 /\
   parses fromisoformat et = true /\ parses fromisoformat xt = true /\
   comparable fromisoformat et xt = false).
Proof.
  rewrite make_trade_record_steps.
  destruct (Qeq_bool ep 0) eqn:Hep.
  - intros H. apply Qeq_bool_iff in Hep. left. now inversion H.
  - apply Qeq_bool_false in Hep.
    destruct (to_datetime fromisoformat et) as [de|e1] eqn:Ee.
    2: { intros H. inversion H; subst. apply to_datetime_raises in Ee. right. left. tauto. }
    destruct (to_datetime fromisoformat xt) as [dx|e2] eqn:Ex.
    2: { intros H. inversion H; subst. apply to_datetime_raises in Ex. right. left. tauto. }
    destruct (hold_time de dx) as [h|e3] eqn:Eh; [discriminate|].
    intros H. inversion H; subst. right. right.
    split; [now apply (hold_time_raises de dx)|]. split; [exact Hep|].
    split; [apply parses_true; eauto|]. split; [apply parses_true; eauto|].
    destruct (comparable fromisoformat et xt) eqn:Ec; [|reflexivity].
    apply comparable_true in Ec. destruct Ec as (da & db & h & Ha & Hb & Hh).
    rewrite Ee in Ha. rewrite Ex in Hb. inversion Ha; inversion Hb; subst.
    rewrite Eh in Hh. discriminate.
Qed.

Lemma make_trade_record_fields now s y ep xp et xt d sig r :
  make_trade_record fromisoformat isoformat now s y ep xp et xt d sig = Ok r ->
  tr_strategy r = s /\ tr_symbol r = y /\ tr_direction r = d /\
  ~ ep == 0 /\ parses fromisoformat et = true /\ parses fromisoformat xt = true /\
  comparable fromisoformat et xt = true /\
  tr_pnl_percent r = (if String.eqb d "long" then (xp - ep) / ep else (ep - xp) / ep) /\
  tr_win r = Qltb 0 (tr_pnl_percent r) /\
  tr_entry_price r = ep /\ tr_exit_price r = xp.
Proof.
  rewrite make_trade_record_steps.
  destruct (Qeq_bool ep 0) eqn:Hep; [discriminate|].
  apply Qeq_bool_false in Hep.
  destruct (to_datetime fromisoformat et) as [de|e1] eqn:Ee; [|discriminate].
  destruct (to_datetime fromisoformat xt) as [dx|e2] eqn:Ex; [|discriminate].
  destruct (hold_time de dx) as [h|e3] eqn:Eh; [|discriminate].
  intros H. inversion H; subst; simpl.
  split; [reflexivity|]. split; [reflexivity|]. split; [reflexivity|].
  split; [exact Hep|]. split; [apply parses_true; eauto|].
  split; [apply parses_true; eauto|].
  split; [apply comparable_true; exists de, dx, h; now repeat split|].
  now repeat split.
Qed.

(** [record_trade] in terms of [make_trade_record]. *)
Lemma record_trade_returns now s y ep xp et xt d sig t r :
  make_trade_record fromisoformat isoformat now s y ep xp et xt d sig = Ok r ->
  exists t',
    record_trade fromisoformat isoformat now s y ep xp et xt d sig t = Returned t' /\
    performance_data t' = apply_trade r (performance_data t).
Proof.
  intros H. unfold record_trade.
  rewrite H.
  eexists. split; [reflexivity|].
  now rewrite performance_data_print, performance_data_save.
Qed.

(** A call with a divisor that is not zero and times that can be read and
    subtracted makes its record. *)
Lemma make_trade_record_accepted now s y ep xp et xt d sig :
  ~ ep == 0 -> comparable fromisoformat et xt = true ->
  exists r, make_trade_record fromisoformat isoformat now s y ep xp et xt d sig = Ok r.
Proof.
  intros Hep Hc. apply comparable_true in Hc.
  destruct Hc as (de & dx & h & He & Hx & Hh).
  eexists. exact (make_trade_record_ok now s y ep xp et xt d sig de dx h Hep He Hx Hh).
Qed.
End TrackerFacts.

(** ** The claims on record_trade *)

(** C1, as stated, fails: a call whose [exit_time] lies two hours before its
    [entry_time] returns normally; the trade is appended, and the pair,
    which had no statistics, now has one trade with an average hold time
    of minus two hours. *)
Lemma record_trade_accepts_inverted_times :
  (0 < 7200000000)%Z /\
  exists t' stats,
    record_trade no_parse no_format 0%Z "S1" "AAPL" 100 101
      (TimeObj (naive 7200000000%Z)) (TimeObj (naive 0%Z)) "long" 1 (new_tracker DiskOk) = Returned t' /\
    trades (performance_data (new_tracker DiskOk)) = [] /\
    List.length (trades (performance_data t')) = 1%nat /\
    get_aggregate (performance_data (new_tracker DiskOk)) "S1" "AAPL" = None /\
    get_aggregate (performance_data t') "S1" "AAPL" = Some stats /\
    total_trades stats = 1%nat /\
    avg_hold_time stats == - (2).
Proof.
  split; [lia|]. eexists _, _. split; [reflexivity|].
  split; [reflexivity|]. split; [reflexivity|]. split; [reflexivity|].
  split; [reflexivity|]. split; [reflexivity|]. vm_compute. reflexivity.
Qed.

(** C1 (amended): [record_trade] checks neither the prices nor the order of
    the times. On a ledger of the layout [save_data] writes, a call given
    prices as numbers and times as ISO strings or datetime objects raises in
    three cases only, each before the ledger is touched: [ZeroDivisionError]
    when [entry_price] is zero, [ValueError] when a time string cannot be
    read, and [TypeError] when one of the two times carries an offset from
    UTC and the other does not, so that line 53 cannot subtract them. The
    tracker is then as it was. In every other case, a negative price or an
    [exit_time] before [entry_time] included, the call returns, the record
    is appended, and the aggregate of the pair is the update of the former
    one, with one more trade. *)
Theorem record_trade_checks_nothing
    (fromisoformat : string -> option moment) (isoformat : moment -> string)
    (now : datetime) (s y : string) (ep xp : Q) (et xt : time_arg) (d : string)
    (sig : Q) (t : tracker) :
  match record_trade fromisoformat isoformat now s y ep xp et xt d sig t with
  | Raised e t' =>
      t' = t /\
      ((e = ZeroDivisionError /\ ep == 0) \/
       (e = ValueError /\ ~ ep == 0 /\
        (parses fromisoformat et = false \/ parses fromisoformat xt = false)) \/
       (e = TypeError /\ ~ ep == 0 /\
        parses fromisoformat et = true /\ parses fromisoformat xt = true /\
        comparable fromisoformat et xt = false))
  | Returned t' =>
      ~ ep == 0 /\ parses fromisoformat et = true /\ parses fromisoformat xt = true /\
      comparable fromisoformat et xt = true /\
      exists r stats,
        trades (performance_data t') = trades (performance_data t) ++ [r] /\
        get_aggregate (performance_data t') s y = Some stats /\
        stats = update_stats (tr_pnl_percent r) (tr_hold_time_hours r)
                  (match get_aggregate (performance_data t) s y with
                   | Some old => old
                   | None => fresh_stats
                   end) /\
        total_trades stats =
          S (match get_aggregate (performance_data t) s y with
             | Some old => total_trades old
             | None => 0%nat
             end)
  end.
Proof.
  destruct (make_trade_record fromisoformat isoformat now s y ep xp et xt d sig)
    as [r|e] eqn:E.
  - destruct (record_trade_returns fromisoformat isoformat now s y ep xp et xt d sig t r E)
      as (t' & -> & Hpd).
    destruct (make_trade_record_fields _ _ _ _ _ _ _ _ _ _ _ _ E)
      as (Hs & Hy & _ & Hep & He & Hx & Hc & _).
    repeat (split; [assumption|]).
    exists r. eexists. rewrite Hpd. split; [reflexivity|].
    rewrite <- Hs, <- Hy at 1. rewrite get_aggregate_apply_trade.
    rewrite Hs, Hy. split; [reflexivity|]. split; [reflexivity|].
    simpl. now destruct (get_aggregate (performance_data t) s y).
  - unfold record_trade. rewrite E. split; [reflexivity|].
    exact (make_trade_record_raises _ _ _ _ _ _ _ _ _ _ _ _ E).
Qed.

(** The third case at work: an entry time with an offset from UTC and an
    exit time without one. The call raises [TypeError] and the tracker is
    as it was. *)
Lemma record_trade_mixed_times_raise :
  record_trade no_parse no_format 0%Z "S1" "AAPL" 100 98
    (TimeObj {| wall_clock := 0%Z; utcoffset := Some 0%Z |})
    (TimeObj (naive 3600000000%Z)) "short" 1 (new_tracker DiskOk)
  = Raised TypeError (new_tracker DiskOk).
Proof. reflexivity. Qed.

(** C10: whatever [direction] is, as long as it is not the string
    ["long"], a call that divides by a non-zero [entry_price] and whose
    times can be read and subtracted from one another is accepted, and the
    record it appends carries the direction as given, the profit of a short
    position, [(entry_price - exit_price) / entry_price], and [win] set
    exactly when that profit is positive. *)
Theorem record_trade_other_direction_is_short
    (fromisoformat : string -> option moment) (isoformat : moment -> string)
    (now : datetime) (s y : string) (ep xp : Q) (et xt : time_arg) (d : string)
    (sig : Q) (t : tracker) :
  d <> "long" ->
  ~ ep == 0 ->
  parses fromisoformat et = true ->
  parses fromisoformat xt = true ->
  comparable fromisoformat et xt = true ->
  exists t' r,
    record_trade fromisoformat isoformat now s y ep xp et xt d sig t = Returned t' /\
    trades (performance_data t') = trades (performance_data t) ++ [r] /\
    tr_direction r = d /\
    tr_pnl_percent r = (ep - xp) / ep /\
    (tr_win r = true <-> 0 < (ep - xp) / ep) /\
    exists stats,
      get_aggregate (performance_data t') s y = Some stats /\
      winning_trades stats =
        ((match get_aggregate (performance_data t) s y with
          | Some old => winning_trades old
          | None => 0
          end) + (if tr_win r then 1 else 0))%nat.
Proof.
  intros Hd Hep _ _ Hc.
  apply comparable_true in Hc. destruct Hc as (entry_dt & exit_dt & hold & He & Hx & Hh).
  pose proof (make_trade_record_ok fromisoformat isoformat now s y ep xp et xt d sig
                entry_dt exit_dt hold Hep He Hx Hh) as E.
  apply String.eqb_neq in Hd. rewrite Hd in E.
  destruct (record_trade_returns fromisoformat isoformat now s y ep xp et xt d sig t _ E)
    as (t' & Hr & Hpd).
  eexists t', _. split; [exact Hr|]. rewrite Hpd.
  split; [reflexivity|]. split; [reflexivity|]. split; [reflexivity|].
  split; [apply Qltb_lt|].
  eexists. split.
  - match goal with |- get_aggregate (apply_trade ?r _) _ _ = _ =>
      exact (get_aggregate_apply_trade r (performance_data t)) end.
  - simpl. destruct (get_aggregate (performance_data t) s y);
      destruct (Qltb 0 ((ep - xp) / ep)); simpl; lia.
Qed.

(** C10 at a direction that is neither ["long"] nor ["short"]. *)
Lemma record_trade_other_direction_is_short_witness :
  exists t' r,
    record_trade no_parse no_format 0%Z "S1" "AAPL" 100 98 (TimeObj (naive 0%Z))
      (TimeObj (naive 3600000000%Z)) "sideways" 1 (new_tracker DiskOk) = Returned t' /\
    trades (performance_data t') = trades (performance_data (new_tracker DiskOk)) ++ [r] /\
    tr_direction r = "sideways" /\
    tr_pnl_percent r = (100 - 98) / 100 /\
    (tr_win r = true <-> 0 < (100 - 98) / 100) /\
    exists stats,
      get_aggregate (performance_data t') "S1" "AAPL" = Some stats /\
      winning_trades stats =
        ((match get_aggregate (performance_data (new_tracker DiskOk)) "S1" "AAPL" with
          | Some old => winning_trades old
          | None => 0
          end) + (if tr_win r then 1 else 0))%nat.
Proof.
  apply (record_trade_other_direction_is_short no_parse no_format 0%Z "S1" "AAPL"
           100 98 (TimeObj (naive 0%Z)) (TimeObj (naive 3600000000%Z)) "sideways" 1
           (new_tracker DiskOk)).
  - discriminate.
  - intros H. vm_compute in H. discriminate.
  - reflexivity.
  - reflexivity.
  - reflexivity.
Defined.

(** C9, as stated, fails: on a disk where [open] fails, a call of
    [record_trade] returns normally. Nothing reached the file, the ledger
    in memory holds the trade, and the failure is a line on the console. *)
Lemma record_trade_swallows_save_failure :
  exists t',
    record_trade no_parse no_format 0%Z "S1" "AAPL" 100 101 (TimeObj (naive 0%Z))
      (TimeObj (naive 3600000000%Z)) "long" 1 (new_tracker OpenFails) = Returned t' /\
    file (env t') = FileAbsent /\
    List.length (trades (performance_data t')) = 1%nat /\
    stdout (env t') = [PrintSaveError; PrintRecorded "S1" "long" "AAPL" ((101 - 100) / 100)].
Proof.
  eexists. split; [reflexivity|]. repeat split; reflexivity.
Qed.

(** C9 (amended): when the write of [save_data] fails, [record_trade] does
    not pass the failure on. A call that gets as far as the ledger returns
    normally, with the trade in the ledger in memory; the file is either
    untouched ([open] failed) or left truncated, and the failure is
    reported on the console before the line of the recorded trade. *)
Theorem record_trade_save_failure_not_raised
    (fromisoformat : string -> option moment) (isoformat : moment -> string)
    (now : datetime) (s y : string) (ep xp : Q) (et xt : time_arg) (d : string)
    (sig : Q) (t : tracker) (r : TradeRecord) :
  disk (env t) <> DiskOk ->
  make_trade_record fromisoformat isoformat now s y ep xp et xt d sig = Ok r ->
  exists t',
    record_trade fromisoformat isoformat now s y ep xp et xt d sig t = Returned t' /\
    performance_data t' = apply_trade r (performance_data t) /\
    file (env t') =
      (match disk (env t) with OpenFails => file (env t) | _ => FileGarbage end) /\
    stdout (env t') =
      stdout (env t) ++ [PrintSaveError; PrintRecorded s d y (tr_pnl_percent r)].
Proof.
  intros Hdisk E. unfold record_trade. rewrite E.
  eexists. split; [reflexivity|].
  rewrite performance_data_print, performance_data_save. simpl.
  split; [reflexivity|].
  unfold save_data; simpl.
  destruct (disk (env t)); [congruence | |]; simpl;
    (split; [reflexivity | now rewrite <- app_assoc]).
Qed.

(** C9 (amended) on a disk where the write breaks off. *)
Lemma record_trade_save_failure_not_raised_witness :
  exists t',
    record_trade no_parse no_format 0%Z "S1" "AAPL" 100 101 (TimeObj (naive 0%Z))
      (TimeObj (naive 3600000000%Z)) "long" 1 (new_tracker WriteFails) = Returned t' /\
    performance_data t' =
      apply_trade sample_long_record (performance_data (new_tracker WriteFails)) /\
    file (env t') =
      (match disk (env (new_tracker WriteFails)) with
       | OpenFails => file (env (new_tracker WriteFails))
       | _ => FileGarbage
       end) /\
    stdout (env t') =
      stdout (env (new_tracker WriteFails))
      ++ [PrintSaveError;
          PrintRecorded "S1" "long" "AAPL" (tr_pnl_percent sample_long_record)].
Proof.
  apply (record_trade_save_failure_not_raised no_parse no_format 0%Z "S1" "AAPL"
           100 101 (TimeObj (naive 0%Z)) (TimeObj (naive 3600000000%Z)) "long" 1
           (new_tracker WriteFails) sample_long_record).
  - discriminate.
  - reflexivity.
Defined.

(** ** load_data and save_data *)

Lemma traverse_map {A B : Type} (f : A -> B) (g : B -> option A) (l : list A) :
  (forall a, g (f a) = Some a) -> traverse g (map f l) = Some l.
Proof.
  intros Hgf. induction l as [|a l IH]; simpl; [reflexivity|].
  now rewrite Hgf, IH.
Qed.

Lemma as_trade_dump (t : TradeRecord) : as_trade (dump_trade t) = Some t.
Proof. now destruct t. Qed.

Lemma as_count_of_nat (n : nat) :
  (if (0 <=? Z.of_nat n)%Z then Some (Z.to_nat (Z.of_nat n)) else None) = Some n.
Proof.
  destruct (0 <=? Z.of_nat n)%Z eqn:E.
  - now rewrite Nat2Z.id.
  - apply Z.leb_gt in E. lia.
Qed.

Lemma as_stats_dump (s : AggregateStats) : as_stats (dump_stats s) = Some s.
Proof.
  destruct s as [tt wt tp ah].
  unfold as_stats, dump_stats, get_field, as_count. simpl.
  now rewrite !as_count_of_nat.
Qed.

Lemma as_dict_dump {V : Type} (f : V -> json) (g : json -> option V) (d : dict V) :
  (forall v, g (f v) = Some v) -> as_dict g (dump_dict f d) = Some d.
Proof.
  intros Hgf. unfold as_dict, dump_dict.
  apply traverse_map. intros [k v]. simpl. now rewrite Hgf.
Qed.

(** The document of a ledger reads back as that ledger. *)
Lemma as_performance_data_dump (pd : PerformanceData) :
  as_performance_data (dump pd) = Some pd.
Proof.
  destruct pd as [ts ss].
  assert (Ht : as_list as_trade (JArr (map dump_trade ts)) = Some ts)
    by exact (traverse_map dump_trade as_trade ts as_trade_dump).
  assert (Hs : as_dict (as_dict as_stats) (dump_dict (dump_dict dump_stats) ss) = Some ss).
  { apply as_dict_dump. intros d. apply as_dict_dump, as_stats_dump. }
  unfold as_performance_data, dump, get_field.
  cbn [dict_get String.eqb Ascii.eqb Bool.eqb omap trades strategy_stats].
  rewrite Ht. cbn [omap]. rewrite Hs. reflexivity.
Qed.

(** [load_data] falls back to the empty structure when there is no file,
    when it cannot be read or parsed, and when the test for the key
    ["strategy_stats"] fails or raises. *)
Lemma load_data_falls_back (w : world) :
  match file w with
  | FileAbsent | FileUnreadable | FileGarbage => True
  | FileDocument data => py_in "strategy_stats" data <> Ok true
  end ->
  load_data w = dump empty_data.
Proof.
  unfold load_data, load_data_try.
  destruct (file w) as [| | |data]; try reflexivity.
  intros H. destruct (py_in "strategy_stats" data) as [[|]|e]; simpl;
    try reflexivity. congruence.
Qed.

(** Every other document is handed back as it is. *)
Lemma load_data_adopts (w : world) (data : json) :
  file w = FileDocument data -> py_in "strategy_stats" data = Ok true ->
  load_data w = data.
Proof.
  intros Hf Hin. unfold load_data, load_data_try. now rewrite Hf, Hin.
Qed.

(** C7: after a [save_data] that the disk accepts, [load_data] returns the
    very document of the ledger, and that document reads back as the same
    ledger: the same sequence of trade records and the same statistics for
    every strategy and symbol. *)
Theorem save_then_load_round_trip (t : tracker) :
  disk (env t) = DiskOk ->
  load_data (env (save_data t)) = dump (performance_data t) /\
  exists pd,
    as_performance_data (load_data (env (save_data t))) = Some pd /\
    pd = performance_data t /\
    trades pd = trades (performance_data t) /\
    forall strategy_name symbol,
      get_aggregate pd strategy_name symbol =
      get_aggregate (performance_data t) strategy_name symbol.
Proof.
  intros Hdisk.
  assert (H : load_data (env (save_data t)) = dump (performance_data t)).
  { apply load_data_adopts; [unfold save_data; rewrite Hdisk|]; reflexivity. }
  split; [exact H|]. exists (performance_data t). rewrite H.
  split; [apply as_performance_data_dump|]. now repeat split.
Qed.

(** C8 at a file that lacks the expected structure: [load_data] does not
    raise, but it does not initialise the empty ledger either. It hands
    back the document as found, with its statistics and without any
    ["trades"] member, which is not the layout of a ledger. *)
Theorem load_data_adopts_document_without_trades (d : disk_state) (out : list event) :
  let w := {| file := FileDocument stats_only_document; disk := d; stdout := out |} in
  load_data w = stats_only_document /\
  load_data w <> dump empty_data /\
  as_performance_data (load_data w) = None /\
  as_performance_data (dump empty_data) = Some empty_data.
Proof.
  simpl. split; [reflexivity|]. split; [discriminate|]. split; reflexivity.
Qed.

(** The same happens with an array that merely contains the string. *)
Lemma load_data_adopts_array (d : disk_state) (out : list event) :
  load_data {| file := FileDocument (JArr [JStr "strategy_stats"]);
               disk := d; stdout := out |}
  = JArr [JStr "strategy_stats"].
Proof. reflexivity. Qed.

(** A ledger that [save_data] wrote has the two members [record_trade]
    reads. The document without ["trades"] that [load_data] adopts has not:
    on it the subscript of line 71 raises [KeyError], before anything is
    recorded. *)
Lemma adopted_document_has_no_trades (d : disk_state) (out : list event)
    (pd : PerformanceData) :
  py_getitem (dump pd) "trades" = Ok (JArr (map dump_trade (trades pd))) /\
  py_getitem (dump pd) "strategy_stats"
    = Ok (dump_dict (dump_dict dump_stats) (strategy_stats pd)) /\
  py_getitem
    (load_data {| file := FileDocument stats_only_document; disk := d; stdout := out |})
    "trades" = Raise KeyError.
Proof. repeat split; reflexivity. Qed.

(** ** The incremental statistics *)

Lemma of_int_S (n : nat) : of_int (S n) == of_int n + 1.
Proof.
  unfold of_int. rewrite Nat2Z.inj_succ, <- Z.add_1_r, inject_Z_plus. reflexivity.
Qed.

Lemma of_int_nonneg (n : nat) : 0 <= of_int n.
Proof.
  unfold of_int. change 0 with (inject_Z 0). rewrite <- Zle_Qle. lia.
Qed.

Lemma of_int_le (n m : nat) : (n <= m)%nat -> of_int n <= of_int m.
Proof. intros H. unfold of_int. rewrite <- Zle_Qle. lia. Qed.

Lemma of_int_S_pos (n : nat) : 0 < of_int (S n).
Proof.
  rewrite of_int_S. pose proof (of_int_nonneg n). lra.
Qed.

Lemma Qsum_app (l1 l2 : list Q) : Qsum (l1 ++ l2) == Qsum l1 + Qsum l2.
Proof.
  induction l1 as [|x l1 IH]; simpl.
  - lra.
  - rewrite IH. lra.
Qed.

Lemma fold_left_Qplus (l : list Q) (a : Q) : fold_left Qplus l a == a + Qsum l.
Proof.
  revert a. induction l as [|x l IH]; intros a; simpl.
  - lra.
  - rewrite IH. lra.
Qed.

Lemma py_sum_Qsum (l : list Q) : py_sum l == Qsum l.
Proof. unfold py_sum. rewrite fold_left_Qplus. lra. Qed.

Lemma filter_length_le {A : Type} (f : A -> bool) (l : list A) :
  (List.length (filter f l) <= List.length l)%nat.
Proof.
  induction l as [|x l IH]; simpl; [lia|].
  destruct (f x); simpl; lia.
Qed.

Lemma filter_length_Permutation {A : Type} (f : A -> bool) (l1 l2 : list A) :
  Permutation l1 l2 -> List.length (filter f l1) = List.length (filter f l2).
Proof.
  induction 1 as [|x l1 l2 _ IH|x x' l|l1 l2 l3 _ IH1 _ IH2]; simpl.
  - reflexivity.
  - destruct (f x); simpl; now rewrite IH.
  - destruct (f x), (f x'); reflexivity.
  - now rewrite IH1.
Qed.

Lemma filter_length_map {A : Type} (f g : A -> bool) {B : Type} (h : B -> bool)
    (l : list A) (l' : list B) :
  map f l = map h l' ->
  List.length (filter f l) = List.length (filter h l').
Proof.
  revert l'. induction l as [|x l IH]; intros [|y l']; simpl; try discriminate.
  - reflexivity.
  - intros H. inversion H as [[Hx Hl]]. rewrite Hx.
    destruct (h y); simpl; now rewrite (IH l' Hl).
Qed.

(** The count next to the running mean is the number of hold times. *)
Lemma mean_step_count {F : Type} (A : arith F) (holds : list F) (acc : nat * F) :
  fst (fold_left (mean_step A) holds acc) = (fst acc + List.length holds)%nat.
Proof.
  revert acc. induction holds as [|h holds IH]; intros acc; simpl.
  - lia.
  - rewrite IH. simpl. lia.
Qed.

(** One more hold time: line 90 applied to the mean so far. *)
Lemma running_mean_app {F : Type} (A : arith F) (holds : list F) (h : F) :
  running_mean A (holds ++ [h]) =
  next_avg_hold_time A (running_mean A holds) (S (List.length holds)) h.
Proof.
  unfold running_mean. rewrite fold_left_app. simpl.
  now rewrite mean_step_count.
Qed.

Lemma running_sum_app {F : Type} (A : arith F) (l : list F) (x : F) :
  running_sum A (l ++ [x]) = num_add A (running_sum A l) x.
Proof. unfold running_sum. now rewrite fold_left_app. Qed.

(** The formulas of [update_stats] are those of lines 87 and 90, read at
    the rationals. *)
Lemma update_stats_formulas (pnl hold : Q) (stats : AggregateStats) :
  total_pnl (update_stats pnl hold stats) = num_add exact (total_pnl stats) pnl /\
  avg_hold_time (update_stats pnl hold stats) =
    next_avg_hold_time exact (avg_hold_time stats) (S (total_trades stats)) hold.
Proof. split; reflexivity. Qed.

(** The hold time of two naive times is the formula of line 53, read at the
    rationals. *)
Lemma hold_hours_formula (entry_time exit_time : datetime) :
  hold_hours entry_time exit_time == hold_time_hours_of exact (exit_time - entry_time).
Proof.
  unfold hold_hours, hold_time_hours_of, total_seconds. simpl.
  unfold Qdiv, Qmult, Qinv, Qeq. simpl. lia.
Qed.

Lemma stats_match_fresh : stats_match fresh_stats [].
Proof. repeat split; reflexivity. Qed.

(** One update keeps the statistics in step with the records. *)
Lemma stats_match_update (stats : AggregateStats) (recs : list TradeRecord)
    (r : TradeRecord) :
  tr_win r = Qltb 0 (tr_pnl_percent r) ->
  stats_match stats recs ->
  stats_match (update_stats (tr_pnl_percent r) (tr_hold_time_hours r) stats)
    (recs ++ [r]).
Proof.
  intros Hwin (Hn & Hw & Hp & Ha).
  unfold stats_match, py_sum.
  rewrite filter_app, !map_app, !length_app.
  change (map tr_pnl_percent [r]) with [tr_pnl_percent r].
  change (map tr_hold_time_hours [r]) with [tr_hold_time_hours r].
  rewrite running_mean_app, length_map, <- Hn, <- Ha.
  destruct (update_stats_formulas (tr_pnl_percent r) (tr_hold_time_hours r) stats)
    as (Hp' & Ha').
  rewrite Hp', Ha', Hp.
  cbn [update_stats total_trades winning_trades filter List.length].
  rewrite Hwin. split; [lia|]. split; [|split].
  - destruct (Qltb 0 (tr_pnl_percent r)); simpl; lia.
  - unfold py_sum. now rewrite fold_left_app.
  - reflexivity.
Qed.

(** The statistics after a run of records, from those a pair starts from. *)
Lemma stats_after_match (recs : list TradeRecord) :
  Forall (fun r => tr_win r = Qltb 0 (tr_pnl_percent r)) recs ->
  stats_match (stats_after recs fresh_stats) recs.
Proof.
  induction recs as [|r recs IH] using rev_ind; intros Hwf.
  - apply stats_match_fresh.
  - apply Forall_app in Hwf. destruct Hwf as [Hrecs Hr].
    unfold stats_after. rewrite fold_left_app. simpl.
    apply stats_match_update; [now inversion Hr | now apply IH].
Qed.

Lemma stats_after_cons (r : TradeRecord) (recs : list TradeRecord)
    (stats : AggregateStats) :
  stats_after (r :: recs) stats =
  stats_after recs (update_stats (tr_pnl_percent r) (tr_hold_time_hours r) stats).
Proof. reflexivity. Qed.

(** A quotient of two counts, the smaller over the larger, is a rate. *)
Lemma rate_bounds (w n : nat) :
  (w <= n)%nat -> (0 < n)%nat -> 0 <= of_int w / of_int n <= 1.
Proof.
  intros Hw Hn.
  assert (Hpos : 0 < of_int n).
  { destruct n; [lia | apply of_int_S_pos]. }
  split.
  - apply Qle_shift_div_l; [exact Hpos|]. pose proof (of_int_nonneg w). lra.
  - apply Qle_shift_div_r; [exact Hpos|]. pose proof (of_int_le w n Hw). lra.
Qed.

(** Over the rationals, and only there, the running average of line 90 is
    the arithmetic mean of the hold times, whatever their order. *)
Lemma running_mean_exact (holds : list Q) :
  holds <> [] -> running_mean exact holds == arithmetic_mean exact holds.
Proof.
  assert (H : running_mean exact holds * of_int (List.length holds) == Qsum holds).
  { induction holds as [|h holds IH] using rev_ind.
    - reflexivity.
    - rewrite running_mean_app, length_app, Qsum_app. simpl List.length.
      rewrite Nat.add_1_r. unfold next_avg_hold_time, num_of_nat.
      cbn [num_div num_add num_mul num_of_int exact Qsum fold_right].
      rewrite Nat.sub_succ, Nat.sub_0_r. fold (of_int (List.length holds)).
      fold (of_int (S (List.length holds))).
      pose proof (of_int_S_pos (List.length holds)) as Hpos.
      rewrite <- IH. field. lra. }
  intros Hne. unfold arithmetic_mean.
  change (running_sum exact holds) with (py_sum holds).
  change (num_of_nat exact (List.length holds)) with (of_int (List.length holds)).
  change (num_div exact) with Qdiv.
  rewrite py_sum_Qsum, <- H.
  assert (Hpos : 0 < of_int (List.length holds)).
  { destruct holds; [congruence | apply of_int_S_pos]. }
  field. lra.
Qed.

Section ReplayFacts.
Variable fromisoformat : string -> option moment.
Variable isoformat : moment -> string.

Lemma accepted_call_true (c : trade_call) :
  accepted_call fromisoformat c = true ->
  ~ c_entry_price c == 0 /\
  comparable fromisoformat (c_entry_time c) (c_exit_time c) = true.
Proof.
  unfold accepted_call. intros H.
  apply andb_true_iff in H. destruct H as [H Hc].
  apply andb_true_iff in H. destruct H as [H _].
  apply andb_true_iff in H. destruct H as [Hep _].
  apply negb_true_iff, Qeq_bool_false in Hep. now split.
Qed.

(** An accepted call returns, and its record carries the pair, the hold
    time and the outcome of the call. *)
Lemma record_call_accepted (c : trade_call) (t : tracker) :
  accepted_call fromisoformat c = true ->
  exists t' r,
    record_call fromisoformat isoformat c t = Returned t' /\
    performance_data t' = apply_trade r (performance_data t) /\
    tr_strategy r = c_strategy c /\ tr_symbol r = c_symbol c /\
    tr_hold_time_hours r = call_hold_time fromisoformat c /\
    tr_win r = call_wins c /\
    tr_win r = Qltb 0 (tr_pnl_percent r).
Proof.
  intros H. apply accepted_call_true in H. destruct H as [Hep Hc].
  apply comparable_true in Hc. destruct Hc as (entry_dt & exit_dt & hold & He & Hx & Hh).
  pose proof (make_trade_record_ok fromisoformat isoformat (c_now c) (c_strategy c)
                (c_symbol c) (c_entry_price c) (c_exit_price c) (c_entry_time c)
                (c_exit_time c) (c_direction c) (c_signal_strength c)
                entry_dt exit_dt hold Hep He Hx Hh) as E.
  destruct (record_trade_returns fromisoformat isoformat _ _ _ _ _ _ _ _ _ t _ E)
    as (t' & Hr & Hpd).
  eexists t', _. split; [exact Hr|]. split; [exact Hpd|]. simpl.
  split; [reflexivity|]. split; [reflexivity|]. split; [|split; [|reflexivity]].
  - unfold call_hold_time. now rewrite He, Hx, Hh.
  - unfold call_wins, call_pnl, trade_pnl, py_div.
    apply Qeq_bool_false in Hep. rewrite Hep.
    now destruct (String.eqb (c_direction c) "long").
Qed.

(** A run of accepted calls for one pair returns; it appends one record
    per call, and the statistics of the pair are those before the run
    updated once per record. *)
Lemma replay_same_pair (s y : string) (calls : list trade_call) :
  forall t : tracker,
  forallb (call_for s y) calls = true ->
  forallb (accepted_call fromisoformat) calls = true ->
  exists t' recs,
    replay fromisoformat isoformat calls t = Returned t' /\
    trades (performance_data t') = trades (performance_data t) ++ recs /\
    map tr_hold_time_hours recs = map (call_hold_time fromisoformat) calls /\
    map tr_win recs = map call_wins calls /\
    Forall (fun r => tr_win r = Qltb 0 (tr_pnl_percent r)) recs /\
    get_aggregate (performance_data t') s y =
      match calls with
      | [] => get_aggregate (performance_data t) s y
      | _ => Some (stats_after recs (aggregate_or_fresh (performance_data t) s y))
      end.
Proof.
  induction calls as [|c rest IH]; intros t Hfor Hacc.
  - exists t, []. simpl. rewrite app_nil_r. repeat split. constructor.
  - simpl in Hfor, Hacc.
    apply andb_true_iff in Hfor. destruct Hfor as [Hc Hfor].
    apply andb_true_iff in Hacc. destruct Hacc as [Ha Hacc].
    destruct (record_call_accepted c t Ha)
      as (t1 & r & Hr & Hpd & Hs & Hy & Hh & Hwins & Hwf).
    destruct (IH t1 Hfor Hacc) as (t' & recs & Hrun & Htr & Hholds & Hwon & Hall & Hagg).
    apply andb_true_iff in Hc. destruct Hc as [Hcs Hcy].
    apply String.eqb_eq in Hcs, Hcy. rewrite Hcs in Hs. rewrite Hcy in Hy.
    assert (H1 : get_aggregate (performance_data t1) s y =
                 Some (update_stats (tr_pnl_percent r) (tr_hold_time_hours r)
                         (aggregate_or_fresh (performance_data t) s y))).
    { rewrite Hpd, <- Hs, <- Hy. apply get_aggregate_apply_trade. }
    exists t', (r :: recs). split; [|split; [|split; [|split; [|split]]]].
    + simpl. rewrite Hr. exact Hrun.
    + rewrite Htr, Hpd. simpl. now rewrite <- app_assoc.
    + simpl. now rewrite Hh, Hholds.
    + simpl. now rewrite Hwins, Hwon.
    + now constructor.
    + rewrite Hagg, stats_after_cons. destruct rest as [|c' rest].
      * simpl in Hholds. apply map_eq_nil in Hholds. subst recs. exact H1.
      * unfold aggregate_or_fresh at 1. now rewrite H1.
Qed.
End ReplayFacts.

(** C2, as stated, fails in the arithmetic of the program: the running
    average of line 90 depends on the order of the trades. For hold times
    of 720, 1080 and 360 seconds, whose mean is 720 seconds, that is 0.2
    hours, the average is 0.19999999999999998 hours; for the same three in
    the order 360, 720, 1080 it is 0.20000000000000004 hours. The two
    differ, and neither is the float 0.2. *)
Lemma avg_hold_time_depends_on_order :
  Permutation three_holds three_holds_sorted /\
  running_mean binary64 (map (hold_time_hours_of binary64) three_holds)
    = 0.19999999999999998%float /\
  running_mean binary64 (map (hold_time_hours_of binary64) three_holds_sorted)
    = 0.20000000000000004%float /\
  PrimFloat.eqb
    (running_mean binary64 (map (hold_time_hours_of binary64) three_holds))
    (running_mean binary64 (map (hold_time_hours_of binary64) three_holds_sorted))
    = false /\
  PrimFloat.eqb
    (running_mean binary64 (map (hold_time_hours_of binary64) three_holds))
    (hold_time_hours_of binary64 720000000) = false /\
  PrimFloat.eqb
    (running_mean binary64 (map (hold_time_hours_of binary64) three_holds_sorted))
    (hold_time_hours_of binary64 720000000) = false.
Proof.
  split.
  - unfold three_holds, three_holds_sorted.
    apply Permutation_sym, Permutation_cons_app with (l1 := [_; _]) (l2 := []).
    apply Permutation_refl.
  - repeat split; vm_compute; reflexivity.
Qed.

(** C2 (amended): [N] accepted calls for one pair, on a tracker that has no
    statistics for the pair yet, all return; afterwards the pair counts [N]
    trades, its [winning_trades] is the number of the [N] records that won,
    so no more than [total_trades], and the win rate lies between 0 and 1.
    The same calls in any other order give the same two counts. The
    average hold time is the running average of line 90 over the hold times
    in the order of recording; that it is also their mean, whatever the
    order, is true of exact arithmetic only. *)
Theorem replayed_trades_are_counted
    (fromisoformat : string -> option moment) (isoformat : moment -> string)
    (s y : string) (calls calls' : list trade_call) (t : tracker) :
  calls <> [] ->
  forallb (call_for s y) calls = true ->
  forallb (accepted_call fromisoformat) calls = true ->
  get_aggregate (performance_data t) s y = None ->
  Permutation calls calls' ->
  exists t1 recs stats t2 stats',
    replay fromisoformat isoformat calls t = Returned t1 /\
    trades (performance_data t1) = trades (performance_data t) ++ recs /\
    List.length recs = List.length calls /\
    get_aggregate (performance_data t1) s y = Some stats /\
    total_trades stats = List.length calls /\
    winning_trades stats = List.length (filter tr_win recs) /\
    winning_trades stats = List.length (filter call_wins calls) /\
    (winning_trades stats <= total_trades stats)%nat /\
    0 <= of_int (winning_trades stats) / of_int (total_trades stats) <= 1 /\
    avg_hold_time stats = running_mean exact (map (call_hold_time fromisoformat) calls) /\
    replay fromisoformat isoformat calls' t = Returned t2 /\
    get_aggregate (performance_data t2) s y = Some stats' /\
    total_trades stats' = total_trades stats /\
    winning_trades stats' = winning_trades stats /\
    avg_hold_time stats' = running_mean exact (map (call_hold_time fromisoformat) calls').
Proof.
  intros Hne Hfor Hacc Hnone Hperm.
  assert (Hne' : calls' <> []).
  { intros ->. apply Permutation_sym, Permutation_nil in Hperm. contradiction. }
  assert (Hfor' : forallb (call_for s y) calls' = true).
  { rewrite forallb_forall in *. intros c Hc. apply Hfor.
    now apply (Permutation_in _ (Permutation_sym Hperm)). }
  assert (Hacc' : forallb (accepted_call fromisoformat) calls' = true).
  { rewrite forallb_forall in *. intros c Hc. apply Hacc.
    now apply (Permutation_in _ (Permutation_sym Hperm)). }
  destruct (replay_same_pair fromisoformat isoformat s y calls t Hfor Hacc)
    as (t1 & recs & Hrun & Htr & Hholds & Hwon & Hall & Hagg).
  destruct (replay_same_pair fromisoformat isoformat s y calls' t Hfor' Hacc')
    as (t2 & recs' & Hrun' & Htr' & Hholds' & Hwon' & Hall' & Hagg').
  unfold aggregate_or_fresh in Hagg, Hagg'. rewrite Hnone in Hagg, Hagg'.
  assert (Hlen : List.length recs = List.length calls).
  { rewrite <- (length_map tr_hold_time_hours), Hholds. apply length_map. }
  assert (Hlen' : List.length recs' = List.length calls').
  { rewrite <- (length_map tr_hold_time_hours), Hholds'. apply length_map. }
  destruct (stats_after_match recs Hall) as (Hn & Hw & _ & Havg).
  destruct (stats_after_match recs' Hall') as (Hn' & Hw' & _ & Havg').
  assert (Hcount : List.length (filter tr_win recs)
                   = List.length (filter call_wins calls)).
  { now apply (filter_length_map tr_win tr_win call_wins). }
  assert (Hcount' : List.length (filter tr_win recs')
                    = List.length (filter call_wins calls')).
  { now apply (filter_length_map tr_win tr_win call_wins). }
  assert (Hle : (winning_trades (stats_after recs fresh_stats)
                 <= total_trades (stats_after recs fresh_stats))%nat).
  { rewrite Hn, Hw. apply filter_length_le. }
  exists t1, recs, (stats_after recs fresh_stats), t2, (stats_after recs' fresh_stats).
  split; [exact Hrun|]. split; [exact Htr|]. split; [exact Hlen|].
  split; [destruct calls; [congruence | exact Hagg]|].
  split; [now rewrite Hn|]. split; [exact Hw|]. split; [now rewrite Hw|].
  split; [exact Hle|].
  split; [apply rate_bounds; [exact Hle | rewrite Hn, Hlen; destruct calls; simpl;
                                          [congruence | lia]]|].
  split; [now rewrite Havg, Hholds|].
  split; [exact Hrun'|].
  split; [destruct calls'; [congruence | exact Hagg']|].
  split; [rewrite Hn, Hn', Hlen, Hlen'; symmetry; now apply Permutation_length|].
  split; [|now rewrite Havg', Hholds'].
  rewrite Hw, Hw', Hcount, Hcount'. symmetry.
  now apply filter_length_Permutation.
Qed.

(** ** The performance scorer *)

Lemma In_dict_set {V : Type} (k k' : string) (v v' : V) (d : dict V) :
  In (k', v') (dict_set k v d) -> (k' = k /\ v' = v) \/ In (k', v') d.
Proof.
  induction d as [|[k0 v0] d IH]; simpl.
  - intros [H|[]]. inversion H. now left.
  - destruct (String.eqb k k0); simpl.
    + intros [H|H]; [inversion H; now left | right; now right].
    + intros [H|H]; [right; now left|].
      destruct (IH H) as [H'|H']; [now left | right; now right].
Qed.

Lemma of_int_eq_0 (n : nat) : Qeq_bool (of_int n) 0 = true <-> n = 0%nat.
Proof.
  rewrite Qeq_bool_iff. unfold of_int, Qeq. simpl. lia.
Qed.

(** The entry of a symbol that has traded at least once. *)
Lemma symbol_performance_ok (stats : AggregateStats) :
  total_trades stats <> 0%nat ->
  symbol_performance stats =
  Ok {| pf_total_trades := total_trades stats;
        win_rate := of_int (winning_trades stats) / of_int (total_trades stats);
        avg_pnl_percent := total_pnl stats / of_int (total_trades stats);
        total_pnl_percent := total_pnl stats;
        pf_avg_hold_time := avg_hold_time stats;
        performance_score :=
          of_int (winning_trades stats) / of_int (total_trades stats)
          * py_max (total_pnl stats / of_int (total_trades stats)) (1 # 1000) |}.
Proof.
  intros Hn. unfold symbol_performance, py_div.
  destruct (Qeq_bool (of_int (total_trades stats)) 0) eqn:E; [|reflexivity].
  apply of_int_eq_0 in E. contradiction.
Qed.

Lemma symbol_performance_inv (stats : AggregateStats) (p : Performance) :
  symbol_performance stats = Ok p ->
  total_trades stats <> 0%nat /\
  pf_total_trades p = total_trades stats /\
  win_rate p = of_int (winning_trades stats) / of_int (total_trades stats) /\
  avg_pnl_percent p = total_pnl stats / of_int (total_trades stats) /\
  performance_score p = win_rate p * py_max (avg_pnl_percent p) (1 # 1000).
Proof.
  intros H. destruct (Nat.eq_dec (total_trades stats) 0) as [E|E].
  - exfalso. revert H. unfold symbol_performance, py_div.
    apply of_int_eq_0 in E. rewrite E. discriminate.
  - rewrite (symbol_performance_ok stats E) in H. inversion H; subst; simpl.
    now repeat split.
Qed.

Lemma py_max_floor (a : Q) : (1 # 1000) <= py_max a (1 # 1000).
Proof.
  unfold py_max. destruct (Qltb a (1 # 1000)) eqn:E.
  - lra.
  - now apply Qltb_ge in E.
Qed.

(** What the loop puts into [results]: entries computed from statistics
    that pass the threshold. *)
Lemma performance_loop_entries (min_trades : nat) (all : dict AggregateStats) :
  forall (items : dict AggregateStats) (results perf : dict Performance),
  incl items all ->
  (forall k p, In (k, p) results ->
     exists stats, In (k, stats) all /\ (min_trades <= total_trades stats)%nat /\
                   symbol_performance stats = Ok p) ->
  performance_loop min_trades items results = Ok perf ->
  forall k p, In (k, p) perf ->
    exists stats, In (k, stats) all /\ (min_trades <= total_trades stats)%nat /\
                  symbol_performance stats = Ok p.
Proof.
  induction items as [|[symbol stats] rest IH]; intros results perf Hincl Hres; simpl.
  - intros H. inversion H; subst. exact Hres.
  - assert (Hrest : incl rest all) by (intros x Hx; apply Hincl; now right).
    destruct (min_trades <=? total_trades stats)%nat eqn:E.
    + destruct (symbol_performance stats) as [p0|e] eqn:Ep; simpl; [|discriminate].
      apply IH; [exact Hrest|]. intros k p Hin.
      destruct (In_dict_set _ _ _ _ _ Hin) as [[-> ->]|Hin'].
      * exists stats. split; [apply Hincl; now left|].
        split; [now apply Nat.leb_le | exact Ep].
      * now apply Hres.
    + now apply IH.
Qed.

(** With a threshold of at least one trade the loop divides by no zero. *)
Lemma performance_loop_total (min_trades : nat) :
  (1 <= min_trades)%nat ->
  forall (items : dict AggregateStats) (results : dict Performance),
  exists perf, performance_loop min_trades items results = Ok perf.
Proof.
  intros Hmin. induction items as [|[symbol stats] rest IH]; intros results; simpl.
  - now exists results.
  - destruct (min_trades <=? total_trades stats)%nat eqn:E; [|apply IH].
    apply Nat.leb_le in E. rewrite symbol_performance_ok by lia. simpl. apply IH.
Qed.

Lemma get_strategy_performance_total (pd : PerformanceData) (s : string)
    (min_trades : nat) :
  (1 <= min_trades)%nat ->
  exists perf, get_strategy_performance pd s min_trades = Ok perf.
Proof.
  intros Hmin. unfold get_strategy_performance.
  destruct (dict_get s (strategy_stats pd)); [|now exists []].
  now apply performance_loop_total.
Qed.

(** The entry of a symbol is lines 105 to 109, read at the rationals. *)
Lemma symbol_performance_formulas (stats : AggregateStats) (p : Performance) :
  symbol_performance stats = Ok p ->
  (win_rate p, avg_pnl_percent p, performance_score p) =
  rates_and_score exact (winning_trades stats) (total_trades stats) (total_pnl stats)
    (1 # 1000).
Proof.
  intros H. destruct (symbol_performance_inv stats p H) as (_ & _ & Hw & Ha & Hs).
  rewrite Hs, Hw, Ha. reflexivity.
Qed.

(** The score on either side of the floor. *)
Lemma py_max_cases (a : Q) :
  (a < 1 # 1000 -> py_max a (1 # 1000) = 1 # 1000) /\
  (1 # 1000 <= a -> py_max a (1 # 1000) = a).
Proof.
  unfold py_max. destruct (Qltb a (1 # 1000)) eqn:E.
  - apply Qltb_lt in E. split; [reflexivity | lra].
  - apply Qltb_ge in E. split; [lra | reflexivity].
Qed.

(** C4, as stated, fails in the arithmetic of the program, in its last
    sentence. With nine wins in ten trades and a total return of -0.1 the
    win rate is 0.9 and the average return -0.01; the score is the float
    product of 0.9 and 0.001, which is 0.0009000000000000001 and not the
    float 0.0009. *)
Lemma floored_score_is_not_0_0009 :
  float_minus_0_1 = (-0.1)%float /\
  float_0_001 = 0.001%float /\
  float_0_0009 = 0.0009%float /\
  rates_and_score binary64 9 10 float_minus_0_1 float_0_001
    = (0.9, -0.01, 0.00090000000000000008)%float /\
  PrimFloat.eqb 0.00090000000000000008 float_0_0009 = false /\
  PrimFloat.ltb 0 0.00090000000000000008 = true.
Proof. repeat split; vm_compute; reflexivity. Qed.

(** C4 (amended): [get_strategy_performance] returns whenever [min_trades]
    is at least 1. Every entry of its result comes from statistics of the
    strategy with at least [min_trades] trades, with the win rate and the
    average return as the quotients of lines 105 and 106. Its
    [performance_score] is [win_rate * max(avg_pnl_percent, 0.001)]: the
    product of the win rate and 0.001 when the average return is below
    0.001, the product of the win rate and the average return otherwise,
    and in both cases not negative. *)
Theorem performance_score_has_floor (pd : PerformanceData) (s : string)
    (min_trades : nat) :
  ((1 <= min_trades)%nat ->
   exists perf, get_strategy_performance pd s min_trades = Ok perf) /\
  forall perf symbol p,
    get_strategy_performance pd s min_trades = Ok perf ->
    In (symbol, p) perf ->
    (exists strategy_data stats,
       dict_get s (strategy_stats pd) = Some strategy_data /\
       In (symbol, stats) strategy_data /\
       (min_trades <= total_trades stats)%nat /\
       pf_total_trades p = total_trades stats /\
       win_rate p = of_int (winning_trades stats) / of_int (total_trades stats) /\
       avg_pnl_percent p = total_pnl stats / of_int (total_trades stats)) /\
    (avg_pnl_percent p < 1 # 1000 ->
     performance_score p = win_rate p * (1 # 1000)) /\
    (1 # 1000 <= avg_pnl_percent p ->
     performance_score p = win_rate p * avg_pnl_percent p) /\
    0 <= win_rate p /\
    0 <= performance_score p.
Proof.
  split; [apply get_strategy_performance_total|].
  intros perf symbol p Hget Hin. unfold get_strategy_performance in Hget.
  destruct (dict_get s (strategy_stats pd)) as [strategy_data|] eqn:Es.
  2: { inversion Hget; subst. destruct Hin. }
  destruct (performance_loop_entries min_trades strategy_data strategy_data [] perf
              (incl_refl _) (fun k p H => match H with end) Hget symbol p Hin)
    as (stats & Hstats & Hmin & Hp).
  destruct (symbol_performance_inv stats p Hp) as (Hn & Ht & Hw & Ha & Hscore).
  destruct (py_max_cases (avg_pnl_percent p)) as (Hbelow & Habove).
  assert (Hrate : 0 <= win_rate p).
  { rewrite Hw. apply Qle_shift_div_l.
    - destruct (total_trades stats); [congruence | apply of_int_S_pos].
    - pose proof (of_int_nonneg (winning_trades stats)). lra. }
  split; [exists strategy_data, stats; now repeat split|].
  split; [intros H; now rewrite Hscore, (Hbelow H)|].
  split; [intros H; now rewrite Hscore, (Habove H)|].
  split; [exact Hrate|].
  rewrite Hscore.
  pose proof (py_max_floor (avg_pnl_percent p)) as Hfloor.
  apply Qmult_le_0_compat; [exact Hrate | lra].
Qed.

(** ** Lists, sorting and the symbol tables *)

Lemma str_in_In (x : string) (l : list string) : str_in x l = true <-> In x l.
Proof.
  unfold str_in. rewrite existsb_exists. split.
  - intros (y & Hy & E). apply String.eqb_eq in E. now subst.
  - intros H. exists x. split; [exact H | apply String.eqb_refl].
Qed.

Lemma nodupb_NoDup (l : list string) : nodupb l = true -> NoDup l.
Proof.
  induction l as [|x l IH]; simpl; intros H; constructor.
  - apply andb_true_iff in H. destruct H as [H _].
    apply negb_true_iff in H. intros Hin. apply str_in_In in Hin. congruence.
  - apply IH. apply andb_true_iff in H. tauto.
Qed.

Lemma firstn_incl {A : Type} (n : nat) (l : list A) : incl (firstn n l) l.
Proof.
  intros x Hx. rewrite <- (firstn_skipn n l). apply in_or_app. now left.
Qed.

Lemma firstn_NoDup {A : Type} (n : nat) (l : list A) : NoDup l -> NoDup (firstn n l).
Proof.
  intros H. rewrite <- (firstn_skipn n l) in H. now apply NoDup_app_remove_r in H.
Qed.

Lemma filter_complement_length {A : Type} (f : A -> bool) (l : list A) :
  (List.length (filter f l) + List.length (filter (fun x => negb (f x)) l)
   = List.length l)%nat.
Proof.
  induction l as [|x l IH]; simpl; [reflexivity|].
  destruct (f x); simpl; lia.
Qed.

Section SortFacts.
Context {A : Type} (key : A -> Q).

Lemma insert_desc_Permutation (x : A) (l : list A) :
  Permutation (insert_desc key x l) (x :: l).
Proof.
  induction l as [|y l IH]; simpl; [reflexivity|].
  destruct (Qltb (key x) (key y)); [|reflexivity].
  rewrite IH. apply perm_swap.
Qed.

(** Sorting rearranges and loses nothing. *)
Lemma sort_desc_Permutation (l : list A) : Permutation (sort_desc key l) l.
Proof.
  induction l as [|x l IH]; simpl; [reflexivity|].
  rewrite insert_desc_Permutation. now constructor.
Qed.

Lemma sort_desc_length (l : list A) :
  List.length (sort_desc key l) = List.length l.
Proof. apply Permutation_length, sort_desc_Permutation. Qed.
End SortFacts.

(** The first [n] names of a sorted table of scores: as many as asked for
    or as there are, all from the table, none twice. *)
Lemma top_of_sorted {V : Type} (key : string * V -> Q) (n : nat) (d : dict V) :
  NoDup (dict_keys d) ->
  let top := map fst (firstn n (sort_desc key d)) in
  NoDup top /\ incl top (dict_keys d) /\
  List.length top = Nat.min n (List.length d).
Proof.
  intros Hd top.
  assert (Hperm : Permutation (map fst (sort_desc key d)) (dict_keys d))
    by apply Permutation_map, sort_desc_Permutation.
  subst top. rewrite <- firstn_map. split; [|split].
  - apply firstn_NoDup. now apply (Permutation_NoDup (Permutation_sym Hperm)).
  - intros x Hx. apply (Permutation_in _ Hperm). now apply firstn_incl in Hx.
  - rewrite length_firstn, length_map. now rewrite sort_desc_length.
Qed.

Lemma TOP_LIQUID_STOCKS_NoDup : NoDup TOP_LIQUID_STOCKS.
Proof. apply nodupb_NoDup. reflexivity. Qed.

Lemma NASDAQ_100_NoDup : NoDup NASDAQ_100.
Proof. apply nodupb_NoDup. reflexivity. Qed.

(** Every base list, the default one included, names no symbol twice. *)
Lemma base_list_NoDup (strategy_name : string) : NoDup (base_list_of strategy_name).
Proof.
  assert (Hall : forallb nodupb (dict_values strategy_base_lists) = true)
    by reflexivity.
  unfold base_list_of, dict_get_default.
  destruct (dict_get strategy_name strategy_base_lists) as [l|] eqn:E.
  - apply nodupb_NoDup. rewrite forallb_forall in Hall. apply Hall.
    clear Hall. unfold dict_values. revert E.
    induction strategy_base_lists as [|[k v] d IH]; simpl; [discriminate|].
    destruct (String.eqb strategy_name k).
    + intros H. inversion H. now left.
    + intros H. right. now apply IH.
  - apply firstn_NoDup, NASDAQ_100_NoDup.
Qed.

(** ** The top performers *)

Lemma performance_loop_keys (min_trades : nat) :
  forall (items : dict AggregateStats) (results perf : dict Performance),
  NoDup (dict_keys results) ->
  performance_loop min_trades items results = Ok perf ->
  NoDup (dict_keys perf).
Proof.
  induction items as [|[symbol stats] rest IH]; intros results perf Hres; simpl.
  - intros H. now inversion H; subst.
  - destruct (min_trades <=? total_trades stats)%nat; [|now apply IH].
    destruct (symbol_performance stats) as [p|e]; simpl; [|discriminate].
    apply IH. now apply dict_set_NoDup.
Qed.

Lemma get_strategy_performance_keys (pd : PerformanceData) (s : string)
    (min_trades : nat) (perf : dict Performance) :
  get_strategy_performance pd s min_trades = Ok perf -> NoDup (dict_keys perf).
Proof.
  unfold get_strategy_performance.
  destruct (dict_get s (strategy_stats pd)) as [strategy_data|].
  - apply performance_loop_keys. constructor.
  - intros H. inversion H. constructor.
Qed.

(** [get_top_performers] with a threshold of at least one trade returns at
    most [count] symbols, none twice. *)
Lemma get_top_performers_spec (pd : PerformanceData) (s : string)
    (count min_trades : nat) :
  (1 <= min_trades)%nat ->
  exists top,
    get_top_performers pd s count min_trades = Ok top /\
    NoDup top /\ (List.length top <= count)%nat.
Proof.
  intros Hmin. unfold get_top_performers.
  destruct (get_strategy_performance_total pd s min_trades Hmin) as [perf Hperf].
  rewrite Hperf. simpl.
  pose proof (get_strategy_performance_keys pd s min_trades perf Hperf) as Hkeys.
  destruct perf as [|x perf].
  - exists []. repeat split; [constructor | simpl; lia].
  - eexists. split; [reflexivity|].
    destruct (top_of_sorted score_of count (x :: perf) Hkeys) as (Hnd & _ & Hlen).
    split; [exact Hnd|]. rewrite Hlen. lia.
Qed.

(** ** The selections *)

Section SelectorFacts.
Variable random : nat -> Q.

(** The table of scores lists the stocks in the order given. *)
Lemma score_stocks_names (strategy_name : string) (stocks : list string) :
  forall i, dict_keys (fst (score_stocks random strategy_name stocks i)) = stocks.
Proof.
  induction stocks as [|stock rest IH]; intros i; simpl; [reflexivity|].
  specialize (IH (S i)).
  destruct (score_stocks random strategy_name rest (S i)) as [qs i2].
  simpl in *. now rewrite IH.
Qed.

(** [_quality_based_selection]: the best of the base list. *)
Lemma quality_based_selection_spec (strategy_name : string)
    (base_list : list string) (target_count i : nat) :
  NoDup base_list ->
  let selected :=
    fst (_quality_based_selection random strategy_name base_list target_count i) in
  NoDup selected /\ incl selected base_list /\
  List.length selected = Nat.min target_count (List.length base_list).
Proof.
  intros Hbase. unfold _quality_based_selection.
  pose proof (score_stocks_names strategy_name base_list i) as Hnames.
  destruct (score_stocks random strategy_name base_list i) as [qs i1].
  simpl in *. rewrite <- Hnames in Hbase.
  destruct (top_of_sorted snd target_count qs Hbase) as (Hnd & Hincl & Hlen).
  rewrite Hnames in Hincl. split; [exact Hnd|]. split; [exact Hincl|].
  rewrite Hlen. unfold dict_keys in Hnames.
  now rewrite <- Hnames, length_map.
Qed.

(** [_performance_based_selection]: proven performers first, the rest
    from the base list. *)
Lemma performance_based_selection_spec (strategy_name : string)
    (base_list top_performers : list string) (target_count i : nat) :
  NoDup base_list -> NoDup top_performers ->
  let selected :=
    fst (_performance_based_selection random strategy_name base_list
           top_performers target_count i) in
  NoDup selected /\
  (List.length selected <= target_count)%nat /\
  ((target_count <= List.length base_list)%nat ->
   List.length selected = target_count).
Proof.
  intros Hbase Htop. unfold _performance_based_selection.
  set (proven := firstn (Nat.min (List.length top_performers) (target_count / 2))
                   top_performers).
  set (candidates := filter (fun stock => negb (str_in stock proven)) base_list).
  pose proof (score_stocks_names strategy_name candidates i) as Hnames.
  destruct (score_stocks random strategy_name candidates i) as [qs i1].
  cbn [fst snd] in *.
  assert (Hproven : NoDup proven) by now apply firstn_NoDup.
  assert (Hcand : NoDup candidates) by now apply NoDup_filter.
  assert (Hplen : (List.length proven <= target_count / 2)%nat).
  { unfold proven. rewrite length_firstn. lia. }
  assert (Hhalf : (target_count / 2 <= target_count)%nat)
    by (pose proof (Nat.Div0.mul_div_le target_count 2); lia).
  rewrite <- Hnames in Hcand.
  destruct (top_of_sorted snd (target_count - List.length proven) qs Hcand)
    as (Hnd & Hincl & Hlen).
  rewrite Hnames in Hincl.
  set (extra := map fst (firstn (target_count - List.length proven)
                           (sort_desc snd qs))) in *.
  assert (Hqs : List.length qs = List.length candidates).
  { unfold dict_keys in Hnames. now rewrite <- Hnames, length_map. }
  assert (Hall : NoDup (proven ++ extra)).
  { apply NoDup_app; [exact Hproven | exact Hnd |].
    intros x Hx Hx'. apply Hincl in Hx'. unfold candidates in Hx'.
    apply filter_In in Hx'. destruct Hx' as [_ Hx'].
    apply negb_true_iff in Hx'. apply str_in_In in Hx. congruence. }
  assert (Hfit : (List.length (proven ++ extra) <= target_count)%nat).
  { rewrite length_app, Hlen. lia. }
  rewrite firstn_all2 by exact Hfit.
  split; [exact Hall|]. split; [exact Hfit|].
  intros Hbig. rewrite length_app, Hlen, Hqs.
  assert (Hrem : (List.length base_list
                  <= List.length candidates + List.length proven)%nat).
  { pose proof (filter_complement_length (fun stock => negb (str_in stock proven))
                  base_list) as Hsplit.
    fold candidates in Hsplit.
    assert (Hin : (List.length (filter (fun x => negb (negb (str_in x proven)))
                                  base_list) <= List.length proven)%nat).
    { apply NoDup_incl_length; [now apply NoDup_filter|].
      intros x Hx. apply filter_In in Hx. destruct Hx as [_ Hx].
      rewrite negb_involutive in Hx. now apply str_in_In. }
    lia. }
  lia.
Qed.
End SelectorFacts.

(** ** The claims on the selector *)

(** C6: [get_optimized_stock_list] returns, for every ledger, strategy
    name, count and state of the random source, a list of at most
    [target_count] symbols without repetition, and of exactly
    [target_count] symbols when the base list of the strategy has that
    many. *)
Theorem get_optimized_stock_list_size (random : nat -> Q) (pd : PerformanceData)
    (strategy_name : string) (target_count : option nat) (i : nat) :
  exists selected i',
    get_optimized_stock_list random pd strategy_name target_count i
      = Ok (selected, i') /\
    (List.length selected <= effective_count strategy_name target_count)%nat /\
    NoDup selected /\
    ((effective_count strategy_name target_count
      <= List.length (base_list_of strategy_name))%nat ->
     List.length selected = effective_count strategy_name target_count).
Proof.
  unfold get_optimized_stock_list. fold (effective_count strategy_name target_count).
  set (n := effective_count strategy_name target_count).
  destruct (get_top_performers_spec pd strategy_name (n * 2) 3 ltac:(lia))
    as (top & Htop & Hnd & _).
  rewrite Htop. unfold bind.
  pose proof (base_list_NoDup strategy_name) as Hbase.
  destruct (n / 2 <=? List.length top)%nat.
  - destruct (performance_based_selection_spec random strategy_name
                (base_list_of strategy_name) top n i Hbase Hnd) as (H1 & H2 & H3).
    destruct (_performance_based_selection random strategy_name
                (base_list_of strategy_name) top n i) as [selected i'].
    exists selected, i'. cbn [fst] in *. now repeat split.
  - destruct (quality_based_selection_spec random strategy_name
                (base_list_of strategy_name) n i Hbase) as (H1 & _ & H3).
    destruct (_quality_based_selection random strategy_name
                (base_list_of strategy_name) n i) as [selected i'].
    exists selected, i'. cbn [fst] in *. split; [reflexivity|].
    split; [lia|]. split; [exact H1 | lia].
Qed.

Lemma performance_total_set (k : string) (p : Performance) (d : dict Performance) :
  (performance_total_trades (dict_set k p d)
   <= performance_total_trades d + pf_total_trades p)%nat.
Proof.
  unfold performance_total_trades, dict_values.
  induction d as [|[k' p'] d IH]; simpl; [lia|].
  destruct (String.eqb k k'); simpl; lia.
Qed.

(** [get_optimized_stock_list] raises nothing: its call of
    [get_top_performers] uses the threshold of three trades. *)
Lemma get_optimized_stock_list_total (random : nat -> Q) (pd : PerformanceData)
    (strategy_name : string) (target_count : option nat) (i : nat) :
  exists selected i',
    get_optimized_stock_list random pd strategy_name target_count i
    = Ok (selected, i').
Proof.
  unfold get_optimized_stock_list.
  match goal with
  | |- context [get_top_performers pd strategy_name ?n 3] =>
      destruct (get_top_performers_spec pd strategy_name n 3 ltac:(lia))
        as (top & Htop & _); rewrite Htop
  end.
  unfold bind.
  match goal with
  | |- context [if ?c then _ else _] => destruct c
  end;
    match goal with
    | |- exists _ _, Ok ?r = _ => exists (fst r), (snd r); now destruct r
    end.
Qed.

(** The trades counted in the performance map are trades of the ledger. *)
Lemma performance_loop_total_trades (min_trades : nat) :
  forall (items : dict AggregateStats) (results perf : dict Performance),
  performance_loop min_trades items results = Ok perf ->
  (performance_total_trades perf
   <= performance_total_trades results
      + nat_sum (map total_trades (dict_values items)))%nat.
Proof.
  induction items as [|[symbol stats] rest IH]; intros results perf; simpl.
  - intros H. inversion H; subst. lia.
  - destruct (min_trades <=? total_trades stats)%nat.
    + destruct (symbol_performance stats) as [p|e] eqn:Ep; simpl; [|discriminate].
      intros H. apply IH in H.
      pose proof (performance_total_set symbol p results).
      destruct (symbol_performance_inv stats p Ep) as (_ & Ht & _). lia.
    + intros H. apply IH in H. lia.
Qed.

(** C3: [update_strategy_targets] sums [total_trades] over the entries of
    the performance map of the strategy, the one [get_strategy_performance]
    gives with its default threshold; the sum is at most the number of
    trades the strategy has in the ledger. Below 20, and so whenever the
    strategy has at most 19 trades in the ledger, it returns the list it
    was given; from 20 on it returns what [get_optimized_stock_list]
    returns for a count equal to the length of that list. *)
Theorem update_strategy_targets_gate (random : nat -> Q) (pd : PerformanceData)
    (strategy : strategy_shell) (current_list : list string) (i : nat) :
  exists performance,
    get_strategy_performance pd (name strategy) 5 = Ok performance /\
    let total := nat_sum (map (fun entry => pf_total_trades (snd entry)) performance) in
    (total <= recorded_trades pd (name strategy))%nat /\
    ((total < 20)%nat ->
     exists i', update_strategy_targets random pd strategy current_list i
                = Ok (current_list, i')) /\
    ((recorded_trades pd (name strategy) <= 19)%nat ->
     exists i', update_strategy_targets random pd strategy current_list i
                = Ok (current_list, i')) /\
    ((20 <= total)%nat ->
     update_strategy_targets random pd strategy current_list i
     = get_optimized_stock_list random pd (name strategy)
         (Some (List.length current_list)) i).
Proof.
  destruct (get_strategy_performance_total pd (name strategy) 5 ltac:(lia))
    as [performance Hperf].
  exists performance. split; [exact Hperf|]. cbv zeta.
  assert (Hsum : nat_sum (map (fun entry => pf_total_trades (snd entry)) performance)
                 = performance_total_trades performance).
  { unfold performance_total_trades, dict_values. now rewrite map_map. }
  rewrite Hsum.
  destruct (get_optimized_stock_list_total random pd (name strategy)
              (Some (List.length current_list)) i) as (selected & i' & Hopt).
  assert (Hlow : (performance_total_trades performance < 20)%nat ->
                 exists i', update_strategy_targets random pd strategy current_list i
                            = Ok (current_list, i')).
  { intros Hlt. unfold update_strategy_targets. rewrite Hperf. unfold bind.
    destruct performance as [|x performance]; [now exists i|].
    rewrite Hopt. cbn [snd].
    apply Nat.leb_gt in Hlt. rewrite Hlt. now exists i'. }
  assert (Hle : (performance_total_trades performance
                 <= recorded_trades pd (name strategy))%nat).
  { unfold recorded_trades, dict_get_default.
    unfold get_strategy_performance in Hperf.
    destruct (dict_get (name strategy) (strategy_stats pd)) as [strategy_data|].
    - apply performance_loop_total_trades in Hperf. simpl in Hperf. exact Hperf.
    - inversion Hperf; subst. unfold performance_total_trades. simpl. lia. }
  split; [exact Hle|]. split; [exact Hlow|]. split.
  - intros Hrec. apply Hlow. lia.
  - intros Hge. unfold update_strategy_targets. rewrite Hperf. unfold bind.
    destruct performance as [|x performance].
    + unfold performance_total_trades in Hge. simpl in Hge. lia.
    + rewrite Hopt. cbn [snd].
      apply Nat.leb_le in Hge. now rewrite Hge.
Qed.

(** C3 on either side of the gate, with every draw at 0. On the ranked
    ledger the performance map counts 9 + 10 + 9 = 28 trades, and the list
    of two symbols is replaced by the best performer and the best of the
    base list; on the sparse ledger it counts 19, and the list comes back
    as it was given. *)
Lemma update_strategy_targets_gate_witness :
  update_strategy_targets (fun _ => 0) ranked_ledger {| name := "Gap Fade" |}
    [ "AAPL"; "MSFT" ] 0 = Ok ([ "ZZZ"; "NVDA" ], 25%nat) /\
  recorded_trades sparse_ledger "Gap Fade" = 19%nat /\
  exists i',
    update_strategy_targets (fun _ => 0) sparse_ledger {| name := "Gap Fade" |}
      [ "AAPL"; "MSFT" ] 0 = Ok ([ "AAPL"; "MSFT" ], i').
Proof.
  split; [|split; [reflexivity|]].
  - destruct (update_strategy_targets_gate (fun _ => 0) ranked_ledger
                {| name := "Gap Fade" |} [ "AAPL"; "MSFT" ] 0)
      as (performance & Hperf & _ & _ & _ & Hopen).
    vm_compute in Hperf. inversion Hperf as [Hp]. rewrite <- Hp in Hopen.
    rewrite Hopen; [vm_compute; reflexivity | simpl; lia].
  - destruct (update_strategy_targets_gate (fun _ => 0) sparse_ledger
                {| name := "Gap Fade" |} [ "AAPL"; "MSFT" ] 0)
      as (performance & _ & _ & _ & Hclosed & _).
    apply Hclosed. apply Nat.eq_le_incl. reflexivity.
Defined.

(** ** The quality score *)

(** Every symbol of the second liquidity test passes the first one. *)
Lemma mega_caps_are_top_liquid (symbol : string) :
  str_in symbol MEGA_CAPS = true -> str_in symbol TOP_LIQUID_STOCKS = true.
Proof.
  assert (H : forallb (fun x => str_in x TOP_LIQUID_STOCKS) MEGA_CAPS = true)
    by reflexivity.
  rewrite forallb_forall in H. intros Hin. apply H. now apply str_in_In.
Qed.

(** Case analysis on the name of the strategy, then on the membership of
    the symbol in the list of that strategy. *)
Ltac by_strategy_and_affinity :=
  repeat match goal with
         | |- context [String.eqb ?s ?k] => destruct (String.eqb s k)
         end;
  repeat match goal with
         | |- context [str_in ?x []] => change (str_in x []) with false
         | |- context [str_in ?x ?l] => destruct (str_in x l)
         end;
  reflexivity.

(** The score before the random term: 10 for a top-liquid symbol, 5 for a
    symbol of the affinity list of the strategy, and nothing else. *)
Lemma static_quality_score_parts (symbol strategy_name : string) :
  static_quality_score symbol strategy_name ==
  (if str_in symbol TOP_LIQUID_STOCKS then 10 else 0)
  + (if str_in symbol (affinity_list strategy_name) then 5 else 0).
Proof.
  unfold static_quality_score, affinity_list.
  destruct (str_in symbol TOP_LIQUID_STOCKS) eqn:Etop.
  - by_strategy_and_affinity.
  - destruct (str_in symbol MEGA_CAPS) eqn:Emega.
    + apply mega_caps_are_top_liquid in Emega. congruence.
    + by_strategy_and_affinity.
Qed.

(** The random term of the score lies in [0, 3). *)
Lemma uniform_0_3_bounds (random : nat -> Q) (i : nat) :
  0 <= random i < 1 -> 0 <= fst (uniform random 0 3 i) < 3.
Proof. unfold uniform. simpl. lra. Qed.

(** C5 at a symbol of both sets: for ["AAPL"], which is in the top-liquid
    table and in the mega-cap list, the score under ["Gap Fade"] is 10 plus
    the random term, so below 13 however the draw falls; the 15 of the
    mega-cap tier is not given. *)
Theorem quality_score_of_mega_cap (random : nat -> Q) (i : nat) :
  str_in "AAPL" TOP_LIQUID_STOCKS = true /\
  str_in "AAPL" MEGA_CAPS = true /\
  str_in "AAPL" (affinity_list "Gap Fade") = false /\
  fst (_calculate_quality_score random "AAPL" "Gap Fade" i) == 10 + 3 * random i /\
  (random i < 1 -> fst (_calculate_quality_score random "AAPL" "Gap Fade" i) < 15).
Proof.
  repeat (split; [reflexivity|]).
  assert (E : fst (_calculate_quality_score random "AAPL" "Gap Fade" i)
              == 10 + 3 * random i).
  { unfold _calculate_quality_score, uniform. simpl fst.
    change (static_quality_score "AAPL" "Gap Fade") with (0 + 10). lra. }
  split; [exact E|]. intros H. rewrite E. lra.
Qed.

(** Without the affinity bonus the score before the random term is 0 or
    10 for every symbol: the liquidity tier is never 15. *)
Lemma static_quality_score_values (symbol strategy_name : string) :
  str_in symbol (affinity_list strategy_name) = false ->
  static_quality_score symbol strategy_name == 0 \/
  static_quality_score symbol strategy_name == 10.
Proof.
  intros H. rewrite static_quality_score_parts, H.
  destruct (str_in symbol TOP_LIQUID_STOCKS); [right | left]; reflexivity.
Qed.

(** ** The claims at sample inputs *)

(** C2 (amended) at the two sample trades, in the order given and swapped:
    two trades and one win either way. *)
Lemma replayed_trades_are_counted_witness :
  exists t1 recs stats t2 stats',
    replay no_parse no_format sample_calls (new_tracker DiskOk) = Returned t1 /\
    trades (performance_data t1) =
      trades (performance_data (new_tracker DiskOk)) ++ recs /\
    List.length recs = List.length sample_calls /\
    get_aggregate (performance_data t1) "S1" "AAPL" = Some stats /\
    total_trades stats = List.length sample_calls /\
    winning_trades stats = List.length (filter tr_win recs) /\
    winning_trades stats = List.length (filter call_wins sample_calls) /\
    (winning_trades stats <= total_trades stats)%nat /\
    0 <= of_int (winning_trades stats) / of_int (total_trades stats) <= 1 /\
    avg_hold_time stats = running_mean exact (map (call_hold_time no_parse) sample_calls) /\
    replay no_parse no_format (rev sample_calls) (new_tracker DiskOk) = Returned t2 /\
    get_aggregate (performance_data t2) "S1" "AAPL" = Some stats' /\
    total_trades stats' = total_trades stats /\
    winning_trades stats' = winning_trades stats /\
    avg_hold_time stats' =
      running_mean exact (map (call_hold_time no_parse) (rev sample_calls)).
Proof.
  apply (replayed_trades_are_counted no_parse no_format "S1" "AAPL" sample_calls
           (rev sample_calls) (new_tracker DiskOk)).
  - discriminate.
  - reflexivity.
  - reflexivity.
  - reflexivity.
  - apply perm_swap.
Defined.

(** C7 at a tracker with one trade. *)
Lemma save_then_load_round_trip_witness :
  load_data (env (save_data sample_tracker)) = dump (performance_data sample_tracker) /\
  exists pd,
    as_performance_data (load_data (env (save_data sample_tracker))) = Some pd /\
    pd = performance_data sample_tracker /\
    trades pd = trades (performance_data sample_tracker) /\
    forall strategy_name symbol,
      get_aggregate pd strategy_name symbol =
      get_aggregate (performance_data sample_tracker) strategy_name symbol.
Proof.
  apply (save_then_load_round_trip sample_tracker). reflexivity.
Defined.

(** C4 (amended) on either side of the floor: the entry of the scenario,
    with a win rate of 0.9 and an average return of -0.01, scores 0.9 times
    0.001; the entry of ["ZZZ"] in the ranked ledger, with an average
    return of 0.005, scores its win rate times that average. *)
Lemma performance_score_has_floor_witness :
  get_strategy_performance floor_ledger "S1" 5 = Ok [("AAPL", floor_entry)] /\
  win_rate floor_entry == 9 # 10 /\
  avg_pnl_percent floor_entry == - (1 # 100) /\
  performance_score floor_entry = win_rate floor_entry * (1 # 1000) /\
  0 <= performance_score floor_entry /\
  get_strategy_performance ranked_ledger "Gap Fade" 10 = Ok [("ZZZ", ranked_entry)] /\
  avg_pnl_percent ranked_entry == 5 # 1000 /\
  performance_score ranked_entry = win_rate ranked_entry * avg_pnl_percent ranked_entry.
Proof.
  assert (Hget : get_strategy_performance floor_ledger "S1" 5
                 = Ok [("AAPL", floor_entry)]) by reflexivity.
  assert (Hget' : get_strategy_performance ranked_ledger "Gap Fade" 10
                  = Ok [("ZZZ", ranked_entry)]) by reflexivity.
  destruct (proj2 (performance_score_has_floor floor_ledger "S1" 5)
              [("AAPL", floor_entry)] "AAPL" floor_entry Hget (or_introl eq_refl))
    as (_ & Hbelow & _ & _ & Hpos).
  destruct (proj2 (performance_score_has_floor ranked_ledger "Gap Fade" 10)
              [("ZZZ", ranked_entry)] "ZZZ" ranked_entry Hget' (or_introl eq_refl))
    as (_ & _ & Habove & _).
  split; [exact Hget|]. split; [reflexivity|]. split; [reflexivity|].
  split; [apply Hbelow; reflexivity|]. split; [exact Hpos|].
  split; [exact Hget'|]. split; [reflexivity|].
  apply Habove. discriminate.
Defined.

(** * Further properties *)

(** ** The ledger and its statistics *)

Lemma get_aggregate_apply_trade_other (r : TradeRecord) (pd : PerformanceData)
    (s y : string) :
  (s, y) <> (tr_strategy r, tr_symbol r) ->
  get_aggregate (apply_trade r pd) s y = get_aggregate pd s y.
Proof.
  intros Hne. unfold get_aggregate, apply_trade, update_strategy_stats. simpl.
  set (ss := strategy_stats pd).
  set (ss1 := if dict_contains (tr_strategy r) ss then ss
              else dict_set (tr_strategy r) [] ss).
  assert (Hss1 : forall k, dict_get k ss1 =
                           if String.eqb k (tr_strategy r)
                           then Some (dict_get_default (tr_strategy r) [] ss)
                           else dict_get k ss).
  { intros k. unfold ss1, dict_contains, dict_get_default.
    destruct (String.eqb k (tr_strategy r)) eqn:Ek.
    - apply String.eqb_eq in Ek. subst k.
      destruct (dict_get (tr_strategy r) ss) eqn:E; [exact E|].
      apply dict_get_set_same.
    - apply String.eqb_neq in Ek.
      destruct (dict_get (tr_strategy r) ss); [reflexivity|].
      apply dict_get_set_other. congruence. }
  assert (HB : dict_get_default (tr_strategy r) [] ss1
               = dict_get_default (tr_strategy r) [] ss).
  { unfold dict_get_default at 1. now rewrite Hss1, String.eqb_refl. }
  rewrite HB. set (by_symbol := dict_get_default (tr_strategy r) [] ss).
  destruct (String.eqb s (tr_strategy r)) eqn:Es.
  - apply String.eqb_eq in Es. subst s.
    assert (Hy : tr_symbol r <> y) by congruence.
    rewrite dict_get_set_same, dict_get_set_other by exact Hy.
    assert (Hold : dict_get y by_symbol =
                   match dict_get (tr_strategy r) ss with
                   | Some b => dict_get y b
                   | None => None
                   end).
    { unfold by_symbol, dict_get_default.
      now destruct (dict_get (tr_strategy r) ss). }
    rewrite <- Hold.
    destruct (dict_contains (tr_symbol r) by_symbol); [reflexivity|].
    apply dict_get_set_other. exact Hy.
  - apply String.eqb_neq in Es.
    rewrite dict_get_set_other by congruence.
    rewrite (Hss1 s). apply String.eqb_neq in Es. now rewrite Es.
Qed.

Lemma pair_trades_apply_trade (r : TradeRecord) (pd : PerformanceData) (s y : string) :
  pair_trades (apply_trade r pd) s y =
  pair_trades pd s y
  ++ (if String.eqb (tr_strategy r) s && String.eqb (tr_symbol r) y then [r] else []).
Proof.
  unfold pair_trades, apply_trade. simpl. rewrite filter_app. reflexivity.
Qed.

Section LedgerFacts.
Variable fromisoformat : string -> option moment.
Variable isoformat : moment -> string.

(** The record of a call carries the pair of the call, and its [win] flag
    is the sign test of its profit. *)
Lemma make_trade_record_shape now s y ep xp et xt d sig r :
  make_trade_record fromisoformat isoformat now s y ep xp et xt d sig = Ok r ->
  tr_strategy r = s /\ tr_symbol r = y /\ tr_direction r = d /\
  tr_entry_price r = ep /\ tr_exit_price r = xp /\
  tr_pnl_percent r = (if String.eqb d "long" then (xp - ep) / ep else (ep - xp) / ep) /\
  tr_win r = Qltb 0 (tr_pnl_percent r).
Proof.
  intros H.
  destruct (make_trade_record_fields _ _ _ _ _ _ _ _ _ _ _ _ H)
    as (Hs & Hy & Hd & _ & _ & _ & _ & Hp & Hw & Hep & Hxp).
  now repeat split.
Qed.

(** What one call does to the ledger: nothing, or one record applied. *)
Lemma record_trade_effect now s y ep xp et xt d sig t :
  let t' := final_state (record_trade fromisoformat isoformat now s y ep xp et xt d sig t) in
  performance_data t' = performance_data t \/
  exists r,
    performance_data t' = apply_trade r (performance_data t) /\
    tr_strategy r = s /\ tr_symbol r = y /\ tr_win r = Qltb 0 (tr_pnl_percent r).
Proof.
  destruct (make_trade_record fromisoformat isoformat now s y ep xp et xt d sig)
    as [r|e] eqn:E.
  - destruct (record_trade_returns fromisoformat isoformat now s y ep xp et xt d sig t r E)
      as (t1 & Hr & Hpd).
    destruct (make_trade_record_shape _ _ _ _ _ _ _ _ _ _ E)
      as (Hs & Hy & _ & _ & _ & _ & Hw).
    simpl. rewrite Hr. simpl. right. exists r. now repeat split.
  - simpl. unfold record_trade. rewrite E. simpl. now left.
Qed.
End LedgerFacts.

(** X1: a call of [record_trade] for one pair, whatever its outcome, leaves
    the statistics of every other pair as they were. *)
Theorem record_trade_leaves_other_pairs
    (fromisoformat : string -> option moment) (isoformat : moment -> string)
    (now : datetime) (s y : string) (ep xp : Q) (et xt : time_arg) (d : string)
    (sig : Q) (t : tracker) (s' y' : string) :
  (s', y') <> (s, y) ->
  get_aggregate
    (performance_data
       (final_state (record_trade fromisoformat isoformat now s y ep xp et xt d sig t)))
    s' y'
  = get_aggregate (performance_data t) s' y'.
Proof.
  intros Hne.
  destruct (record_trade_effect fromisoformat isoformat now s y ep xp et xt d sig t)
    as [H|(r & H & Hs & Hy & _)]; rewrite H; [reflexivity|].
  apply get_aggregate_apply_trade_other. now rewrite Hs, Hy.
Qed.

(** X1 at a trade of another symbol of the same strategy. *)
Lemma record_trade_leaves_other_pairs_witness :
  get_aggregate
    (performance_data
       (final_state (record_trade no_parse no_format 0%Z "S1" "MSFT" 50 52
                       (TimeObj (naive 0%Z)) (TimeObj (naive 3600000000%Z)) "long" 1 sample_tracker)))
    "S1" "AAPL"
  = get_aggregate (performance_data sample_tracker) "S1" "AAPL".
Proof.
  apply (record_trade_leaves_other_pairs no_parse no_format 0%Z "S1" "MSFT" 50 52
           (TimeObj (naive 0%Z)) (TimeObj (naive 3600000000%Z)) "long" 1 sample_tracker "S1" "AAPL").
  discriminate.
Defined.

(** Appending a well-formed record keeps ledger and statistics in step. *)
Lemma apply_trade_consistent (r : TradeRecord) (pd : PerformanceData) :
  tr_win r = Qltb 0 (tr_pnl_percent r) ->
  ledger_consistent pd -> ledger_consistent (apply_trade r pd).
Proof.
  intros Hwin Hpd s y. specialize (Hpd s y).
  rewrite pair_trades_apply_trade.
  destruct (String.eqb (tr_strategy r) s && String.eqb (tr_symbol r) y) eqn:E.
  - apply andb_true_iff in E. destruct E as [Es Ey].
    apply String.eqb_eq in Es, Ey. subst s y.
    rewrite get_aggregate_apply_trade.
    set (recs := pair_trades pd (tr_strategy r) (tr_symbol r)) in *.
    assert (Hold : stats_match
                     (match get_aggregate pd (tr_strategy r) (tr_symbol r) with
                      | Some stats => stats
                      | None => fresh_stats
                      end) recs).
    { destruct (get_aggregate pd (tr_strategy r) (tr_symbol r)) as [stats|].
      - destruct Hpd as (Hne & Hn & Hw & Hp & Ha). now repeat split.
      - rewrite Hpd. apply stats_match_fresh. }
    pose proof (stats_match_update _ _ r Hwin Hold) as Hnew.
    assert (Hne : recs ++ [r] <> []) by (destruct recs; discriminate).
    destruct Hnew as (Hn & Hw & Hp & Ha). cbv zeta. now repeat split.
  - rewrite app_nil_r. rewrite get_aggregate_apply_trade_other; [exact Hpd|].
    intros H. inversion H; subst.
    now rewrite !String.eqb_refl in E.
Qed.

(** X2: the calls of [record_trade] keep the ledger and its statistics in
    step. If, before a run of calls, every pair has statistics exactly when
    it has records, with [total_trades] the number of its records,
    [winning_trades] the number of its winning records, [total_pnl] their
    returns added from the left in the order of the ledger, and
    [avg_hold_time] the running average of line 90 over their hold times in
    that order, then the same holds after the run, whether every call
    returned or one raised. *)
Theorem replay_keeps_ledger_consistent
    (fromisoformat : string -> option moment) (isoformat : moment -> string)
    (calls : list trade_call) (t : tracker) :
  ledger_consistent (performance_data t) ->
  ledger_consistent
    (performance_data (final_state (replay fromisoformat isoformat calls t))).
Proof.
  revert t. induction calls as [|c rest IH]; intros t Ht; [exact Ht|].
  simpl. unfold record_call.
  pose proof (record_trade_effect fromisoformat isoformat (c_now c) (c_strategy c)
                (c_symbol c) (c_entry_price c) (c_exit_price c) (c_entry_time c)
                (c_exit_time c) (c_direction c) (c_signal_strength c) t) as Heff.
  destruct (record_trade fromisoformat isoformat (c_now c) (c_strategy c) (c_symbol c)
              (c_entry_price c) (c_exit_price c) (c_entry_time c) (c_exit_time c)
              (c_direction c) (c_signal_strength c) t) as [t1|e t1]; simpl in Heff.
  - apply IH. destruct Heff as [H|(r & H & _ & _ & Hwin)]; rewrite H;
      [exact Ht | now apply apply_trade_consistent].
  - simpl. destruct Heff as [H|(r & H & _ & _ & Hwin)]; rewrite H;
      [exact Ht | now apply apply_trade_consistent].
Qed.

(** X2 from a new tracker, through the two sample trades. *)
Lemma replay_keeps_ledger_consistent_witness :
  ledger_consistent
    (performance_data
       (final_state (replay no_parse no_format sample_calls (new_tracker DiskOk)))).
Proof.
  apply (replay_keeps_ledger_consistent no_parse no_format sample_calls
           (new_tracker DiskOk)).
  intros s y. reflexivity.
Defined.

(** ** What a restart finds *)

(** X3: on a disk that takes the write, a call of [record_trade] that
    returns has put the whole new ledger into the file: [load_data] on the
    world it leaves reads back as the ledger in memory, the new trade
    included. *)
Theorem record_trade_is_durable
    (fromisoformat : string -> option moment) (isoformat : moment -> string)
    (now : datetime) (s y : string) (ep xp : Q) (et xt : time_arg) (d : string)
    (sig : Q) (t t' : tracker) :
  disk (env t) = DiskOk ->
  record_trade fromisoformat isoformat now s y ep xp et xt d sig t = Returned t' ->
  file (env t') = FileDocument (dump (performance_data t')) /\
  as_performance_data (load_data (env t')) = Some (performance_data t') /\
  exists r, trades (performance_data t') = trades (performance_data t) ++ [r].
Proof.
  intros Hdisk Hrun. unfold record_trade in Hrun.
  destruct (make_trade_record fromisoformat isoformat now s y ep xp et xt d sig)
    as [r|e]; [|discriminate].
  inversion Hrun; subst t'; clear Hrun.
  rewrite performance_data_print, performance_data_save.
  cbn [performance_data].
  assert (Hfile : file (env (print (PrintRecorded s d y (tr_pnl_percent r))
                               (save_data {| performance_data :=
                                               apply_trade r (performance_data t);
                                             env := env t |})))
                  = FileDocument (dump (apply_trade r (performance_data t)))).
  { unfold save_data. cbn [env performance_data]. rewrite Hdisk. reflexivity. }
  split; [exact Hfile|]. split.
  - rewrite (load_data_adopts _ _ Hfile) by reflexivity.
    apply as_performance_data_dump.
  - now exists r.
Qed.

(** X3 at the first trade of a new tracker. *)
Lemma record_trade_is_durable_witness :
  let t' := final_state (record_trade no_parse no_format 0%Z "S1" "AAPL" 100 101
                           (TimeObj (naive 0%Z)) (TimeObj (naive 3600000000%Z)) "long" 1
                           (new_tracker DiskOk)) in
  file (env t') = FileDocument (dump (performance_data t')) /\
  as_performance_data (load_data (env t')) = Some (performance_data t') /\
  exists r, trades (performance_data t')
            = trades (performance_data (new_tracker DiskOk)) ++ [r].
Proof.
  apply (record_trade_is_durable no_parse no_format 0%Z "S1" "AAPL" 100 101
           (TimeObj (naive 0%Z)) (TimeObj (naive 3600000000%Z)) "long" 1 (new_tracker DiskOk)).
  - reflexivity.
  - reflexivity.
Defined.

(** ** Which trades win *)

(** X4: with a positive entry price, the record of a long trade is a win
    exactly when the exit price is above the entry price, and the record of
    a trade of any other direction exactly when it is below; at equal
    prices no direction wins. *)
Theorem win_follows_price_move
    (fromisoformat : string -> option moment) (isoformat : moment -> string)
    (now : datetime) (s y : string) (ep xp : Q) (et xt : time_arg) (d : string)
    (sig : Q) (r : TradeRecord) :
  0 < ep ->
  make_trade_record fromisoformat isoformat now s y ep xp et xt d sig = Ok r ->
  (d = "long" -> (tr_win r = true <-> ep < xp)) /\
  (d <> "long" -> (tr_win r = true <-> xp < ep)) /\
  (xp == ep -> tr_win r = false).
Proof.
  intros Hpos Hr.
  destruct (make_trade_record_shape _ _ _ _ _ _ _ _ _ _ _ _ Hr)
    as (_ & _ & _ & _ & _ & Hpnl & Hwin).
  assert (Hlong : 0 < (xp - ep) / ep <-> ep < xp).
  { split; intros H.
    - apply (Qmult_lt_r _ _ ep Hpos) in H. field_simplify in H; lra.
    - apply Qlt_shift_div_l; lra. }
  assert (Hshort : 0 < (ep - xp) / ep <-> xp < ep).
  { split; intros H.
    - apply (Qmult_lt_r _ _ ep Hpos) in H. field_simplify in H; lra.
    - apply Qlt_shift_div_l; lra. }
  rewrite Hwin, Hpnl, Qltb_lt. split; [|split].
  - intros ->. simpl. exact Hlong.
  - intros Hd. apply String.eqb_neq in Hd. rewrite Hd. exact Hshort.
  - intros Heq. destruct (String.eqb d "long").
    + destruct (Qltb 0 ((xp - ep) / ep)) eqn:E; [|reflexivity].
      apply Qltb_lt, Hlong in E. lra.
    + destruct (Qltb 0 ((ep - xp) / ep)) eqn:E; [|reflexivity].
      apply Qltb_lt, Hshort in E. lra.
Qed.

(** X4 at the record of the winning long trade. *)
Lemma win_follows_price_move_witness :
  ("long" = "long" -> (tr_win sample_long_record = true <-> 100 < 101)) /\
  ("long" <> "long" -> (tr_win sample_long_record = true <-> 101 < 100)) /\
  (101 == 100 -> tr_win sample_long_record = false).
Proof.
  apply (win_follows_price_move no_parse no_format 0%Z "S1" "AAPL" 100 101
           (TimeObj (naive 0%Z)) (TimeObj (naive 3600000000%Z)) "long" 1 sample_long_record).
  - reflexivity.
  - reflexivity.
Defined.

(** ** The summary of a strategy *)




(** ** The statistics count the records *)

Lemma dict_get_In {V : Type} (k : string) (v : V) (d : dict V) :
  dict_get k d = Some v -> In (k, v) d.
Proof.
  induction d as [|[k' v'] d IH]; simpl; [discriminate|].
  destruct (String.eqb k k') eqn:E.
  - apply String.eqb_eq in E. subst. intros H. inversion H. now left.
  - intros H. right. now apply IH.
Qed.

Lemma In_dict_get {V : Type} (k : string) (v : V) (d : dict V) :
  NoDup (dict_keys d) -> In (k, v) d -> dict_get k d = Some v.
Proof.
  unfold dict_keys. induction d as [|[k' v'] d IH]; simpl; [tauto|].
  intros Hnd [H|H].
  - inversion H; subst. now rewrite String.eqb_refl.
  - inversion Hnd as [|? ? Hnotin Hnd']; subst.
    destruct (String.eqb k k') eqn:E.
    + apply String.eqb_eq in E. subst k'. exfalso. apply Hnotin.
      apply in_map_iff. now exists (k, v).
    + now apply IH.
Qed.

(** A run of calls keeps what every appended record keeps. *)
Lemma replay_invariant (P : PerformanceData -> Prop)
    (fromisoformat : string -> option moment) (isoformat : moment -> string) :
  (forall r pd, tr_win r = Qltb 0 (tr_pnl_percent r) -> P pd -> P (apply_trade r pd)) ->
  forall (calls : list trade_call) (t : tracker),
  P (performance_data t) ->
  P (performance_data (final_state (replay fromisoformat isoformat calls t))).
Proof.
  intros Hstep. induction calls as [|c rest IH]; intros t Ht; [exact Ht|].
  simpl. unfold record_call.
  pose proof (record_trade_effect fromisoformat isoformat (c_now c) (c_strategy c)
                (c_symbol c) (c_entry_price c) (c_exit_price c) (c_entry_time c)
                (c_exit_time c) (c_direction c) (c_signal_strength c) t) as Heff.
  destruct (record_trade fromisoformat isoformat (c_now c) (c_strategy c) (c_symbol c)
              (c_entry_price c) (c_exit_price c) (c_entry_time c) (c_exit_time c)
              (c_direction c) (c_signal_strength c) t) as [t1|e t1]; simpl in Heff.
  - apply IH. destruct Heff as [H|(r & H & _ & _ & Hwin)]; rewrite H;
      [exact Ht | now apply Hstep].
  - simpl. destruct Heff as [H|(r & H & _ & _ & Hwin)]; rewrite H;
      [exact Ht | now apply Hstep].
Qed.

Lemma apply_trade_keys_wf (r : TradeRecord) (pd : PerformanceData) :
  stats_keys_wf pd -> stats_keys_wf (apply_trade r pd).
Proof.
  intros Hwf s d. unfold apply_trade, update_strategy_stats. simpl.
  set (ss := strategy_stats pd).
  set (ss1 := if dict_contains (tr_strategy r) ss then ss
              else dict_set (tr_strategy r) [] ss).
  assert (Hss1 : forall k, dict_get k ss1 =
                           if String.eqb k (tr_strategy r)
                           then Some (dict_get_default (tr_strategy r) [] ss)
                           else dict_get k ss).
  { intros k. unfold ss1, dict_contains, dict_get_default.
    destruct (String.eqb k (tr_strategy r)) eqn:Ek.
    - apply String.eqb_eq in Ek. subst k.
      destruct (dict_get (tr_strategy r) ss) eqn:E; [exact E|].
      apply dict_get_set_same.
    - apply String.eqb_neq in Ek.
      destruct (dict_get (tr_strategy r) ss); [reflexivity|].
      apply dict_get_set_other. congruence. }
  assert (HB : dict_get_default (tr_strategy r) [] ss1
               = dict_get_default (tr_strategy r) [] ss).
  { unfold dict_get_default at 1. now rewrite Hss1, String.eqb_refl. }
  rewrite HB. set (by_symbol := dict_get_default (tr_strategy r) [] ss).
  assert (Hby : NoDup (dict_keys by_symbol)).
  { unfold by_symbol, dict_get_default.
    destruct (dict_get (tr_strategy r) ss) eqn:E; [now apply (Hwf _ _ E) | constructor]. }
  destruct (String.eqb s (tr_strategy r)) eqn:Es.
  - apply String.eqb_eq in Es. subst s. rewrite dict_get_set_same.
    intros H. inversion H; subst. apply dict_set_NoDup.
    destruct (dict_contains (tr_symbol r) by_symbol);
      [exact Hby | now apply dict_set_NoDup].
  - apply String.eqb_neq in Es. rewrite dict_get_set_other by congruence.
    rewrite Hss1. apply String.eqb_neq in Es. rewrite Es. apply Hwf.
Qed.

Lemma pair_trades_of_strategy (pd : PerformanceData) (s y : string) :
  pair_trades pd s y =
  filter (fun t => String.eqb (tr_symbol t) y) (strategy_trades pd s).
Proof.
  unfold pair_trades, strategy_trades.
  induction (trades pd) as [|t l IH]; simpl; [reflexivity|].
  destruct (String.eqb (tr_strategy t) s); simpl; [|exact IH].
  destruct (String.eqb (tr_symbol t) y); now rewrite IH.
Qed.

Lemma nat_sum_cons (x : nat) (l : list nat) : nat_sum (x :: l) = (x + nat_sum l)%nat.
Proof. reflexivity. Qed.

(** The number of records of class [k]. *)
Lemma class_size_cons (t : TradeRecord) (recs : list TradeRecord) (k : string) :
  List.length (filter (fun t' => String.eqb (tr_symbol t') k) (t :: recs))
  = ((if String.eqb (tr_symbol t) k then 1 else 0)
     + List.length (filter (fun t' => String.eqb (tr_symbol t') k) recs))%nat.
Proof. simpl. now destruct (String.eqb (tr_symbol t) k). Qed.

(** Among distinct keys, one symbol is counted once. *)
Lemma one_key_matches (x : string) (keys : list string) :
  NoDup keys -> In x keys ->
  nat_sum (map (fun k => if String.eqb x k then 1 else 0)%nat keys) = 1%nat.
Proof.
  induction keys as [|k ks IH]; intros Hnd Hin; [destruct Hin|].
  inversion Hnd as [|? ? Hnotin Hnd']; subst.
  rewrite map_cons, nat_sum_cons.
  destruct (String.eqb x k) eqn:E.
  - apply String.eqb_eq in E. subst k.
    assert (Hzero : nat_sum (map (fun k => if String.eqb x k then 1 else 0)%nat ks)
                    = 0%nat).
    { clear IH Hnd Hnd' Hin. induction ks as [|k ks IH]; [reflexivity|].
      rewrite map_cons, nat_sum_cons.
      destruct (String.eqb x k) eqn:E.
      - apply String.eqb_eq in E. exfalso. apply Hnotin. now left.
      - apply IH. intros H. apply Hnotin. now right. }
    now rewrite Hzero.
  - apply String.eqb_neq in E. destruct Hin as [Hin|Hin]; [congruence|].
    now rewrite IH.
Qed.

Lemma nat_sum_map_add {A : Type} (f g : A -> nat) (l : list A) :
  nat_sum (map (fun a => f a + g a)%nat l) = (nat_sum (map f l) + nat_sum (map g l))%nat.
Proof.
  induction l as [|a l IH]; [reflexivity|].
  rewrite !map_cons, !nat_sum_cons, IH. lia.
Qed.

(** Records sorted into the classes of a list of distinct keys that covers
    them: the classes together are as many as the records. *)
Lemma class_sizes_add_up (recs : list TradeRecord) (keys : list string) :
  NoDup keys ->
  (forall t, In t recs -> In (tr_symbol t) keys) ->
  nat_sum (map (fun k => List.length
                           (filter (fun t => String.eqb (tr_symbol t) k) recs)) keys)
  = List.length recs.
Proof.
  intros Hnd. induction recs as [|t recs IH]; intros Hcover.
  - simpl. clear. induction keys as [|k ks IHk]; simpl; [reflexivity | exact IHk].
  - rewrite (map_ext _ _ (class_size_cons t recs)), nat_sum_map_add.
    rewrite (one_key_matches _ _ Hnd (Hcover t (or_introl eq_refl))).
    rewrite IH; [reflexivity|]. intros t' Ht'. apply Hcover. now right.
Qed.

(** In a ledger that is in step with its statistics, the trades of a
    strategy summed over its symbols are its records. *)
Lemma recorded_trades_are_records (pd : PerformanceData) (s : string) :
  ledger_consistent pd -> stats_keys_wf pd ->
  recorded_trades pd s = List.length (strategy_trades pd s).
Proof.
  intros Hcons Hwf. unfold recorded_trades, dict_get_default.
  destruct (dict_get s (strategy_stats pd)) as [d|] eqn:Ed.
  - pose proof (Hwf s d Ed) as Hnd.
    assert (Hmap : map total_trades (dict_values d)
                   = map (fun k => List.length
                            (filter (fun t => String.eqb (tr_symbol t) k)
                               (strategy_trades pd s))) (dict_keys d)).
    { unfold dict_values, dict_keys. rewrite !map_map. apply map_ext_in.
      intros [k st] Hin. simpl.
      pose proof (Hcons s k) as Hk. unfold get_aggregate in Hk.
      rewrite Ed, (In_dict_get k st d Hnd Hin) in Hk.
      destruct Hk as (_ & Hn & _). now rewrite Hn, pair_trades_of_strategy. }
    rewrite Hmap. apply class_sizes_add_up; [exact Hnd|].
    intros t Ht. pose proof (Hcons s (tr_symbol t)) as Hk.
    unfold get_aggregate in Hk. rewrite Ed in Hk.
    destruct (dict_get (tr_symbol t) d) as [st|] eqn:Et.
    + apply dict_get_In in Et. unfold dict_keys. apply in_map_iff.
      now exists (tr_symbol t, st).
    + exfalso. rewrite pair_trades_of_strategy in Hk.
      assert (Hin : In t (filter (fun t' => String.eqb (tr_symbol t') (tr_symbol t))
                            (strategy_trades pd s))).
      { apply filter_In. split; [exact Ht | apply String.eqb_refl]. }
      rewrite Hk in Hin. destruct Hin.
  - simpl. destruct (strategy_trades pd s) as [|t l] eqn:E; [reflexivity|].
    exfalso. pose proof (Hcons s (tr_symbol t)) as Hk.
    unfold get_aggregate in Hk. rewrite Ed, pair_trades_of_strategy, E in Hk.
    simpl in Hk. rewrite String.eqb_refl in Hk. discriminate.
Qed.

(** The count of the summary, and when there is none. *)
Lemma get_strategy_summary_count (pd : PerformanceData) (strategy_name : string) :
  exists o,
    get_strategy_summary pd strategy_name = Ok o /\
    match o with
    | Some sm => sm_total_trades sm = List.length (strategy_trades pd strategy_name)
                 /\ strategy_trades pd strategy_name <> []
    | None => strategy_trades pd strategy_name = []
    end.
Proof.
  unfold get_strategy_summary.
  destruct (strategy_trades pd strategy_name) as [|r recs] eqn:E.
  - now exists None.
  - assert (Hnz : Qeq_bool (of_int (List.length (r :: recs))) 0 = false).
    { apply Qeq_bool_false. pose proof (of_int_S_pos (List.length recs)).
      simpl List.length. lra. }
    destruct (get_top_performers_spec pd strategy_name 1 3 ltac:(lia))
      as (best & Hbest & _).
    unfold py_div. rewrite Hnz. unfold bind. rewrite Hbest.
    eexists. split; [reflexivity|]. split; [reflexivity | discriminate].
Qed.

(** X6: in a ledger that calls of [record_trade] have kept in step with its
    statistics, the [total_trades] of a strategy summed over its symbols is
    the number of its records; so the count in the summary of the strategy
    is that sum, which is then at least 1, and there is no summary exactly
    when the sum is zero. *)
Theorem summary_counts_the_recorded_trades
    (fromisoformat : string -> option moment) (isoformat : moment -> string)
    (calls : list trade_call) (t : tracker) (strategy_name : string) :
  ledger_consistent (performance_data t) ->
  stats_keys_wf (performance_data t) ->
  let pd := performance_data (final_state (replay fromisoformat isoformat calls t)) in
  recorded_trades pd strategy_name = List.length (strategy_trades pd strategy_name) /\
  exists o,
    get_strategy_summary pd strategy_name = Ok o /\
    (o = None <-> recorded_trades pd strategy_name = 0%nat) /\
    match o with
    | Some sm => sm_total_trades sm = recorded_trades pd strategy_name /\
                 (1 <= recorded_trades pd strategy_name)%nat
    | None => recorded_trades pd strategy_name = 0%nat
    end.
Proof.
  intros Hcons Hwf pd.
  assert (Hcons' : ledger_consistent pd).
  { apply (replay_invariant ledger_consistent); [|exact Hcons].
    intros r pd0. apply apply_trade_consistent. }
  assert (Hwf' : stats_keys_wf pd).
  { apply (replay_invariant stats_keys_wf); [|exact Hwf].
    intros r pd0 _. apply apply_trade_keys_wf. }
  pose proof (recorded_trades_are_records pd strategy_name Hcons' Hwf') as Hrec.
  split; [exact Hrec|].
  destruct (get_strategy_summary_count pd strategy_name) as (o & Ho & Hspec).
  exists o. split; [exact Ho|]. rewrite Hrec.
  destruct o as [sm|].
  - destruct Hspec as (Hcount & Hne).
    assert (Hpos : (1 <= List.length (strategy_trades pd strategy_name))%nat).
    { destruct (strategy_trades pd strategy_name); [congruence | simpl; lia]. }
    split; [|split; [exact Hcount | exact Hpos]].
    split; [discriminate | lia].
  - rewrite Hspec. split; [|reflexivity]. split; reflexivity.
Qed.

(** X6 after the two sample trades on a new tracker. *)
Lemma summary_counts_the_recorded_trades_witness :
  let pd := performance_data
              (final_state (replay no_parse no_format sample_calls (new_tracker DiskOk))) in
  recorded_trades pd "S1" = List.length (strategy_trades pd "S1") /\
  exists o,
    get_strategy_summary pd "S1" = Ok o /\
    (o = None <-> recorded_trades pd "S1" = 0%nat) /\
    match o with
    | Some sm => sm_total_trades sm = recorded_trades pd "S1" /\
                 (1 <= recorded_trades pd "S1")%nat
    | None => recorded_trades pd "S1" = 0%nat
    end.
Proof.
  apply (summary_counts_the_recorded_trades no_parse no_format sample_calls
           (new_tracker DiskOk) "S1").
  - intros s y. reflexivity.
  - intros s d H. discriminate H.
Defined.

(** ** The order of the top performers *)

Section SortOrder.
Context {A : Type} (key : A -> Q).

Lemma insert_desc_sorted (x : A) (l : list A) :
  StronglySorted (fun a b => key b <= key a) l ->
  StronglySorted (fun a b => key b <= key a) (insert_desc key x l).
Proof.
  induction 1 as [|y l Hl IH Hy]; simpl.
  - repeat constructor.
  - destruct (Qltb (key x) (key y)) eqn:E.
    + apply Qltb_lt in E. constructor; [exact IH|].
      apply (Permutation_Forall (Permutation_sym (insert_desc_Permutation key x l))).
      constructor; [lra | exact Hy].
    + apply Qltb_ge in E. constructor; [now constructor|].
      constructor; [exact E|].
      rewrite Forall_forall in *. intros z Hz. specialize (Hy z Hz). lra.
Qed.

(** The sort puts larger keys first. *)
Lemma sort_desc_sorted (l : list A) :
  StronglySorted (fun a b => key b <= key a) (sort_desc key l).
Proof.
  induction l as [|x l IH]; simpl; [constructor | now apply insert_desc_sorted].
Qed.

(** It is stable: the elements that pass a test on the key keep their
    order. *)
Lemma insert_desc_filter (p : Q -> bool) (x : A) (l : list A) :
  (forall a b, a == b -> p a = p b) ->
  (forall y, In y l -> p (key x) = true -> p (key y) = true -> key y == key x) ->
  filter (fun a => p (key a)) (insert_desc key x l)
  = filter (fun a => p (key a)) (x :: l).
Proof.
  intros Hp. induction l as [|y l IH]; intros Hsame; [reflexivity|].
  simpl insert_desc. destruct (Qltb (key x) (key y)) eqn:E; [|reflexivity].
  apply Qltb_lt in E. cbn [filter]. rewrite IH.
  - cbn [filter]. destruct (p (key y)) eqn:Ey; [|reflexivity].
    destruct (p (key x)) eqn:Ex; [|reflexivity].
    pose proof (Hsame y (or_introl eq_refl) eq_refl Ey). lra.
  - intros z Hz. apply Hsame. now right.
Qed.

Lemma sort_desc_stable (q : Q) (l : list A) :
  filter (fun a => Qeq_bool (key a) q) (sort_desc key l)
  = filter (fun a => Qeq_bool (key a) q) l.
Proof.
  induction l as [|x l IH]; [reflexivity|]. simpl sort_desc.
  rewrite (insert_desc_filter (fun k => Qeq_bool k q)).
  - cbn [filter]. now rewrite IH.
  - intros a b Hab. destruct (Qeq_bool a q) eqn:Ea.
    + apply Qeq_bool_iff in Ea. symmetry. apply Qeq_bool_iff. lra.
    + apply Qeq_bool_false in Ea. symmetry. apply Qeq_bool_false. lra.
  - intros y _ Hx Hy. apply Qeq_bool_iff in Hx, Hy. lra.
Qed.

(** What is cut off after the first [n] of a sorted list is no larger than
    what is kept. *)
Lemma firstn_sorted_top (n : nat) (l : list A) (x y : A) :
  StronglySorted (fun a b => key b <= key a) l ->
  In x (firstn n l) -> In y (skipn n l) -> key y <= key x.
Proof.
  intros Hs. revert n. induction Hs as [|z l Hl IH Hz]; intros n Hx Hy.
  - rewrite firstn_nil in Hx. destruct Hx.
  - destruct n as [|n]; [destruct Hx|]. simpl in Hx, Hy.
    destruct Hx as [->|Hx]; [|now apply (IH n)].
    rewrite Forall_forall in Hz. apply Hz.
    rewrite <- (firstn_skipn n l). apply in_or_app. now right.
Qed.
End SortOrder.

Lemma firstn_StronglySorted {A : Type} (R : A -> A -> Prop) (n : nat) (l : list A) :
  StronglySorted R l -> StronglySorted R (firstn n l).
Proof.
  intros Hs. revert n. induction Hs as [|x l Hl IH Hx]; intros n.
  - rewrite firstn_nil. constructor.
  - destruct n as [|n]; simpl; [constructor|].
    constructor; [apply IH|].
    rewrite Forall_forall in *. intros y Hy. apply Hx. now apply firstn_incl in Hy.
Qed.

(** In a map with distinct keys, the score of a key is that of its entry. *)
Lemma score_in_entry (performance : list (string * Performance))
    (e : string * Performance) :
  NoDup (dict_keys performance) -> In e performance ->
  score_in performance (fst e) = score_of e.
Proof.
  intros Hnd Hin. destruct e as [k p]. unfold score_in, score_of. simpl.
  now rewrite (In_dict_get k p performance Hnd Hin).
Qed.

Lemma names_sorted (performance entries : list (string * Performance)) :
  NoDup (dict_keys performance) -> incl entries performance ->
  StronglySorted (fun a b => score_of b <= score_of a) entries ->
  StronglySorted (fun a b => score_in performance b <= score_in performance a)
    (map fst entries).
Proof.
  intros Hnd Hincl Hs. induction Hs as [|e l Hl IH He]; simpl; [constructor|].
  constructor.
  - apply IH. intros x Hx. apply Hincl. now right.
  - rewrite Forall_forall in *. intros k Hk.
    apply in_map_iff in Hk. destruct Hk as (e' & <- & He').
    rewrite (score_in_entry performance e Hnd (Hincl e (or_introl eq_refl))).
    rewrite (score_in_entry performance e' Hnd (Hincl e' (or_intror He'))).
    now apply He.
Qed.

(** The parts of [get_top_performers]: the performance map, sorted, cut. *)
Lemma get_top_performers_parts (pd : PerformanceData) (s : string)
    (count min_trades : nat) (top : list string) :
  get_top_performers pd s count min_trades = Ok top ->
  exists performance,
    get_strategy_performance pd s min_trades = Ok performance /\
    NoDup (dict_keys performance) /\
    top = map fst (firstn count (sort_desc score_of performance)).
Proof.
  unfold get_top_performers.
  destruct (get_strategy_performance pd s min_trades) as [performance|e] eqn:E;
    [|discriminate].
  unfold bind. intros H. exists performance. split; [reflexivity|].
  split; [exact (get_strategy_performance_keys pd s min_trades performance E)|].
  destruct performance; inversion H; [now rewrite firstn_nil | reflexivity].
Qed.

(** X7: the symbols [get_top_performers] returns are symbols of the
    performance map of the strategy, each once, as many as asked for or as
    the map has; they come in the order of their [performance_score],
    highest first, and no symbol of the map that is left out scores higher
    than one that is returned. *)
Theorem get_top_performers_order (pd : PerformanceData) (strategy_name : string)
    (count min_trades : nat) (top : list string) :
  get_top_performers pd strategy_name count min_trades = Ok top ->
  exists performance,
    get_strategy_performance pd strategy_name min_trades = Ok performance /\
    NoDup top /\
    incl top (dict_keys performance) /\
    List.length top = Nat.min count (List.length performance) /\
    StronglySorted
      (fun a b => score_in performance b <= score_in performance a) top /\
    forall x y,
      In x top -> In y (dict_keys performance) -> ~ In y top ->
      score_in performance y <= score_in performance x.
Proof.
  intros Htop.
  destruct (get_top_performers_parts pd strategy_name count min_trades top Htop)
    as (performance & Hperf & Hnd & ->).
  exists performance. split; [exact Hperf|].
  destruct (top_of_sorted score_of count performance Hnd) as (H1 & H2 & H3).
  split; [exact H1|]. split; [exact H2|]. split; [exact H3|].
  set (sorted := sort_desc score_of performance).
  assert (Hsorted : StronglySorted (fun a b => score_of b <= score_of a) sorted)
    by apply sort_desc_sorted.
  assert (Hin : incl sorted performance).
  { intros e He. apply (Permutation_in _ (sort_desc_Permutation score_of performance)).
    exact He. }
  split.
  - apply names_sorted; [exact Hnd | | now apply firstn_StronglySorted].
    intros e He. apply Hin. now apply firstn_incl in He.
  - intros x y Hx Hy Hnot.
    apply in_map_iff in Hx. destruct Hx as (ex & <- & Hex).
    apply in_map_iff in Hy. destruct Hy as (ey & <- & Hey).
    rewrite (score_in_entry performance ex Hnd) by (apply Hin; now apply firstn_incl in Hex).
    rewrite (score_in_entry performance ey Hnd Hey).
    apply (firstn_sorted_top score_of count sorted ex ey Hsorted Hex).
    assert (Hey' : In ey sorted).
    { apply (Permutation_in _ (Permutation_sym (sort_desc_Permutation score_of performance))).
      exact Hey. }
    rewrite <- (firstn_skipn count sorted) in Hey'.
    apply in_app_or in Hey'. destruct Hey' as [Hk|Hk]; [|exact Hk].
    exfalso. apply Hnot. apply in_map_iff. now exists ey.
Qed.

(** X7 on the ledger with four symbols, asking for two. *)
Lemma get_top_performers_order_witness :
  exists performance,
    get_strategy_performance ranked_ledger "Gap Fade" 3 = Ok performance /\
    NoDup ["ZZZ"; "TSLA"] /\
    incl ["ZZZ"; "TSLA"] (dict_keys performance) /\
    List.length ["ZZZ"; "TSLA"] = Nat.min 2 (List.length performance) /\
    StronglySorted
      (fun a b => score_in performance b <= score_in performance a) ["ZZZ"; "TSLA"] /\
    forall x y,
      In x ["ZZZ"; "TSLA"] -> In y (dict_keys performance) -> ~ In y ["ZZZ"; "TSLA"] ->
      score_in performance y <= score_in performance x.
Proof.
  apply (get_top_performers_order ranked_ledger "Gap Fade" 2 3 ["ZZZ"; "TSLA"]).
  reflexivity.
Defined.

Lemma filter_names (performance entries : list (string * Performance)) (q : Q) :
  NoDup (dict_keys performance) -> incl entries performance ->
  filter (fun k => Qeq_bool (score_in performance k) q) (map fst entries)
  = map fst (filter (fun e => Qeq_bool (score_of e) q) entries).
Proof.
  intros Hnd. induction entries as [|e l IH]; intros Hincl; [reflexivity|].
  cbn [map filter].
  rewrite (score_in_entry performance e Hnd (Hincl e (or_introl eq_refl))).
  rewrite IH by (intros x Hx; apply Hincl; now right).
  now destruct (Qeq_bool (score_of e) q).
Qed.

(** X8: among the symbols of one score, [get_top_performers] keeps the
    order of the performance map and returns the first ones: the symbols of
    a given score it returns are an initial part of the symbols of that
    score in the map. *)
Theorem get_top_performers_ties (pd : PerformanceData) (strategy_name : string)
    (count min_trades : nat) (top : list string) (q : Q) :
  get_top_performers pd strategy_name count min_trades = Ok top ->
  exists performance rest,
    get_strategy_performance pd strategy_name min_trades = Ok performance /\
    filter (fun k => Qeq_bool (score_in performance k) q) (dict_keys performance)
    = filter (fun k => Qeq_bool (score_in performance k) q) top ++ rest.
Proof.
  intros Htop.
  destruct (get_top_performers_parts pd strategy_name count min_trades top Htop)
    as (performance & Hperf & Hnd & ->).
  set (sorted := sort_desc score_of performance).
  assert (Hin : incl sorted performance).
  { intros e He. apply (Permutation_in _ (sort_desc_Permutation score_of performance)).
    exact He. }
  exists performance,
    (map fst (filter (fun e => Qeq_bool (score_of e) q) (skipn count sorted))).
  split; [exact Hperf|].
  unfold dict_keys. rewrite (filter_names performance performance q Hnd (incl_refl _)).
  rewrite (filter_names performance (firstn count sorted) q Hnd)
    by (intros e He; apply Hin; now apply firstn_incl in He).
  rewrite <- map_app, <- filter_app, firstn_skipn.
  unfold sorted. now rewrite sort_desc_stable.
Qed.

(** X8 on the ledger with four symbols: of the two symbols that score
    1/900, the one that comes first in the map is returned. *)
Lemma get_top_performers_ties_witness :
  exists performance rest,
    get_strategy_performance ranked_ledger "Gap Fade" 3 = Ok performance /\
    filter (fun k => Qeq_bool (score_in performance k) (1 # 900)) (dict_keys performance)
    = filter (fun k => Qeq_bool (score_in performance k) (1 # 900)) ["ZZZ"; "TSLA"]
      ++ rest.
Proof.
  apply (get_top_performers_ties ranked_ledger "Gap Fade" 2 3 ["ZZZ"; "TSLA"] (1 # 900)).
  reflexivity.
Defined.

(** ** The two branches of the selection *)

Section BranchFacts.
Variable random : nat -> Q.

(** Each stock scored costs one draw. *)
Lemma score_stocks_draws (strategy_name : string) (stocks : list string) :
  forall i, snd (score_stocks random strategy_name stocks i)
            = (i + List.length stocks)%nat.
Proof.
  induction stocks as [|stock rest IH]; intros i; simpl; [lia|].
  specialize (IH (S i)).
  destruct (score_stocks random strategy_name rest (S i)) as [qs i2].
  simpl in *. lia.
Qed.

(** The branch [get_optimized_stock_list] takes. *)
Lemma get_optimized_stock_list_branch (pd : PerformanceData) (strategy_name : string)
    (n i : nat) (top : list string) :
  get_top_performers pd strategy_name (n * 2) 3 = Ok top ->
  get_optimized_stock_list random pd strategy_name (Some n) i
  = Ok (if (n / 2 <=? List.length top)%nat
        then _performance_based_selection random strategy_name
               (base_list_of strategy_name) top n i
        else _quality_based_selection random strategy_name
               (base_list_of strategy_name) n i).
Proof.
  intros Htop. unfold get_optimized_stock_list. rewrite Htop. unfold bind.
  now destruct (n / 2 <=? List.length top)%nat.
Qed.

(** The performance-based selection, spelled out. *)
Lemma performance_based_selection_parts (strategy_name : string)
    (base_list top : list string) (n i : nat) :
  let proven := firstn (Nat.min (List.length top) (n / 2)) top in
  let candidates := filter (fun stock => negb (str_in stock proven)) base_list in
  exists extra,
    _performance_based_selection random strategy_name base_list top n i
    = (proven ++ extra, (i + List.length candidates)%nat) /\
    incl extra candidates /\
    List.length extra = Nat.min (n - List.length proven) (List.length candidates).
Proof.
  intros proven candidates. unfold _performance_based_selection.
  fold proven. fold candidates.
  pose proof (score_stocks_names random strategy_name candidates i) as Hnames.
  pose proof (score_stocks_draws strategy_name candidates i) as Hdraws.
  destruct (score_stocks random strategy_name candidates i) as [qs i1].
  cbn [fst snd] in *. subst i1.
  set (extra := map fst (firstn (n - List.length proven) (sort_desc snd qs))).
  assert (Hlen : List.length extra = Nat.min (n - List.length proven)
                                       (List.length candidates)).
  { unfold extra. rewrite length_map, length_firstn, sort_desc_length.
    unfold dict_keys in Hnames. now rewrite <- Hnames, length_map. }
  assert (Hplen : (List.length proven <= n)%nat).
  { unfold proven. rewrite length_firstn.
    pose proof (Nat.Div0.mul_div_le n 2). lia. }
  exists extra. split; [|split; [|exact Hlen]].
  - f_equal. apply firstn_all2. rewrite length_app, Hlen. lia.
  - intros x Hx. unfold extra in Hx. rewrite <- firstn_map in Hx.
    apply firstn_incl in Hx. rewrite <- Hnames.
    apply (Permutation_in _ (Permutation_map fst (sort_desc_Permutation snd qs))).
    exact Hx.
Qed.
End BranchFacts.

(** X9: when the ledger has at least [target_count // 2] top performers
    for the strategy, the list [get_optimized_stock_list] returns starts
    with the first [target_count // 2] of them, in their order; what
    follows comes from the base list of the strategy and repeats none of
    them. One draw is made per symbol of the base list that is not among
    them. *)
Theorem proven_performers_come_first (random : nat -> Q) (pd : PerformanceData)
    (strategy_name : string) (n i : nat) (top : list string) :
  get_top_performers pd strategy_name (n * 2) 3 = Ok top ->
  (n / 2 <= List.length top)%nat ->
  let proven := firstn (n / 2) top in
  let candidates :=
    filter (fun stock => negb (str_in stock proven)) (base_list_of strategy_name) in
  exists extra,
    get_optimized_stock_list random pd strategy_name (Some n) i
    = Ok (proven ++ extra, (i + List.length candidates)%nat) /\
    List.length proven = (n / 2)%nat /\
    incl extra (base_list_of strategy_name) /\
    (forall x, In x extra -> ~ In x proven) /\
    List.length extra = Nat.min (n - n / 2) (List.length candidates).
Proof.
  intros Htop Hlen proven candidates.
  rewrite (get_optimized_stock_list_branch random pd strategy_name n i top Htop).
  apply Nat.leb_le in Hlen. rewrite Hlen. apply Nat.leb_le in Hlen.
  destruct (performance_based_selection_parts random strategy_name
              (base_list_of strategy_name) top n i) as (extra & Hsel & Hincl & Hex).
  rewrite (Nat.min_r _ _ Hlen) in Hsel, Hincl, Hex.
  fold proven in Hsel, Hincl, Hex. fold candidates in Hsel, Hincl, Hex.
  assert (Hp : List.length proven = (n / 2)%nat).
  { unfold proven. rewrite length_firstn. lia. }
  exists extra. rewrite Hsel. split; [reflexivity|]. split; [exact Hp|].
  split; [|split].
  - intros x Hx. apply Hincl in Hx. unfold candidates in Hx.
    now apply filter_In in Hx.
  - intros x Hx Hx'. apply Hincl in Hx. unfold candidates in Hx.
    apply filter_In in Hx. destruct Hx as [_ Hx].
    apply negb_true_iff in Hx. apply str_in_In in Hx'. congruence.
  - now rewrite Hex, Hp.
Qed.

(** X9 on the ledger with four symbols, asking for four. *)
Lemma proven_performers_come_first_witness :
  let proven := firstn (4 / 2) ["ZZZ"; "TSLA"; "NVDA"] in
  let candidates :=
    filter (fun stock => negb (str_in stock proven)) (base_list_of "Gap Fade") in
  exists extra,
    get_optimized_stock_list (fun _ => 0) ranked_ledger "Gap Fade" (Some 4%nat) 0
    = Ok (proven ++ extra, (0 + List.length candidates)%nat) /\
    List.length proven = (4 / 2)%nat /\
    incl extra (base_list_of "Gap Fade") /\
    (forall x, In x extra -> ~ In x proven) /\
    List.length extra = Nat.min (4 - 4 / 2) (List.length candidates).
Proof.
  apply (proven_performers_come_first (fun _ => 0) ranked_ledger "Gap Fade" 4 0
           ["ZZZ"; "TSLA"; "NVDA"]).
  - reflexivity.
  - simpl. lia.
Defined.

(** X10: when the ledger has fewer than [target_count // 2] top performers
    for the strategy, [get_optimized_stock_list] selects from the base list
    of the strategy alone: every symbol it returns is of that list, none
    twice, there are [target_count] of them or as many as the list has, and
    every symbol of the list has cost one draw. *)
Theorem cold_start_selects_from_base_list (random : nat -> Q) (pd : PerformanceData)
    (strategy_name : string) (n i : nat) (top : list string) :
  get_top_performers pd strategy_name (n * 2) 3 = Ok top ->
  (List.length top < n / 2)%nat ->
  exists selected,
    get_optimized_stock_list random pd strategy_name (Some n) i
    = Ok (selected, (i + List.length (base_list_of strategy_name))%nat) /\
    incl selected (base_list_of strategy_name) /\
    NoDup selected /\
    List.length selected = Nat.min n (List.length (base_list_of strategy_name)).
Proof.
  intros Htop Hlen.
  rewrite (get_optimized_stock_list_branch random pd strategy_name n i top Htop).
  apply Nat.leb_gt in Hlen. rewrite Hlen.
  destruct (quality_based_selection_spec random strategy_name
              (base_list_of strategy_name) n i (base_list_NoDup strategy_name))
    as (Hnd & Hincl & Hn).
  pose proof (score_stocks_draws random strategy_name (base_list_of strategy_name) i)
    as Hdraws.
  unfold _quality_based_selection in *.
  destruct (score_stocks random strategy_name (base_list_of strategy_name) i)
    as [qs i1].
  cbn [fst snd] in *. subst i1. eexists. split; [reflexivity|]. now repeat split.
Qed.

(** X10 for a strategy the empty ledger knows nothing of. *)
Lemma cold_start_selects_from_base_list_witness :
  exists selected,
    get_optimized_stock_list (fun _ => 0) empty_data "Gap Fade" (Some 8%nat) 0
    = Ok (selected, (0 + List.length (base_list_of "Gap Fade"))%nat) /\
    incl selected (base_list_of "Gap Fade") /\
    NoDup selected /\
    List.length selected = Nat.min 8 (List.length (base_list_of "Gap Fade")).
Proof.
  apply (cold_start_selects_from_base_list (fun _ => 0) empty_data "Gap Fade" 8 0 []).
  - reflexivity.
  - simpl. lia.
Defined.

Lemma filter_all {A : Type} (f : A -> bool) (l : list A) :
  (forall x, In x l -> f x = true) -> filter f l = l.
Proof.
  induction l as [|x l IH]; intros H; simpl; [reflexivity|].
  rewrite (H x (or_introl eq_refl)), IH; [reflexivity|].
  intros y Hy. apply H. now right.
Qed.

(** X11: for a [target_count] of 0 or 1 the history of the strategy plays
    no part: whatever the ledger holds, [get_optimized_stock_list] returns
    what [_quality_based_selection] returns on the base list. *)
Theorem small_target_ignores_history (random : nat -> Q) (pd : PerformanceData)
    (strategy_name : string) (n i : nat) :
  (n <= 1)%nat ->
  get_optimized_stock_list random pd strategy_name (Some n) i
  = Ok (_quality_based_selection random strategy_name (base_list_of strategy_name) n i).
Proof.
  intros Hn.
  destruct (get_top_performers_spec pd strategy_name (n * 2) 3 ltac:(lia))
    as (top & Htop & _).
  rewrite (get_optimized_stock_list_branch random pd strategy_name n i top Htop).
  assert (Hhalf : (n / 2 = 0)%nat) by (apply Nat.div_small; lia).
  rewrite Hhalf. cbn [Nat.leb]. f_equal.
  unfold _performance_based_selection, _quality_based_selection.
  rewrite Hhalf, Nat.min_0_r. cbn [firstn List.length app].
  rewrite Nat.sub_0_r.
  rewrite (filter_all _ (base_list_of strategy_name)) by reflexivity.
  destruct (score_stocks random strategy_name (base_list_of strategy_name) i)
    as [qs i1].
  f_equal. apply firstn_all2. rewrite length_map. apply firstn_le_length.
Qed.

(** X11 on the ledger with four symbols, asking for one. *)
Lemma small_target_ignores_history_witness :
  get_optimized_stock_list (fun _ => 0) ranked_ledger "Gap Fade" (Some 1%nat) 0
  = Ok (_quality_based_selection (fun _ => 0) "Gap Fade" (base_list_of "Gap Fade") 1 0).
Proof.
  apply (small_target_ignores_history (fun _ => 0) ranked_ledger "Gap Fade" 1 0).
  lia.
Defined.

(** ** The random term and the tiers of the quality score *)

Section TierFacts.
Variable random : nat -> Q.
Hypothesis random_unit : forall k, 0 <= random k < 1.

(** Every score of the table is the score before the random term plus
    less than 3. *)
Lemma score_stocks_bounds (strategy_name : string) (stocks : list string) :
  forall i e, In e (fst (score_stocks random strategy_name stocks i)) ->
  static_quality_score (fst e) strategy_name <= snd e
  < static_quality_score (fst e) strategy_name + 3.
Proof.
  induction stocks as [|stock rest IH]; intros i e; simpl; [tauto|].
  specialize (IH (S i) e).
  destruct (score_stocks random strategy_name rest (S i)) as [qs i2].
  simpl. intros [<-|He]; [|now apply IH].
  simpl. pose proof (random_unit i). lra.
Qed.

End TierFacts.

(** X12: with draws in the unit interval, the random term of the quality
    score never lifts a symbol over a higher tier: if
    [_quality_based_selection] selects a symbol, it also selects every
    symbol of the base list whose score before the random term is at least
    3 higher (the tiers lie 5 apart). *)
Theorem quality_selection_respects_tiers (random : nat -> Q) (strategy_name : string)
    (base_list : list string) (n i : nat) (x y : string) :
  (forall k, 0 <= random k < 1) ->
  In x (fst (_quality_based_selection random strategy_name base_list n i)) ->
  In y base_list ->
  static_quality_score x strategy_name + 3 <= static_quality_score y strategy_name ->
  In y (fst (_quality_based_selection random strategy_name base_list n i)).
Proof.
  intros Hunit. unfold _quality_based_selection.
  pose proof (score_stocks_names random strategy_name base_list i) as Hnames.
  pose proof (score_stocks_bounds random Hunit strategy_name base_list i) as Hbounds.
  destruct (score_stocks random strategy_name base_list i) as [qs i1].
  cbn [fst snd] in *. intros Hx Hy Htier.
  set (sorted := sort_desc snd qs) in *.
  assert (Hperm : Permutation sorted qs) by apply sort_desc_Permutation.
  apply in_map_iff in Hx. destruct Hx as (ex & <- & Hex).
  rewrite <- Hnames in Hy. apply in_map_iff in Hy. destruct Hy as (ey & <- & Hey).
  assert (Hey' : In ey sorted) by now apply (Permutation_in _ (Permutation_sym Hperm)).
  rewrite <- (firstn_skipn n sorted) in Hey'.
  apply in_app_or in Hey'. destruct Hey' as [Hk|Hk].
  - apply in_map_iff. now exists ey.
  - exfalso.
    pose proof (firstn_sorted_top snd n sorted ex ey (sort_desc_sorted snd qs) Hex Hk)
      as Hle.
    assert (Hex' : In ex qs).
    { apply (Permutation_in _ Hperm). now apply firstn_incl in Hex. }
    pose proof (Hbounds ex Hex'). pose proof (Hbounds ey Hey). lra.
Qed.

(** X12 for ["VWAP Mean Reversion"] and four of its eight symbols, with
    every draw at one half: ["AMZN"] is selected, and so is ["AAPL"] of the
    tier above. *)
Lemma quality_selection_respects_tiers_witness :
  In "AAPL"
    (fst (_quality_based_selection (fun _ => 1 # 2) "VWAP Mean Reversion"
            (base_list_of "VWAP Mean Reversion") 4 0)).
Proof.
  apply (quality_selection_respects_tiers (fun _ => 1 # 2) "VWAP Mean Reversion"
           (base_list_of "VWAP Mean Reversion") 4 0 "AMZN" "AAPL").
  - intros k. unfold Qle, Qlt. simpl. lia.
  - vm_compute. tauto.
  - vm_compute. tauto.
  - vm_compute. discriminate.
Defined.

(** ** The watch-list of a strategy *)

(** The list of [get_optimized_stock_list] for a given count. *)
Lemma get_optimized_stock_list_shape (random : nat -> Q) (pd : PerformanceData)
    (strategy_name : string) (n i : nat) :
  exists selected i',
    get_optimized_stock_list random pd strategy_name (Some n) i = Ok (selected, i') /\
    (List.length selected <= n)%nat /\
    NoDup selected /\
    ((n <= List.length (base_list_of strategy_name))%nat -> List.length selected = n).
Proof.
  destruct (get_top_performers_spec pd strategy_name (n * 2) 3 ltac:(lia))
    as (top & Htop & Hnd & _).
  rewrite (get_optimized_stock_list_branch random pd strategy_name n i top Htop).
  pose proof (base_list_NoDup strategy_name) as Hbase.
  destruct (n / 2 <=? List.length top)%nat.
  - destruct (performance_based_selection_spec random strategy_name
                (base_list_of strategy_name) top n i Hbase Hnd) as (H1 & H2 & H3).
    destruct (_performance_based_selection random strategy_name
                (base_list_of strategy_name) top n i) as [selected i'].
    exists selected, i'. cbn [fst] in *. now repeat split.
  - destruct (quality_based_selection_spec random strategy_name
                (base_list_of strategy_name) n i Hbase) as (H1 & _ & H3).
    destruct (_quality_based_selection random strategy_name
                (base_list_of strategy_name) n i) as [selected i'].
    exists selected, i'. cbn [fst] in *. split; [reflexivity|].
    split; [lia|]. split; [exact H1 | lia].
Qed.

(** X13: [update_strategy_targets] raises nothing and never hands back a
    longer list than it was given: it returns either the very list given or
    a list without repetition of at most the same length. *)
Theorem update_strategy_targets_never_grows (random : nat -> Q) (pd : PerformanceData)
    (strategy : strategy_shell) (current_list : list string) (i : nat) :
  exists new_list i',
    update_strategy_targets random pd strategy current_list i = Ok (new_list, i') /\
    (List.length new_list <= List.length current_list)%nat /\
    (new_list = current_list \/ NoDup new_list).
Proof.
  unfold update_strategy_targets.
  destruct (get_strategy_performance_total pd (name strategy) 5 ltac:(lia))
    as [performance Hperf].
  rewrite Hperf. unfold bind.
  destruct performance as [|x performance].
  - exists current_list, i. split; [reflexivity|]. split; [lia | now left].
  - destruct (get_optimized_stock_list_shape random pd (name strategy)
                (List.length current_list) i) as (selected & i' & Hopt & Hlen & Hnd & _).
    rewrite Hopt. cbn [snd].
    destruct (20 <=? performance_total_trades (x :: performance))%nat.
    + exists selected, i'. split; [reflexivity|]. split; [exact Hlen | now right].
    + exists current_list, i'. split; [reflexivity|]. split; [lia | now left].
Qed.

(** X14: [get_strategy_recommendations] raises nothing. The stocks it
    recommends are ten without repetition, or as many as the base list of
    the strategy has when that is fewer; [data_quality] is ["high"] exactly
    when the ledger has more than 50 records of the strategy and ["low"]
    otherwise; and the summary is absent exactly when it has none. *)
Theorem get_strategy_recommendations_spec (random : nat -> Q) (pd : PerformanceData)
    (strategy_name : string) (i : nat) :
  exists r i',
    get_strategy_recommendations random pd strategy_name i = Ok (r, i') /\
    rc_strategy r = strategy_name /\
    get_strategy_performance pd strategy_name 5 = Ok (rc_performance_data r) /\
    NoDup (recommended_stocks r) /\
    List.length (recommended_stocks r)
      = Nat.min (List.length (base_list_of strategy_name)) 10 /\
    (data_quality r = "high" <->
     (50 < List.length (strategy_trades pd strategy_name))%nat) /\
    (data_quality r = "low" <->
     (List.length (strategy_trades pd strategy_name) <= 50)%nat) /\
    (rc_summary r = None <-> strategy_trades pd strategy_name = []).
Proof.
  unfold get_strategy_recommendations.
  destruct (get_strategy_performance_total pd strategy_name 5 ltac:(lia))
    as [performance Hperf].
  destruct (get_strategy_summary_count pd strategy_name) as (o & Ho & Hcount).
  set (n := Nat.min (List.length (base_list_of strategy_name)) 10).
  destruct (get_optimized_stock_list_shape random pd strategy_name n i)
    as (selected & i' & Hopt & _ & Hnd & Hlen).
  assert (Hopt' : get_optimized_stock_list random pd strategy_name None i
                  = Ok (selected, i')) by exact Hopt.
  rewrite Hperf, Ho. unfold bind. rewrite Hopt'.
  eexists _, _. split; [reflexivity|].
  cbn [rc_strategy rc_performance_data recommended_stocks data_quality rc_summary
       fst snd].
  split; [reflexivity|]. split; [reflexivity|]. split; [exact Hnd|].
  split; [apply Hlen; unfold n; lia|].
  destruct o as [sm|].
  - destruct Hcount as [Hcount Hne]. rewrite <- Hcount.
    split; [|split; [|split; [discriminate | intros H; contradiction]]].
    + destruct (50 <? sm_total_trades sm)%nat eqn:E.
      * apply Nat.ltb_lt in E. tauto.
      * apply Nat.ltb_ge in E. split; [discriminate | lia].
    + destruct (50 <? sm_total_trades sm)%nat eqn:E.
      * apply Nat.ltb_lt in E. split; [discriminate | lia].
      * apply Nat.ltb_ge in E. tauto.
  - rewrite Hcount. simpl.
    split; [split; [discriminate | lia]|]. split; [split; [lia | reflexivity]|].
    tauto.
Qed.

(** ** The strategy shells *)

Lemma timedelta_days_lt_1 (td : Z) :
  (timedelta_days td <? 1)%Z = true <-> (td < 86400000000)%Z.
Proof.
  unfold timedelta_days. rewrite Z.ltb_lt. split; intros H.
  - destruct (Z_lt_le_dec td 86400000000) as [Hlt|Hge]; [exact Hlt|].
    assert (1 <= td / 86400000000)%Z by (apply Z.div_le_lower_bound; lia). lia.
  - apply Z.div_lt_upper_bound; lia.
Qed.

(** X15: [optimize_stock_list] runs at most once in 24 hours. A call less
    than a day after [last_optimization] (or before it) changes nothing and
    draws nothing. A later call takes the list of
    [update_strategy_targets], which is never longer than the old one,
    prints the line on the update exactly when the list differs from the
    old one, and sets [last_optimization] to the clock reading, so that any
    further call less than a day after that reading changes nothing. *)
Theorem optimize_stock_list_once_a_day (random : nat -> Q) (pd : PerformanceData)
    (strategy : strategy_shell) (now now' : datetime) (sh : shell_state) (i : nat) :
  ((now - last_optimization sh < 86400000000)%Z ->
   optimize_stock_list random pd strategy now now' sh i = Ok (sh, false, i)) /\
  ((86400000000 <= now - last_optimization sh)%Z ->
   exists new_list printed i',
     update_strategy_targets random pd strategy (target_stocks sh) i
       = Ok (new_list, i') /\
     optimize_stock_list random pd strategy now now' sh i
       = Ok ({| target_stocks := new_list; last_optimization := now' |}, printed, i') /\
     (List.length new_list <= List.length (target_stocks sh))%nat /\
     (printed = true <-> new_list <> target_stocks sh) /\
     forall later later' j,
       (later - now' < 86400000000)%Z ->
       optimize_stock_list random pd strategy later later'
         {| target_stocks := new_list; last_optimization := now' |} j
       = Ok ({| target_stocks := new_list; last_optimization := now' |}, false, j)).
Proof.
  assert (Hskip : forall a b s j,
            (a - last_optimization s < 86400000000)%Z ->
            optimize_stock_list random pd strategy a b s j = Ok (s, false, j)).
  { intros a b s j H. unfold optimize_stock_list.
    apply timedelta_days_lt_1 in H. now rewrite H. }
  split; [apply Hskip|]. intros Hday.
  destruct (get_strategy_performance_total pd (name strategy) 5 ltac:(lia))
    as [performance Hperf].
  assert (Hrun : (timedelta_days (now - last_optimization sh) <? 1)%Z = false).
  { destruct (timedelta_days (now - last_optimization sh) <? 1)%Z eqn:E; [|reflexivity].
    apply timedelta_days_lt_1 in E. lia. }
  assert (Hupd : exists new_list i',
             update_strategy_targets random pd strategy (target_stocks sh) i
               = Ok (new_list, i') /\
             (List.length new_list <= List.length (target_stocks sh))%nat).
  { unfold update_strategy_targets. rewrite Hperf. unfold bind.
    destruct performance as [|x performance].
    - exists (target_stocks sh), i. split; [reflexivity | lia].
    - destruct (get_optimized_stock_list_shape random pd (name strategy)
                  (List.length (target_stocks sh)) i)
        as (selected & i' & Hopt & Hlen & _).
      rewrite Hopt. cbn [snd].
      destruct (20 <=? performance_total_trades (x :: performance))%nat.
      + exists selected, i'. split; [reflexivity | exact Hlen].
      + exists (target_stocks sh), i'. split; [reflexivity | lia]. }
  destruct Hupd as (new_list & i' & Hupd & Hlen).
  exists new_list,
    (if list_eq_dec string_dec (target_stocks sh) new_list then false else true), i'.
  split; [exact Hupd|]. split; [|split; [exact Hlen|split]].
  - unfold optimize_stock_list. rewrite Hrun, Hupd. reflexivity.
  - destruct (list_eq_dec string_dec (target_stocks sh) new_list) as [E|E].
    + split; [discriminate | congruence].
    + split; [congruence | reflexivity].
  - intros later later' j Hlater. apply Hskip. exact Hlater.
Qed.

(** ** The pairs of the pairs strategy *)

Lemma pair_in_In (p : string * string) (pairs : list (string * string)) :
  pair_in p pairs = true <-> In p pairs.
Proof.
  unfold pair_in, pair_eqb. rewrite existsb_exists. split.
  - intros ([a b] & Hin & E). apply andb_true_iff in E. destruct E as [E1 E2].
    apply String.eqb_eq in E1, E2. destruct p as [a' b']. simpl in *. now subst.
  - intros H. exists p. split; [exact H|]. now rewrite !String.eqb_refl.
Qed.

(** The loop over the top stocks only appends, raises no [IndexError],
    keeps the pairs distinct, and pairs neighbours of the list. *)
Lemma add_top_pairs_spec (top_stocks : list string) (good : string * string -> Prop) :
  (forall i a b, nth_error top_stocks i = Some a ->
                 nth_error top_stocks (i + 1) = Some b -> good (a, b)) ->
  forall (indices : list nat) (optimized_pairs : list (string * string)),
  NoDup optimized_pairs -> Forall good optimized_pairs ->
  exists extra,
    add_top_pairs top_stocks indices optimized_pairs = Some (optimized_pairs ++ extra) /\
    NoDup (optimized_pairs ++ extra) /\ Forall good (optimized_pairs ++ extra).
Proof.
  intros Hgood. induction indices as [|i rest IH]; intros acc Hnd Hall; simpl.
  - exists []. rewrite app_nil_r. now repeat split.
  - destruct (i + 1 <? List.length top_stocks)%nat eqn:E; [|now apply IH].
    apply Nat.ltb_lt in E.
    destruct (nth_error top_stocks i) as [a|] eqn:Ea.
    2: { apply nth_error_None in Ea. lia. }
    destruct (nth_error top_stocks (i + 1)) as [b|] eqn:Eb.
    2: { apply nth_error_None in Eb. lia. }
    destruct (pair_in (a, b) acc) eqn:Ein; [now apply IH|].
    assert (Hnotin : ~ In (a, b) acc).
    { intros H. apply pair_in_In in H. congruence. }
    destruct (IH (acc ++ [(a, b)])) as (extra & Hrun & Hnd' & Hall').
    + apply NoDup_app; [exact Hnd | repeat constructor; simpl; tauto |].
      intros x Hx [<-|[]]. contradiction.
    + apply Forall_app. split; [exact Hall|]. constructor; [|constructor].
      now apply (Hgood i).
    + exists ((a, b) :: extra). rewrite <- app_assoc in Hrun, Hnd', Hall'.
      now repeat split.
Qed.

Lemma traditional_pairs_NoDup : NoDup traditional_pairs.
Proof.
  unfold traditional_pairs.
  repeat constructor; simpl; intuition discriminate.
Qed.

(** X16: [_update_pairs_from_optimized_stocks] raises no [IndexError] and
    leaves at most four pairs, no pair twice, each made of two symbols of
    the list of target stocks, which differ when the list names no symbol
    twice; and every traditional pair whose two symbols are both on the
    list is among them. *)
Theorem update_pairs_spec (target_stocks : list string) :
  exists pairs,
    _update_pairs_from_optimized_stocks target_stocks = Some pairs /\
    (List.length pairs <= 4)%nat /\
    NoDup pairs /\
    (forall a b, In (a, b) pairs -> In a target_stocks /\ In b target_stocks) /\
    (NoDup target_stocks -> forall a b, In (a, b) pairs -> a <> b) /\
    (forall p, In p traditional_pairs ->
               In (fst p) target_stocks -> In (snd p) target_stocks -> In p pairs).
Proof.
  unfold _update_pairs_from_optimized_stocks.
  set (kept := filter (fun pair => str_in (fst pair) target_stocks
                                   && str_in (snd pair) target_stocks)
                 traditional_pairs).
  set (top := firstn 8 target_stocks).
  set (good := fun p : string * string =>
                 In (fst p) target_stocks /\ In (snd p) target_stocks /\
                 (NoDup target_stocks -> fst p <> snd p)).
  assert (Hkept : Forall good kept).
  { apply Forall_forall. intros [a b] Hin. unfold kept in Hin.
    apply filter_In in Hin. destruct Hin as [Hin Hboth].
    apply andb_true_iff in Hboth. destruct Hboth as [Ha Hb].
    apply str_in_In in Ha, Hb. unfold good. simpl.
    split; [exact Ha|]. split; [exact Hb|]. intros _ Hab. subst b.
    unfold traditional_pairs in Hin. simpl in Hin.
    repeat (destruct Hin as [Hin|Hin]; [inversion Hin; congruence|]).
    destruct Hin. }
  assert (Hneigh : forall i a b, nth_error top i = Some a ->
                                 nth_error top (i + 1) = Some b -> good (a, b)).
  { intros i a b Ha Hb. unfold good. simpl.
    split; [apply (firstn_incl 8), (nth_error_In _ _ Ha)|].
    split; [apply (firstn_incl 8), (nth_error_In _ _ Hb)|].
    intros Hnd Hab. subst b.
    assert (Htop : NoDup top) by now apply firstn_NoDup.
    rewrite NoDup_nth_error in Htop.
    assert (Hi : (i < List.length top)%nat) by (apply nth_error_Some; congruence).
    specialize (Htop i (i + 1)%nat Hi). rewrite Ha, Hb in Htop.
    specialize (Htop eq_refl). lia. }
  destruct (add_top_pairs_spec top good Hneigh
              (range_by_2 (Z.of_nat (List.length top) - 1)) kept
              (NoDup_filter _ traditional_pairs_NoDup) Hkept)
    as (extra & Hrun & Hnd & Hall).
  rewrite Hrun. eexists. split; [reflexivity|].
  assert (Hklen : (List.length kept <= 4)%nat).
  { unfold kept. etransitivity; [apply filter_length_le | reflexivity]. }
  rewrite Forall_forall in Hall.
  split; [apply firstn_le_length|]. split; [now apply firstn_NoDup|].
  split; [|split].
  - intros a b Hin. apply firstn_incl in Hin. apply Hall in Hin.
    unfold good in Hin. simpl in Hin. tauto.
  - intros Htarget a b Hin. apply firstn_incl in Hin. apply Hall in Hin.
    unfold good in Hin. simpl in Hin. tauto.
  - intros p Hp Ha Hb.
    assert (Hin : In p kept).
    { unfold kept. apply filter_In. split; [exact Hp|].
      apply andb_true_iff. split; now apply str_in_In. }
    rewrite firstn_app.
    apply in_or_app. left. rewrite firstn_all2 by exact Hklen. exact Hin.
Qed.

(** ** A strategy without statistics *)

(** Without a single proven performer, the performance-based selection is
    the quality-based one. *)
Lemma performance_based_selection_nil (random : nat -> Q) (strategy_name : string)
    (base_list : list string) (n i : nat) :
  _performance_based_selection random strategy_name base_list [] n i
  = _quality_based_selection random strategy_name base_list n i.
Proof.
  unfold _performance_based_selection, _quality_based_selection.
  cbn [List.length Nat.min firstn app]. rewrite Nat.sub_0_r.
  rewrite (filter_all _ base_list) by reflexivity.
  destruct (score_stocks random strategy_name base_list i) as [qs i1].
  f_equal. apply firstn_all2. rewrite length_map. apply firstn_le_length.
Qed.

(** X17: for a strategy the ledger has no statistics of, whatever the
    count asked for, [get_optimized_stock_list] returns the quality-based
    selection from the base list of the strategy. *)
Theorem no_statistics_means_quality_selection (random : nat -> Q)
    (pd : PerformanceData) (strategy_name : string) (target_count : option nat)
    (i : nat) :
  dict_get strategy_name (strategy_stats pd) = None ->
  get_optimized_stock_list random pd strategy_name target_count i
  = Ok (_quality_based_selection random strategy_name (base_list_of strategy_name)
          (effective_count strategy_name target_count) i).
Proof.
  intros Hnone.
  assert (Htop : forall count, get_top_performers pd strategy_name count 3 = Ok []).
  { intros count. unfold get_top_performers, get_strategy_performance.
    now rewrite Hnone. }
  unfold get_optimized_stock_list.
  fold (effective_count strategy_name target_count).
  rewrite Htop. unfold bind.
  destruct (effective_count strategy_name target_count / 2 <=? List.length [])%nat;
    [|reflexivity].
  now rewrite performance_based_selection_nil.
Qed.

(** X17 on the empty ledger, with the default count. *)
Lemma no_statistics_means_quality_selection_witness :
  get_optimized_stock_list (fun _ => 0) empty_data "Gap Fade" None 0
  = Ok (_quality_based_selection (fun _ => 0) "Gap Fade" (base_list_of "Gap Fade")
          (effective_count "Gap Fade" None) 0).
Proof.
  apply (no_statistics_means_quality_selection (fun _ => 0) empty_data "Gap Fade" None 0).
  reflexivity.
Defined.

(** ** The performance map and the records *)

(** X18: in a ledger that calls of [record_trade] have kept in step with
    its statistics, every entry of the performance map of a strategy
    reports the records of its pair: [total_trades] is their number, the
    win rate is the number of winning records over that number and lies
    between 0 and 1, [total_pnl_percent] is their returns added from the
    left in the order of the ledger, [avg_pnl_percent] is that sum over
    their number, and [avg_hold_time] the running average of their hold
    times. *)
Theorem performance_map_reports_the_records
    (fromisoformat : string -> option moment) (isoformat : moment -> string)
    (calls : list trade_call) (t : tracker) (strategy_name : string)
    (min_trades : nat) (performance : list (string * Performance))
    (symbol : string) (p : Performance) :
  ledger_consistent (performance_data t) ->
  stats_keys_wf (performance_data t) ->
  let pd := performance_data (final_state (replay fromisoformat isoformat calls t)) in
  get_strategy_performance pd strategy_name min_trades = Ok performance ->
  In (symbol, p) performance ->
  let recs := pair_trades pd strategy_name symbol in
  recs <> [] /\
  pf_total_trades p = List.length recs /\
  (min_trades <= List.length recs)%nat /\
  win_rate p = of_int (List.length (filter tr_win recs)) / of_int (List.length recs) /\
  0 <= win_rate p <= 1 /\
  total_pnl_percent p = py_sum (map tr_pnl_percent recs) /\
  avg_pnl_percent p = py_sum (map tr_pnl_percent recs) / of_int (List.length recs) /\
  pf_avg_hold_time p = running_mean exact (map tr_hold_time_hours recs).
Proof.
  intros Hcons Hwf pd Hperf Hin recs.
  assert (Hcons' : ledger_consistent pd).
  { apply (replay_invariant ledger_consistent); [|exact Hcons].
    intros r pd0. apply apply_trade_consistent. }
  assert (Hwf' : stats_keys_wf pd).
  { apply (replay_invariant stats_keys_wf); [|exact Hwf].
    intros r pd0 _. apply apply_trade_keys_wf. }
  unfold get_strategy_performance in Hperf.
  destruct (dict_get strategy_name (strategy_stats pd)) as [strategy_data|] eqn:Ed.
  2: { inversion Hperf; subst. destruct Hin. }
  destruct (performance_loop_entries min_trades strategy_data strategy_data []
              performance (incl_refl _) (fun k q H => match H with end) Hperf symbol p Hin)
    as (stats & Hstats & Hmin & Hp).
  destruct (symbol_performance_inv stats p Hp) as (Hn & Ht & Hw & Ha & _).
  assert (Hrest : total_pnl_percent p = total_pnl stats /\
                  pf_avg_hold_time p = avg_hold_time stats).
  { rewrite (symbol_performance_ok stats Hn) in Hp. inversion Hp; subst. now split. }
  destruct Hrest as (Htp & Hah).
  pose proof (Hcons' strategy_name symbol) as Hpair.
  unfold get_aggregate in Hpair.
  rewrite Ed, (In_dict_get symbol stats strategy_data (Hwf' _ _ Ed) Hstats) in Hpair.
  fold recs in Hpair. destruct Hpair as (Hne & Hlen & Hwins & Hpnl & Hhold).
  split; [exact Hne|]. split; [congruence|]. split; [lia|].
  assert (Hrate : win_rate p = of_int (List.length (filter tr_win recs))
                               / of_int (List.length recs)).
  { now rewrite Hw, Hwins, Hlen. }
  split; [exact Hrate|]. split.
  - rewrite Hrate. apply rate_bounds; [apply filter_length_le|].
    destruct recs; simpl; [congruence | lia].
  - split; [now rewrite Htp, Hpnl|]. split; [now rewrite Ha, Hpnl, Hlen|].
    now rewrite Hah, Hhold.
Qed.

(** X18 after the two sample trades on a new tracker. *)
Lemma performance_map_reports_the_records_witness :
  let pd := performance_data
              (final_state (replay no_parse no_format sample_calls (new_tracker DiskOk))) in
  let recs := pair_trades pd "S1" "AAPL" in
  recs <> [] /\
  pf_total_trades sample_entry = List.length recs /\
  (1 <= List.length recs)%nat /\
  win_rate sample_entry
    = of_int (List.length (filter tr_win recs)) / of_int (List.length recs) /\
  0 <= win_rate sample_entry <= 1 /\
  total_pnl_percent sample_entry = py_sum (map tr_pnl_percent recs) /\
  avg_pnl_percent sample_entry
    = py_sum (map tr_pnl_percent recs) / of_int (List.length recs) /\
  pf_avg_hold_time sample_entry = running_mean exact (map tr_hold_time_hours recs).
Proof.
  apply (performance_map_reports_the_records no_parse no_format sample_calls
           (new_tracker DiskOk) "S1" 1 [("AAPL", sample_entry)] "AAPL" sample_entry).
  - intros s y. reflexivity.
  - intros s d H. discriminate H.
  - reflexivity.
  - left. reflexivity.
Defined.
